(** * Recomeçar API: the request-to-relational-state mapping layer

    A shallow embedding of [src/main.py]: the Oracle connection pool
    ([init_oracle_pool], [get_db_connection]), the query executor
    ([execute_query]), the Person / Shelter / Donation routes and the
    statistics route, followed by the properties of the specification.

    The database driver ([oracledb]) is outside the program.  It is a
    parameter of the development: a [Driver] gives, for every call the
    program makes, what the driver answers (a value or a raised
    exception).  The program's own state is the global [pool] together
    with a log of the calls it made. *)

From Stdlib Require Import String Ascii List ZArith Bool Lia Arith.
From Stdlib Require Import DecimalString.
Import ListNotations.
Open Scope string_scope.

Set Implicit Arguments.

(** ** Python strings *)

Module Py.


(** [c.upper()] and [c.lower()] on one character.  The case functions
    act on the ASCII letters.  On an [isascii] string they are
    [str.upper] and [str.lower]; on other strings Python also maps
    letters outside ASCII, which these functions leave as they are.
    The program's own identifiers and SQL texts are ASCII. *)
Definition upper_ascii (c : ascii) : ascii :=
  let n := nat_of_ascii c in
  if (Nat.leb 97 n && Nat.leb n 122)%bool then ascii_of_nat (n - 32) else c.

Definition lower_ascii (c : ascii) : ascii :=
  let n := nat_of_ascii c in
  if (Nat.leb 65 n && Nat.leb n 90)%bool then ascii_of_nat (n + 32) else c.

Fixpoint map_string (f : ascii -> ascii) (s : string) : string :=
  match s with
  | EmptyString => EmptyString
  | String c s' => String (f c) (map_string f s')
  end.

Definition upper : string -> string := map_string upper_ascii.
Definition lower : string -> string := map_string lower_ascii.

(** [sub in s] *)
Fixpoint contains (sub s : string) : bool :=
  String.prefix sub s ||
  match s with
  | EmptyString => false
  | String _ s' => contains sub s'
  end.

(** [s.startswith(p)] *)
Definition startswith (p s : string) : bool := String.prefix p s.

(** [sep.join(l)] *)
Definition join (sep : string) (l : list string) : string :=
  String.concat sep l.

(** [str(n)] for an integer *)
Definition str_int (n : Z) : string := NilZero.string_of_int (Z.to_int n).

(** Truthiness of an optional string: [None] and [""] are falsy. *)
Definition truthy (o : option string) : bool :=
  match o with
  | None => false
  | Some s => negb (String.eqb s "")
  end.

End Py.

(** ** Values and dictionaries *)

(** The values bound to statements and found in result rows.  [VVar] is
    the output bind variable made by [cursor.var(oracledb.NUMBER)]. *)
Inductive Value :=
| VNone
| VInt (n : Z)
| VStr (s : string)
| VVar.

Definition Value_eqb (a b : Value) : bool :=
  match a, b with
  | VNone, VNone => true
  | VInt x, VInt y => Z.eqb x y
  | VStr x, VStr y => String.eqb x y
  | VVar, VVar => true
  | _, _ => false
  end.

(** A Python [dict] with string keys: insertion ordered, one entry per
    key.  Order matters here: the SET clause of an update is built by
    iterating over a dict. *)
Definition dict := list (string * Value).

Fixpoint dict_get (d : dict) (k : string) : option Value :=
  match d with
  | [] => None
  | (k', v) :: d' => if String.eqb k' k then Some v else dict_get d' k
  end.

(** [d[k] = v]: replaces in place when the key is there, appends otherwise. *)
Fixpoint dict_set (d : dict) (k : string) (v : Value) : dict :=
  match d with
  | [] => [(k, v)]
  | (k', v') :: d' =>
      if String.eqb k' k then (k', v) :: d' else (k', v') :: dict_set d' k v
  end.

(** [{**d, **e}] *)
Definition dict_update (d e : dict) : dict :=
  fold_left (fun acc kv => dict_set acc (fst kv) (snd kv)) e d.

(** [dict(pairs)] *)
Definition dict_of_pairs (l : list (string * Value)) : dict :=
  dict_update [] l.

Definition keys (d : dict) : list string := map fst d.

(** [dict(zip(columns, row))] *)
Definition dict_zip (columns : list string) (row : list Value) : dict :=
  dict_of_pairs (combine columns row).

(** ** Exceptions *)

(** The exceptions the program raises or meets.  [DatabaseError] carries
    the [code] and [message] of its error object; [InterfaceError] stands
    for the [oracledb.Error]s that are not [DatabaseError]s. *)
Inductive Exn :=
| HTTPException (status_code : Z) (detail : string)
| DatabaseError (code : Z) (message : string)
| InterfaceError (message : string)
| AttributeError (message : string)
| TypeError (message : string)
| KeyError (message : string)
| IndexError (message : string)
| RuntimeError (message : string).

Definition is_oracledb_Error (e : Exn) : bool :=
  match e with
  | DatabaseError _ _ | InterfaceError _ => true
  | _ => false
  end.

Definition is_HTTPException (e : Exn) : bool :=
  match e with
  | HTTPException _ _ => true
  | _ => false
  end.

(** [str(e)], as used by the f-strings of the program: status and detail
    for an [HTTPException] (Starlette's [__str__]), the message for the
    others. *)
Definition str_exn (e : Exn) : string :=
  match e with
  | HTTPException s d => Py.str_int s ++ ": " ++ d
  | DatabaseError _ m | InterfaceError m | AttributeError m | TypeError m
  | KeyError m | IndexError m | RuntimeError m => m
  end.

(** The status a caller observes for an exception that is an
    [HTTPException]. *)
Definition status_of (e : Exn) : option Z :=
  match e with
  | HTTPException s _ => Some s
  | _ => None
  end.

(** ** The driver and the program state *)

(** A connection remembers the pool it was acquired from. *)
Record Conn := { conn_pool : nat; conn_id : nat }.

Definition Conn_eqb (a b : Conn) : bool :=
  Nat.eqb (conn_pool a) (conn_pool b) && Nat.eqb (conn_id a) (conn_id b).

(** What a cursor holds after [cursor.execute]. *)
Record ResultSet := {
  description : option (list string);
  rows : list (list Value);
  outvar : string -> list Value
}.

(** The driver's answers.  Every call to the driver draws a fresh number
    from the clock of the state and asks the driver with it; [None]
    means the call went through, [Some e] that it raised [e]. *)
Record Driver := {
  SessionPool : nat -> option Exn;
  pool_close : nat -> option Exn;
  pool_acquire : nat -> option Exn;
  conn_cursor : nat -> option Exn;
  cursor_execute : nat -> string -> dict -> Exn + ResultSet;
  conn_commit : nat -> option Exn
}.

(** The environment variables read at import time. *)
Record Config := {
  DB_USER : option string;
  DB_PASSWORD : option string;
  DB_HOST : option string;
  DB_PORT_env : option string;
  DB_SERVICE_NAME : option string
}.

Inductive Event :=
| EvPrint (msg : string)
| EvSessionPool (created : option nat)
| EvPoolClose (p : nat)
| EvAcquire (c : Conn)
| EvCursor (c : Conn)
| EvExecute (c : Conn) (query : string) (binds : dict)
| EvCommit (c : Conn)
| EvCursorClose (c : Conn)
| EvRelease (p : nat) (c : Conn).

(** [pool] is the module's global; [log] lists the calls made so far,
    the latest first. *)
Record State := { pool : option nat; clock : nat; log : list Event }.

Definition initial_state : State := {| pool := None; clock := 0; log := [] |}.

(** ** A state and exception monad *)

Inductive Result (A : Type) :=
| Ok (a : A)
| Raise (e : Exn).
Arguments Raise {A} e.

Definition M (A : Type) := State -> Result A * State.

Definition ret {A} (a : A) : M A := fun st => (Ok a, st).
Definition raise {A} (e : Exn) : M A := fun st => (Raise e, st).
Definition bind {A B} (m : M A) (f : A -> M B) : M B :=
  fun st =>
    match m st with
    | (Ok a, st') => f a st'
    | (Raise e, st') => (Raise e, st')
    end.

Declare Scope py_scope.
Delimit Scope py_scope with py.
Notation "x <- m ;; k" := (bind m (fun x => k))
  (at level 100, m at next level, right associativity) : py_scope.
Notation "m ;; k" := (bind m (fun _ => k))
  (at level 100, right associativity) : py_scope.
Open Scope py_scope.

Definition get_pool : M (option nat) := fun st => (Ok (pool st), st).
Definition set_pool (p : option nat) : M unit :=
  fun st => (Ok tt, {| pool := p; clock := clock st; log := log st |}).
Definition emit (e : Event) : M unit :=
  fun st => (Ok tt, {| pool := pool st; clock := clock st; log := e :: log st |}).
Definition print (msg : string) : M unit := emit (EvPrint msg).
Definition tick : M nat :=
  fun st => (Ok (clock st),
             {| pool := pool st; clock := S (clock st); log := log st |}).

(** [try: m except Exception as e: h e] *)
Definition try_except {A} (m : M A) (h : Exn -> M A) : M A :=
  fun st =>
    match m st with
    | (Ok a, st') => (Ok a, st')
    | (Raise e, st') => h e st'
    end.

Fixpoint mapM {A B} (f : A -> M B) (l : list A) : M (list B) :=
  match l with
  | [] => ret []
  | a :: l' => b <- f a ;; bs <- mapM f l' ;; ret (b :: bs)
  end.

(** What [execute_query] returns: [None], one dict, or a list of dicts. *)
Inductive QResult :=
| RNone
| RDict (d : dict)
| RList (l : list dict).

(** ** The Pydantic models *)

Definition opt_str (o : option string) : Value :=
  match o with
  | Some s => VStr s
  | None => VNone
  end.

Definition opt_int (o : option Z) : Value :=
  match o with
  | Some n => VInt n
  | None => VNone
  end.

(** One entry of [model.dict(exclude_unset=True)]: a field that was not
    set gives nothing; a field set to [None] gives [None]. *)
Definition set_field {A} (to_value : option A -> Value) (name : string)
    (f : option (option A)) : dict :=
  match f with
  | Some v => [(name, to_value v)]
  | None => []
  end.

Module PessoaCreate.
Record t := {
  nome : string;
  cpf : string;
  telefone : option string;
  endereco : option string;
  situacao : string;
  necessidades : option string
}.
(** [pessoa.dict()] *)
Definition to_dict (p : t) : dict :=
  [("nome", VStr (nome p)); ("cpf", VStr (cpf p));
   ("telefone", opt_str (telefone p)); ("endereco", opt_str (endereco p));
   ("situacao", VStr (situacao p));
   ("necessidades", opt_str (necessidades p))].
End PessoaCreate.

Module PessoaUpdate.
(** Every field is optional; [None] is a field the request left out. *)
Record t := {
  nome : option (option string);
  telefone : option (option string);
  endereco : option (option string);
  situacao : option (option string);
  necessidades : option (option string)
}.
Definition fields : list string :=
  ["nome"; "telefone"; "endereco"; "situacao"; "necessidades"].
(** [pessoa_update.dict(exclude_unset=True)] *)
Definition dict_exclude_unset (u : t) : dict :=
  (set_field opt_str "nome" (nome u) ++
  set_field opt_str "telefone" (telefone u) ++
  set_field opt_str "endereco" (endereco u) ++
  set_field opt_str "situacao" (situacao u) ++
  set_field opt_str "necessidades" (necessidades u))%list.
End PessoaUpdate.

Module AbrigoCreate.
Record t := {
  nome : string;
  endereco : string;
  capacidade : Z;
  ocupacao_atual : option Z;
  responsavel : option string;
  telefone_responsavel : option string;
  recursos_disponiveis : option string
}.
Definition to_dict (a : t) : dict :=
  [("nome", VStr (nome a)); ("endereco", VStr (endereco a));
   ("capacidade", VInt (capacidade a));
   ("ocupacao_atual", opt_int (ocupacao_atual a));
   ("responsavel", opt_str (responsavel a));
   ("telefone_responsavel", opt_str (telefone_responsavel a));
   ("recursos_disponiveis", opt_str (recursos_disponiveis a))].
End AbrigoCreate.

Module AbrigoUpdate.
Record t := {
  nome : option (option string);
  endereco : option (option string);
  capacidade : option (option Z);
  ocupacao_atual : option (option Z);
  responsavel : option (option string);
  telefone_responsavel : option (option string);
  recursos_disponiveis : option (option string)
}.
Definition fields : list string :=
  ["nome"; "endereco"; "capacidade"; "ocupacao_atual"; "responsavel";
   "telefone_responsavel"; "recursos_disponiveis"].
Definition dict_exclude_unset (u : t) : dict :=
  (set_field opt_str "nome" (nome u) ++
  set_field opt_str "endereco" (endereco u) ++
  set_field opt_int "capacidade" (capacidade u) ++
  set_field opt_int "ocupacao_atual" (ocupacao_atual u) ++
  set_field opt_str "responsavel" (responsavel u) ++
  set_field opt_str "telefone_responsavel" (telefone_responsavel u) ++
  set_field opt_str "recursos_disponiveis" (recursos_disponiveis u))%list.
End AbrigoUpdate.

Module DoacaoCreate.
Record t := {
  doador_nome : option string;
  doador_telefone : option string;
  tipo_doacao : string;
  descricao : string;
  quantidade : option string;
  status : string;
  id_abrigo_destino : option Z
}.
Definition to_dict (d : t) : dict :=
  [("doador_nome", opt_str (doador_nome d));
   ("doador_telefone", opt_str (doador_telefone d));
   ("tipo_doacao", VStr (tipo_doacao d));
   ("descricao", VStr (descricao d));
   ("quantidade", opt_str (quantidade d));
   ("status", VStr (status d));
   ("id_abrigo_destino", opt_int (id_abrigo_destino d))].
End DoacaoCreate.

Module DoacaoUpdate.
Record t := {
  doador_nome : option (option string);
  doador_telefone : option (option string);
  tipo_doacao : option (option string);
  descricao : option (option string);
  quantidade : option (option string);
  status : option (option string);
  id_abrigo_destino : option (option string)
}.
Definition fields : list string :=
  ["doador_nome"; "doador_telefone"; "tipo_doacao"; "descricao";
   "quantidade"; "status"; "id_abrigo_destino"].
Definition dict_exclude_unset (u : t) : dict :=
  (set_field opt_str "doador_nome" (doador_nome u) ++
  set_field opt_str "doador_telefone" (doador_telefone u) ++
  set_field opt_str "tipo_doacao" (tipo_doacao u) ++
  set_field opt_str "descricao" (descricao u) ++
  set_field opt_str "quantidade" (quantidade u) ++
  set_field opt_str "status" (status u) ++
  set_field opt_str "id_abrigo_destino" (id_abrigo_destino u))%list.
End DoacaoUpdate.

(** [not r] for what [execute_query] returned. *)
Definition falsy (r : QResult) : bool :=
  match r with
  | RNone | RDict [] | RList [] => true
  | _ => false
  end.

(** [r[key]] *)
Definition subscript (r : QResult) (key : string) : Result Value :=
  match r with
  | RDict d =>
      match dict_get d key with
      | Some v => Ok v
      | None => Raise (KeyError ("'" ++ key ++ "'"))
      end
  | RNone => Raise (TypeError "'NoneType' object is not subscriptable")
  | RList _ => Raise (TypeError "list indices must be integers or slices, not str")
  end.

(** The SET clause of the update routes:
    [", ".join([f"{key.upper()} = :{key}" for key in update_data.keys()])] *)
Definition set_clauses (update_data : dict) : string :=
  Py.join ", " (map (fun key => Py.upper key ++ " = :" ++ key) (keys update_data)).

(** ** The connection pool *)

(** The local variables [conn] and [cursor] of [execute_query], as its
    [finally] block finds them. *)
Record Locals := { conn : option Conn; cursor : option Conn }.

(** The vendor error codes that [execute_query] takes for a lost
    connection. *)
Definition connectivity_codes : list Z :=
  [24324; 1033; 1089; 3113; 3114; 12537; 12541]%Z.

Definition is_connectivity (code : Z) : bool :=
  existsb (Z.eqb code) connectivity_codes.

Section Program.

Variable cfg : Config.
Variable drv : Driver.

Definition DB_PORT : string :=
  match DB_PORT_env cfg with
  | Some p => p
  | None => "1521"
  end.

(** [missing_vars]: the variables that are [None]; a warning is printed
    for them and nothing is raised. *)
Definition missing_vars : list (option string) :=
  filter (fun v => match v with None => true | Some _ => false end)
    [DB_USER cfg; DB_PASSWORD cfg; DB_HOST cfg; DB_SERVICE_NAME cfg].

Definition DB_DSN : option string :=
  match DB_HOST cfg, DB_SERVICE_NAME cfg with
  | Some h, Some s =>
      if Py.truthy (Some h) && Py.truthy (Some s)
      then Some (h ++ ":" ++ DB_PORT ++ "/" ++ s)
      else None
  | _, _ => None
  end.

(** [all([DB_USER, DB_PASSWORD, DB_DSN])] *)
Definition credentials_present : bool :=
  forallb Py.truthy [DB_USER cfg; DB_PASSWORD cfg; DB_DSN].

Definition str_opt (o : option string) : string :=
  match o with
  | Some s => s
  | None => "None"
  end.

Definition init_oracle_pool : M unit :=
  if negb credentials_present then
    print "Não é possível inicializar o pool do Oracle: credenciais ou DSN ausentes."
  else
    print ("Tentando inicializar pool Oracle com DSN: " ++ str_opt DB_DSN) ;;
    t <- tick ;;
    match SessionPool drv t with
    | None =>
        emit (EvSessionPool (Some t)) ;;
        set_pool (Some t) ;;
        print "Pool de conexões Oracle inicializado com sucesso."
    | Some e =>
        emit (EvSessionPool None) ;;
        if is_oracledb_Error e then
          print ("Erro ao inicializar pool Oracle: " ++ str_exn e) ;;
          set_pool None
        else raise e
    end.

Definition startup_event : M unit := init_oracle_pool.

Definition shutdown_event : M unit :=
  p <- get_pool ;;
  match p with
  | Some p =>
      t <- tick ;;
      emit (EvPoolClose p) ;;
      match pool_close drv t with
      | None => print "Pool de conexões Oracle fechado."
      | Some e => raise e
      end
  | None => ret tt
  end.

Definition get_db_connection : M Conn :=
  p0 <- get_pool ;;
  match p0 with
  | None =>
      print "Pool não inicializado. Tentando inicializar agora..." ;;
      init_oracle_pool ;;
      p1 <- get_pool ;;
      match p1 with
      | None =>
          raise (HTTPException 503
            "Serviço de banco de dados indisponível (pool não inicializado). Verifique as configurações e logs do servidor.")
      | Some _ => ret tt
      end
  | Some _ => ret tt
  end ;;
  p <- get_pool ;;
  match p with
  | None => raise (AttributeError "'NoneType' object has no attribute 'acquire'")
  | Some p =>
      t <- tick ;;
      match pool_acquire drv t with
      | None =>
          let c := {| conn_pool := p; conn_id := t |} in
          emit (EvAcquire c) ;;
          ret c
      | Some e =>
          if is_oracledb_Error e then
            print ("Erro ao adquirir conexão do pool: " ++ str_exn e) ;;
            raise (HTTPException 503
                     ("Erro ao conectar ao banco de dados: " ++ str_exn e))
          else raise e
      end
  end.

(** ** The query executor *)

Definition call_cursor (c : Conn) : M Conn :=
  t <- tick ;;
  match conn_cursor drv t with
  | None => emit (EvCursor c) ;; ret c
  | Some e => raise e
  end.

Definition call_execute (c : Conn) (query : string) (binds : dict)
  : M ResultSet :=
  t <- tick ;;
  emit (EvExecute c query binds) ;;
  match cursor_execute drv t query binds with
  | inr rs => ret rs
  | inl e => raise e
  end.

Definition call_commit (c : Conn) : M unit :=
  t <- tick ;;
  match conn_commit drv t with
  | None => emit (EvCommit c)
  | Some e => raise e
  end.

(** [var.getvalue()[0]] *)
Definition getvalue0 (rs : ResultSet) (key : string) : M (string * Value) :=
  match outvar rs key with
  | v :: _ => ret (key, v)
  | [] => raise (IndexError "list index out of range")
  end.

(** [[col[0].lower() for col in cursor.description]] *)
Definition columns_of (rs : ResultSet) : M (list string) :=
  match description rs with
  | Some cols => ret (map Py.lower cols)
  | None => raise (TypeError "'NoneType' object is not iterable")
  end.

(** [params] is truthy: neither [None] nor empty. *)
Definition params_truthy (params : option dict) : bool :=
  match params with
  | Some (_ :: _) => true
  | _ => false
  end.

(** [params or {}] *)
Definition params_or_empty (params : option dict) : dict :=
  match params with
  | Some d => d
  | None => []
  end.

(** The statements of the [try] block after [cursor = conn.cursor()].
    The last line of the source, the list comprehension of the
    multi-row branch, is written there with a [']'] where the call
    to [dict] wants its [')']; it is embedded as the comprehension
    [[dict(zip(columns, row)) for row in rows]] that the single-row
    branch spells out three lines above. *)
Definition execute_query_body (c : Conn) (query : string)
    (params : option dict) (fetch_one commit is_ddl : bool) : M QResult :=
  if Py.contains "RETURNING" (Py.upper query) && params_truthy params then
    let ps := params_or_empty params in
    let out_params := filter (Py.startswith "out_") (keys ps) in
    let bind_params := dict_update ps (map (fun k => (k, VVar)) out_params) in
    rs <- call_execute c query bind_params ;;
    returned_ids <- mapM (getvalue0 rs) out_params ;;
    (if commit then call_commit c else ret tt) ;;
    ret (RDict (dict_of_pairs returned_ids))
  else
    rs <- call_execute c query (params_or_empty params) ;;
    if is_ddl || commit then
      call_commit c ;;
      ret RNone
    else if fetch_one then
      match rows rs with
      | (_ :: _) as row :: _ =>
          columns <- columns_of rs ;;
          ret (RDict (dict_zip columns row))
      | _ => ret RNone
      end
    else
      columns <- columns_of rs ;;
      ret (RList (map (dict_zip columns) (rows rs))).

(** The [try] block, with the locals it leaves behind. *)
Definition execute_query_try (query : string) (params : option dict)
    (fetch_one commit is_ddl : bool)
  : State -> Result QResult * Locals * State :=
  fun st =>
    match get_db_connection st with
    | (Raise e, st1) => (Raise e, {| conn := None; cursor := None |}, st1)
    | (Ok c, st1) =>
        match call_cursor c st1 with
        | (Raise e, st2) =>
            (Raise e, {| conn := Some c; cursor := None |}, st2)
        | (Ok cur, st2) =>
            let (r, st3) :=
              execute_query_body c query params fetch_one commit is_ddl st2 in
            (r, {| conn := Some c; cursor := Some cur |}, st3)
        end
    end.

(** The two [except] clauses. *)
Definition execute_query_except (e : Exn) : M QResult :=
  match e with
  | DatabaseError code message =>
      print ("Oracle Database Error: " ++ Py.str_int code ++ " - " ++ message) ;;
      (if is_connectivity code then
         print "Erro de conexão detectado. Tentando fechar e reabrir o pool." ;;
         p <- get_pool ;;
         match p with
         | Some p =>
             t <- tick ;;
             emit (EvPoolClose p) ;;
             match pool_close drv t with
             | Some close_err =>
                 print ("Erro ao fechar pool existente: " ++ str_exn close_err)
             | None => ret tt
             end ;;
             set_pool None
         | None => ret tt
         end ;;
         init_oracle_pool
       else ret tt) ;;
      raise (HTTPException 500 ("Erro no banco de dados Oracle: " ++ message))
  | _ =>
      print ("Erro genérico na execução da query: " ++ str_exn e) ;;
      raise (HTTPException 500 ("Erro interno do servidor: " ++ str_exn e))
  end.

(** The [finally] block.  [pool] is read from the global at this point;
    an exception raised here replaces the pending outcome [r]. *)
Definition execute_query_finally (loc : Locals) (r : Result QResult)
  : M QResult :=
  match cursor loc with
  | Some cur => emit (EvCursorClose cur)
  | None => ret tt
  end ;;
  match conn loc with
  | Some c =>
      p <- get_pool ;;
      match p with
      | Some p => emit (EvRelease p c)
      | None =>
          raise (AttributeError "'NoneType' object has no attribute 'release'")
      end
  | None => ret tt
  end ;;
  fun st => (r, st).

Definition execute_query (query : string) (params : option dict)
    (fetch_one commit is_ddl : bool) : M QResult :=
  fun st =>
    let '(r, loc, st1) :=
      execute_query_try query params fetch_one commit is_ddl st in
    let (r', st2) :=
      match r with
      | Ok v => (Ok v, st1)
      | Raise e => execute_query_except e st1
      end in
    execute_query_finally loc r' st2.

Definition lift {A} (r : Result A) : M A := fun st => (r, st).

(** ** Pessoas *)

Definition query_cadastrar_pessoa : string :=
"
        INSERT INTO PESSOAS (NOME, CPF, TELEFONE, ENDERECO, SITUACAO, NECESSIDADES)
        VALUES (:nome, :cpf, :telefone, :endereco, :situacao, :necessidades)
        RETURNING ID_PESSOA INTO :out_id_pessoa
    ".

Definition query_listar_pessoas : string :=
  "SELECT ID_PESSOA, NOME, CPF, TELEFONE, ENDERECO, SITUACAO, NECESSIDADES, DATA_CADASTRO FROM PESSOAS ORDER BY NOME".

Definition query_obter_pessoa : string :=
  "SELECT ID_PESSOA, NOME, CPF, TELEFONE, ENDERECO, SITUACAO, NECESSIDADES, DATA_CADASTRO FROM PESSOAS WHERE ID_PESSOA = :id_pessoa".

Definition obter_pessoa (pessoa_id : Value) : M QResult :=
  pessoa <- execute_query query_obter_pessoa
              (Some [("id_pessoa", pessoa_id)]) true false false ;;
  if falsy pessoa then raise (HTTPException 404 "Pessoa não encontrada")
  else ret pessoa.

Definition cadastrar_pessoa (pessoa : PessoaCreate.t) : M QResult :=
  let params := dict_set (PessoaCreate.to_dict pessoa) "out_id_pessoa" VNone in
  try_except
    (returned_data <- execute_query query_cadastrar_pessoa (Some params)
                        false true false ;;
     new_id <- lift (subscript returned_data "out_id_pessoa") ;;
     obter_pessoa new_id)
    (fun e =>
       match e with
       | HTTPException _ detail =>
           if Py.contains "UNIQUE_CONSTRAINT_VIOLATED" (Py.upper detail)
              || Py.contains "ORA-00001" detail
           then raise (HTTPException 409
                         ("CPF " ++ PessoaCreate.cpf pessoa ++ " já cadastrado."))
           else raise e
       | _ => raise e
       end).

Definition listar_pessoas : M QResult :=
  execute_query query_listar_pessoas None false false false.

Definition query_atualizar_pessoa (update_data : dict) : string :=
  "UPDATE PESSOAS SET " ++ set_clauses update_data ++
  " WHERE ID_PESSOA = :id_pessoa_param".

Definition atualizar_pessoa (pessoa_id : Value)
    (pessoa_update : PessoaUpdate.t) : M QResult :=
  obter_pessoa pessoa_id ;;
  let update_data := PessoaUpdate.dict_exclude_unset pessoa_update in
  match update_data with
  | [] => raise (HTTPException 400 "Nenhum dado fornecido para atualização")
  | _ :: _ =>
      let query := query_atualizar_pessoa update_data in
      let params := dict_update update_data [("id_pessoa_param", pessoa_id)] in
      execute_query query (Some params) false true false ;;
      obter_pessoa pessoa_id
  end.

Definition deletar_pessoa (pessoa_id : Value) : M QResult :=
  obter_pessoa pessoa_id ;;
  execute_query "DELETE FROM PESSOAS WHERE ID_PESSOA = :id_pessoa"
    (Some [("id_pessoa", pessoa_id)]) false true false ;;
  ret RNone.

(** ** Abrigos *)

Definition query_cadastrar_abrigo : string :=
"
        INSERT INTO ABRIGOS (NOME, ENDERECO, CAPACIDADE, OCUPACAO_ATUAL, RESPONSAVEL, TELEFONE_RESPONSAVEL, RECURSOS_DISPONIVEIS)
        VALUES (:nome, :endereco, :capacidade, :ocupacao_atual, :responsavel, :telefone_responsavel, :recursos_disponiveis)
        RETURNING ID_ABRIGO INTO :out_id_abrigo
    ".

Definition query_listar_abrigos : string :=
  "SELECT ID_ABRIGO, NOME, ENDERECO, CAPACIDADE, OCUPACAO_ATUAL, RESPONSAVEL, TELEFONE_RESPONSAVEL, RECURSOS_DISPONIVEIS, DATA_CRIACAO FROM ABRIGOS ORDER BY NOME".

Definition query_obter_abrigo : string :=
  "SELECT ID_ABRIGO, NOME, ENDERECO, CAPACIDADE, OCUPACAO_ATUAL, RESPONSAVEL, TELEFONE_RESPONSAVEL, RECURSOS_DISPONIVEIS, DATA_CRIACAO FROM ABRIGOS WHERE ID_ABRIGO = :id_abrigo".

Definition obter_abrigo (abrigo_id : Value) : M QResult :=
  abrigo_data <- execute_query query_obter_abrigo
                   (Some [("id_abrigo", abrigo_id)]) true false false ;;
  if falsy abrigo_data then raise (HTTPException 404 "Abrigo não encontrado")
  else ret abrigo_data.

Definition cadastrar_abrigo (abrigo : AbrigoCreate.t) : M QResult :=
  let params := dict_set (AbrigoCreate.to_dict abrigo) "out_id_abrigo" VNone in
  try_except
    (returned_data <- execute_query query_cadastrar_abrigo (Some params)
                        false true false ;;
     new_id <- lift (subscript returned_data "out_id_abrigo") ;;
     obter_abrigo new_id)
    (fun e => raise e).

Definition listar_abrigos : M QResult :=
  execute_query query_listar_abrigos None false false false.

Definition query_atualizar_abrigo (update_data : dict) : string :=
  "UPDATE ABRIGOS SET " ++ set_clauses update_data ++
  " WHERE ID_ABRIGO = :id_abrigo_param".

Definition atualizar_abrigo (abrigo_id : Value)
    (abrigo_update : AbrigoUpdate.t) : M QResult :=
  obter_abrigo abrigo_id ;;
  let update_data := AbrigoUpdate.dict_exclude_unset abrigo_update in
  match update_data with
  | [] => raise (HTTPException 400 "Nenhum dado para atualização")
  | _ :: _ =>
      let query := query_atualizar_abrigo update_data in
      let params := dict_update update_data [("id_abrigo_param", abrigo_id)] in
      execute_query query (Some params) false true false ;;
      obter_abrigo abrigo_id
  end.

Definition deletar_abrigo (abrigo_id : Value) : M QResult :=
  obter_abrigo abrigo_id ;;
  execute_query "DELETE FROM ABRIGOS WHERE ID_ABRIGO = :id_abrigo"
    (Some [("id_abrigo", abrigo_id)]) false true false ;;
  ret RNone.

(** ** Doações *)

Definition query_cadastrar_doacao : string :=
"
        INSERT INTO DOACOES (DOADOR_NOME, DOADOR_TELEFONE, TIPO_DOACAO, DESCRICAO, QUANTIDADE, STATUS, ID_ABRIGO_DESTINO)
        VALUES (:doador_nome, :doador_telefone, :tipo_doacao, :descricao, :quantidade, :status, :id_abrigo_destino)
        RETURNING ID_DOACAO INTO :out_id_doacao
    ".

Definition query_listar_doacoes : string :=
  "SELECT ID_DOACAO, DOADOR_NOME, DOADOR_TELEFONE, TIPO_DOACAO, DESCRICAO, QUANTIDADE, STATUS, DATA_DOACAO, ID_ABRIGO_DESTINO FROM DOACOES ORDER BY DATA_DOACAO DESC".

Definition query_obter_doacao : string :=
  "SELECT ID_DOACAO, DOADOR_NOME, DOADOR_TELEFONE, TIPO_DOACAO, DESCRICAO, QUANTIDADE, STATUS, DATA_DOACAO, ID_ABRIGO_DESTINO FROM DOACOES WHERE ID_DOACAO = :id_doacao".

Definition obter_doacao (doacao_id : Value) : M QResult :=
  doacao_data <- execute_query query_obter_doacao
                   (Some [("id_doacao", doacao_id)]) true false false ;;
  if falsy doacao_data then raise (HTTPException 404 "Doação não encontrada")
  else ret doacao_data.

Definition cadastrar_doacao (doacao : DoacaoCreate.t) : M QResult :=
  let params := dict_set (DoacaoCreate.to_dict doacao) "out_id_doacao" VNone in
  try_except
    (returned_data <- execute_query query_cadastrar_doacao (Some params)
                        false true false ;;
     new_id <- lift (subscript returned_data "out_id_doacao") ;;
     obter_doacao new_id)
    (fun e => raise e).

Definition listar_doacoes : M QResult :=
  execute_query query_listar_doacoes None false false false.

Definition query_atualizar_doacao (update_data : dict) : string :=
  "UPDATE DOACOES SET " ++ set_clauses update_data ++
  " WHERE ID_DOACAO = :id_doacao_param".

Definition atualizar_doacao (doacao_id : Value)
    (doacao_update : DoacaoUpdate.t) : M QResult :=
  obter_doacao doacao_id ;;
  let update_data := DoacaoUpdate.dict_exclude_unset doacao_update in
  match update_data with
  | [] => raise (HTTPException 400 "Nenhum dado para atualização")
  | _ :: _ =>
      let query := query_atualizar_doacao update_data in
      let params := dict_update update_data [("id_doacao_param", doacao_id)] in
      execute_query query (Some params) false true false ;;
      obter_doacao doacao_id
  end.

Definition deletar_doacao (doacao_id : Value) : M QResult :=
  obter_doacao doacao_id ;;
  execute_query "DELETE FROM DOACOES WHERE ID_DOACAO = :id_doacao"
    (Some [("id_doacao", doacao_id)]) false true false ;;
  ret RNone.

(** ** Estatísticas *)

Definition query_pessoas_total : string :=
  "SELECT COUNT(*) AS total FROM PESSOAS".
Definition query_pessoas_desabrigadas : string :=
  "SELECT COUNT(*) AS total FROM PESSOAS WHERE SITUACAO = 'desabrigado'".
Definition query_abrigos_total : string :=
  "SELECT COUNT(*) AS total FROM ABRIGOS".
Definition query_vagas_disponiveis : string :=
  "SELECT SUM(CAPACIDADE - OCUPACAO_ATUAL) AS total FROM ABRIGOS".
Definition query_doacoes_total : string :=
  "SELECT COUNT(*) AS total FROM DOACOES".
Definition query_doacoes_pendentes : string :=
  "SELECT COUNT(*) AS total FROM DOACOES WHERE STATUS = 'pendente'".

(** [execute_query(q, fetch_one=True)['total']] *)
Definition read_total (q : string) : M Value :=
  r <- execute_query q None true false false ;;
  lift (subscript r "total").

(** The [try] block of [obter_estatisticas]; it gives the six locals. *)
Definition obter_estatisticas_try : M dict :=
  total_pessoas <- read_total query_pessoas_total ;;
  pessoas_desabrigadas <- read_total query_pessoas_desabrigadas ;;
  total_abrigos <- read_total query_abrigos_total ;;
  vagas_disponiveis_result <-
    execute_query query_vagas_disponiveis None true false false ;;
  vagas_disponiveis <-
    (if negb (falsy vagas_disponiveis_result) then
       v <- lift (subscript vagas_disponiveis_result "total") ;;
       match v with
       | VNone => ret (VInt 0)
       | _ => lift (subscript vagas_disponiveis_result "total")
       end
     else ret (VInt 0)) ;;
  total_doacoes <- read_total query_doacoes_total ;;
  doacoes_pendentes <- read_total query_doacoes_pendentes ;;
  ret [("total_pessoas", total_pessoas);
       ("pessoas_desabrigadas", pessoas_desabrigadas);
       ("total_abrigos", total_abrigos);
       ("vagas_disponiveis", vagas_disponiveis);
       ("total_doacoes", total_doacoes);
       ("doacoes_pendentes", doacoes_pendentes)].

Definition obter_estatisticas : M dict :=
  try_except obter_estatisticas_try
    (fun e =>
       print ("Erro ao buscar estatísticas: " ++ str_exn e) ;;
       raise (HTTPException 500
                ("Erro ao buscar estatísticas do banco: " ++ str_exn e))).

End Program.

(** * The vocabulary of the properties *)

Open Scope list_scope.

(** ** Reading the log and the driver *)

(** The statements sent to the database, with their bind values. *)
Definition executed (evs : list Event) : list (string * dict) :=
  flat_map (fun e => match e with
                     | EvExecute _ q b => [(q, b)]
                     | _ => []
                     end) evs.

Definition commits (evs : list Event) : list Conn :=
  flat_map (fun e => match e with
                     | EvCommit c => [c]
                     | _ => []
                     end) evs.

Definition acquired (evs : list Event) : list Conn :=
  flat_map (fun e => match e with
                     | EvAcquire c => [c]
                     | _ => []
                     end) evs.

Definition released (evs : list Event) : list (nat * Conn) :=
  flat_map (fun e => match e with
                     | EvRelease p c => [(p, c)]
                     | _ => []
                     end) evs.

(** No statement but SELECTs was sent and nothing was committed. *)
Definition reads_only (evs : list Event) : Prop :=
  commits evs = [] /\
  Forall (fun qb => Py.startswith "SELECT" (fst qb) = true) (executed evs).

(** Every pool the state names was made before the present clock. *)
Definition wf_state (st : State) : Prop :=
  forall p, pool st = Some p -> p < clock st.

(** The bind values [execute_query] hands to [cursor.execute]; the
    branch is the one the code takes on every query in ASCII (see
    [Py.upper]). *)
Definition binds_for (query : string) (params : option dict) : dict :=
  if Py.contains "RETURNING" (Py.upper query) && params_truthy params then
    dict_update (params_or_empty params)
      (map (fun k => (k, VVar))
         (filter (Py.startswith "out_") (keys (params_or_empty params))))
  else params_or_empty params.

(** The pool hands out connections and connections hand out cursors. *)
Definition healthy (drv : Driver) : Prop :=
  (forall t, pool_acquire drv t = None) /\ (forall t, conn_cursor drv t = None).

(** The connection acquired at state [st] from pool [p]. *)
Definition conn_at (p : nat) (st : State) : Conn :=
  {| conn_pool := p; conn_id := clock st |}.

(** The state after one plain round trip ([commit] and [is_ddl] false):
    acquire, open a cursor, execute, close the cursor, release. *)
Definition after_read (p : nat) (query : string) (binds : dict) (st : State)
  : State :=
  {| pool := Some p;
     clock := S (S (S (clock st)));
     log := EvRelease p (conn_at p st) :: EvCursorClose (conn_at p st)
            :: EvExecute (conn_at p st) query binds
            :: EvCursor (conn_at p st) :: EvAcquire (conn_at p st) :: log st |}.

(** [cursor.fetchone()] turned into the value returned. *)
Definition single_row (columns : list string) (rs : ResultSet) : QResult :=
  match rows rs with
  | (_ :: _) as row :: _ => RDict (dict_zip (map Py.lower columns) row)
  | _ => RNone
  end.

(** Two messages of the pool functions. *)
Definition msg_no_credentials : string :=
  "Não é possível inicializar o pool do Oracle: credenciais ou DSN ausentes.".

Definition msg_pool_absent : string :=
  "Serviço de banco de dados indisponível (pool não inicializado). Verifique as configurações e logs do servidor.".

(** ** Statistics *)

(** The six aggregate statements, in the order of the source. *)
Definition statistics_queries : list string :=
  [query_pessoas_total; query_pessoas_desabrigadas; query_abrigos_total;
   query_vagas_disponiveis; query_doacoes_total; query_doacoes_pendentes].

Definition statistics_keys : list string :=
  ["total_pessoas"; "pessoas_desabrigadas"; "total_abrigos";
   "vagas_disponiveis"; "total_doacoes"; "doacoes_pendentes"].

(** What Oracle answers to [SELECT <aggregate> AS total ...]: one row with
    one column, named in upper case. *)
Definition scalar (v : Value) : ResultSet :=
  {| description := Some ["TOTAL"]; rows := [[v]]; outvar := fun _ => [] |}.

(** [total if total is not None else 0] *)
Definition none_as_zero (v : Value) : Value :=
  match v with
  | VNone => VInt 0
  | _ => v
  end.

(** The value a statistic takes from the answer [r] of its read:
    [r['total']], and for the sum of free places [0] when there is no
    row or the sum is null. *)
Definition total_of (q : string) (r : QResult) : Result Value :=
  if String.eqb q query_vagas_disponiveis then
    if falsy r then Ok (VInt 0)
    else match subscript r "total" with
         | Ok v => Ok (none_as_zero v)
         | Raise e => Raise e
         end
  else subscript r "total".

(** The reads of the statistics one after the other: each statement in
    single-row mode, its total taken before the next statement is sent;
    the first failure ends the run. *)
Fixpoint read_totals (cfg : Config) (drv : Driver) (qs : list string)
  : M (list Value) :=
  match qs with
  | [] => ret []
  | q :: qs' =>
      r <- execute_query cfg drv q None true false false ;;
      v <- lift (total_of q r) ;;
      vs <- read_totals cfg drv qs' ;;
      ret (v :: vs)
  end.

(** [reads_ok cfg drv qs st vs st']: the statements [qs], sent one after
    the other from [st], were all answered, gave the totals [vs] and
    left the state [st']. *)
Fixpoint reads_ok (cfg : Config) (drv : Driver) (qs : list string)
    (st : State) (vs : list Value) (st' : State) : Prop :=
  match qs, vs with
  | [], [] => st' = st
  | q :: qs', v :: vs' =>
      exists r s,
        execute_query cfg drv q None true false false st = (Ok r, s) /\
        total_of q r = Ok v /\
        reads_ok cfg drv qs' s vs' st'
  | _, _ => False
  end.

(** The state in which [obter_estatisticas] raises after the exception
    [e] met it in state [s]. *)
Definition statistics_failed (e : Exn) (s : State) : State :=
  {| pool := pool s; clock := clock s;
     log := EvPrint ("Erro ao buscar estatísticas: " ++ str_exn e) :: log s |}.

(** ** Update routes *)

(** One assignment of a SET clause. *)
Definition assignment (key : string) : string :=
  (Py.upper key ++ " = :" ++ key)%string.

(** The contract of an update route, the three cases of C4.  When the
    SELECT of the get route finds no row, the update raises the 404 of
    the entity, and whenever [get] fails the update fails with the same
    exception, after reads only; when [get] finds the record and the
    payload is empty, the update raises a 400 after reads only;
    otherwise the UPDATE whose SET clause lists the keys of the payload
    is sent, the payload and the identity being its bind values, and the
    result is that of a new [get]. *)
Definition update_contract (cfg : Config) (drv : Driver)
    (query_get key not_found : string)
    (get update : Value -> M QResult)
    (no_data update_head update_tail id_param : string)
    (id : Value) (update_data : dict) : Prop :=
  forall st,
    (forall r st1,
        execute_query cfg drv query_get (Some [(key, id)]) true false false st
          = (Ok r, st1) ->
        falsy r = true ->
        update id st = (Raise (HTTPException 404 not_found), st1)) /\
    (forall e st1,
        get id st = (Raise e, st1) ->
        update id st = (Raise e, st1) /\
        exists new, log st1 = new ++ log st /\ reads_only new) /\
    (forall r st1,
        get id st = (Ok r, st1) ->
        update_data = [] ->
        update id st = (Raise (HTTPException 400 no_data), st1) /\
        exists new, log st1 = new ++ log st /\ reads_only new) /\
    (forall r st1,
        get id st = (Ok r, st1) ->
        update_data <> [] ->
        update id st
        = let (r2, st2) :=
            execute_query cfg drv
              (update_head ++ Py.join ", " (map assignment (keys update_data))
               ++ update_tail)%string
              (Some (update_data ++ [(id_param, id)]))
              false true false st1 in
          match r2 with
          | Ok _ => get id st2
          | Raise e => (Raise e, st2)
          end).

(** The statements an update route may send, with their bind values
    (C10): the SELECT of the get route with the identity, and the UPDATE
    [text] with the payload and the identity. *)
Definition statement_contract (update : M QResult)
    (query_get key text id_param : string) (id : Value) (update_data : dict)
  : Prop :=
  forall st r st',
    update st = (r, st') ->
    exists new, log st' = new ++ log st /\
      Forall (fun qb =>
                qb = (query_get, [(key, id)]) \/
                qb = (text, update_data ++ [(id_param, id)]))
        (executed new).

(** The constants in which the routes of the three entities differ, and
    the shape the get and update routes share. *)
Section RouteShape.

Variable cfg : Config.
Variable drv : Driver.
Variables query_get key not_found no_data : string.
Variables update_head update_tail id_param : string.

Definition get_route (id : Value) : M QResult :=
  r <- execute_query cfg drv query_get (Some [(key, id)]) true false false ;;
  if falsy r then raise (HTTPException 404 not_found) else ret r.

Definition update_query (update_data : dict) : string :=
  (update_head ++ set_clauses update_data ++ update_tail)%string.

Definition update_route (id : Value) (update_data : dict) : M QResult :=
  get_route id ;;
  match update_data with
  | [] => raise (HTTPException 400 no_data)
  | _ :: _ =>
      execute_query cfg drv (update_query update_data)
        (Some (dict_update update_data [(id_param, id)])) false true false ;;
      get_route id
  end.

End RouteShape.

Definition is_set {A} (f : option A) : bool :=
  match f with
  | Some _ => true
  | None => false
  end.

(** The names of the fields a payload sets, in the order of the model. *)
Definition present (flags : list (string * bool)) : list string :=
  map fst (filter snd flags).

Definition PessoaUpdate_present (u : PessoaUpdate.t) : list string :=
  present [("nome", is_set (PessoaUpdate.nome u));
           ("telefone", is_set (PessoaUpdate.telefone u));
           ("endereco", is_set (PessoaUpdate.endereco u));
           ("situacao", is_set (PessoaUpdate.situacao u));
           ("necessidades", is_set (PessoaUpdate.necessidades u))].

Definition AbrigoUpdate_present (u : AbrigoUpdate.t) : list string :=
  present [("nome", is_set (AbrigoUpdate.nome u));
           ("endereco", is_set (AbrigoUpdate.endereco u));
           ("capacidade", is_set (AbrigoUpdate.capacidade u));
           ("ocupacao_atual", is_set (AbrigoUpdate.ocupacao_atual u));
           ("responsavel", is_set (AbrigoUpdate.responsavel u));
           ("telefone_responsavel", is_set (AbrigoUpdate.telefone_responsavel u));
           ("recursos_disponiveis", is_set (AbrigoUpdate.recursos_disponiveis u))].

Definition DoacaoUpdate_present (u : DoacaoUpdate.t) : list string :=
  present [("doador_nome", is_set (DoacaoUpdate.doador_nome u));
           ("doador_telefone", is_set (DoacaoUpdate.doador_telefone u));
           ("tipo_doacao", is_set (DoacaoUpdate.tipo_doacao u));
           ("descricao", is_set (DoacaoUpdate.descricao u));
           ("quantidade", is_set (DoacaoUpdate.quantidade u));
           ("status", is_set (DoacaoUpdate.status u));
           ("id_abrigo_destino", is_set (DoacaoUpdate.id_abrigo_destino u))].

(** A field list is fit for an update route with [id_param] when no
    field has that name and none looks like an output bind variable. *)
Definition fit_fields (id_param : string) (fields : list string) : bool :=
  forallb (fun k => negb (String.eqb k id_param)
                    && negb (Py.startswith "out_" k)) fields.

(** ** Scenarios *)

(** A complete configuration, and one with nothing set. *)
Definition cfg_ok : Config :=
  {| DB_USER := Some "rm000000"; DB_PASSWORD := Some "secret";
     DB_HOST := Some "oracle.fiap.com.br"; DB_PORT_env := None;
     DB_SERVICE_NAME := Some "orcl" |}.

Definition cfg_missing : Config :=
  {| DB_USER := None; DB_PASSWORD := None; DB_HOST := None;
     DB_PORT_env := None; DB_SERVICE_NAME := None |}.

(** A state whose pool, number 0, was made at startup. *)
Definition st_ready : State := {| pool := Some 0; clock := 1; log := [] |}.

(** A driver that answers every statement with [answer]. *)
Definition drv_answer (answer : string -> dict -> Exn + ResultSet) : Driver :=
  {| SessionPool := fun _ => None;
     pool_close := fun _ => None;
     pool_acquire := fun _ => None;
     conn_cursor := fun _ => None;
     cursor_execute := fun _ => answer;
     conn_commit := fun _ => None |}.

Definition ORA_03113 : Exn :=
  DatabaseError 3113 "ORA-03113: end-of-file on communication channel".

Definition ORA_12541 : Exn :=
  DatabaseError 12541 "ORA-12541: TNS:no listener".

(** The session drops during [cursor.execute] and a new pool can be made. *)
Definition drv_dropped : Driver := drv_answer (fun _ _ => inl ORA_03113).

(** The session drops and the listener has gone too: no new pool. *)
Definition drv_lost : Driver :=
  {| SessionPool := fun _ => Some ORA_12541;
     pool_close := fun _ => None;
     pool_acquire := fun _ => None;
     conn_cursor := fun _ => None;
     cursor_execute := fun _ _ _ => inl ORA_03113;
     conn_commit := fun _ => None |}.


(** A database that holds the CPF of every request already. *)
Definition drv_duplicate : Driver :=
  drv_answer (fun _ _ =>
    inl (DatabaseError 1
           "ORA-00001: unique constraint (RM000000.PESSOAS_CPF_UK) violated")).

Definition pessoa_maria : PessoaCreate.t :=
  {| PessoaCreate.nome := "Maria"; PessoaCreate.cpf := "12345678900";
     PessoaCreate.telefone := None; PessoaCreate.endereco := None;
     PessoaCreate.situacao := "desabrigado";
     PessoaCreate.necessidades := None |}.

(** An empty database: every count is 0 and the sum is null. *)
Definition answer_empty (q : string) : Value :=
  if String.eqb q query_vagas_disponiveis then VNone else VInt 0.

Definition drv_empty : Driver :=
  drv_answer (fun q _ => inr (scalar (answer_empty q))).

(** The same database without the table of donations. *)
Definition ORA_00942 : Exn :=
  DatabaseError 942 "ORA-00942: table or view does not exist".

Definition drv_no_donations : Driver :=
  drv_answer (fun q _ =>
    if String.eqb q query_doacoes_total || String.eqb q query_doacoes_pendentes
    then inl ORA_00942 else inr (scalar (answer_empty q))).

Definition rs_none : ResultSet :=
  {| description := None; rows := []; outvar := fun _ => [] |}.

Definition rs_pessoa : ResultSet :=
  {| description :=
       Some ["ID_PESSOA"; "NOME"; "CPF"; "TELEFONE"; "ENDERECO"; "SITUACAO";
             "NECESSIDADES"; "DATA_CADASTRO"];
     rows := [[VInt 7; VStr "Maria"; VStr "12345678900"; VNone; VNone;
               VStr "desabrigado"; VNone; VStr "2024-05-10 08:30:00"]];
     outvar := fun _ => [] |}.

(** A database that holds person 7 and accepts every other statement. *)
Definition drv_person : Driver :=
  drv_answer (fun q _ =>
    if String.eqb q query_obter_pessoa then inr rs_pessoa else inr rs_none).

Definition update_nome : PessoaUpdate.t :=
  {| PessoaUpdate.nome := Some (Some "Maria da Silva");
     PessoaUpdate.telefone := None; PessoaUpdate.endereco := None;
     PessoaUpdate.situacao := None; PessoaUpdate.necessidades := None |}.

(** ** The executor and the routes at large *)

(** The branch of [execute_query] for statements with a RETURNING clause
    and parameters, as [Py.upper] finds it: on a query in ASCII, the
    branch the code takes. *)
Definition returning_mode (query : string) (params : option dict) : bool :=
  Py.contains "RETURNING" (Py.upper query) && params_truthy params.


(** The pools closed and the calls to [oracledb.SessionPool], as logged. *)
Definition closed (evs : list Event) : list nat :=
  flat_map (fun e => match e with
                     | EvPoolClose p => [p]
                     | _ => []
                     end) evs.

Definition pool_attempts (evs : list Event) : list (option nat) :=
  flat_map (fun e => match e with
                     | EvSessionPool r => [r]
                     | _ => []
                     end) evs.

(** The driver raises its own exceptions, not the [HTTPException] of the
    web framework, when asked for a pool. *)
Definition raises_no_http (drv : Driver) : Prop :=
  forall t e, SessionPool drv t = Some e -> is_HTTPException e = false.

(** Every [HTTPException] that leaves [m] has its status in [statuses]. *)
Definition raises_only {A} (statuses : list Z) (m : M A) : Prop :=
  forall st s d st',
    m st = (Raise (HTTPException s d), st') -> In s statuses.

(** At most [a] connections acquired, [x] statements executed, [c]
    commits, [r] releases, [k] pools closed and [n] pools asked for. *)
Definition within (a x c r k n : nat) (evs : list Event) : Prop :=
  length (acquired evs) <= a /\ length (executed evs) <= x /\
  length (commits evs) <= c /\ length (released evs) <= r /\
  length (closed evs) <= k /\ length (pool_attempts evs) <= n.

(** The state after one committed round trip: acquire, open a cursor,
    execute, commit, close the cursor, release. *)
Definition after_write (p : nat) (query : string) (binds : dict) (st : State)
  : State :=
  {| pool := Some p;
     clock := S (S (S (S (clock st))));
     log := EvRelease p (conn_at p st) :: EvCursorClose (conn_at p st)
            :: EvCommit (conn_at p st)
            :: EvExecute (conn_at p st) query binds
            :: EvCursor (conn_at p st) :: EvAcquire (conn_at p st) :: log st |}.


(** Whatever the outcome of [m], it has sent SELECTs only and committed
    nothing. *)
Definition read_only {A} (m : M A) : Prop :=
  forall st r st',
    m st = (r, st') -> exists new, log st' = new ++ log st /\ reads_only new.

(** The columns no update may assign: the identity and the creation
    timestamp of each table, and the CPF of a person. *)
Definition fixed_columns_pessoa : list string :=
  ["id_pessoa"; "data_cadastro"; "cpf"].
Definition fixed_columns_abrigo : list string :=
  ["id_abrigo"; "data_criacao"].
Definition fixed_columns_doacao : list string :=
  ["id_doacao"; "data_doacao"].

(** A database that answers the INSERT of a shelter with the identity 42
    in its output variable, and every SELECT with no row. *)
Definition rs_generated : ResultSet :=
  {| description := None; rows := [];
     outvar := fun k => if String.eqb k "out_id_abrigo" then [VInt 42] else [] |}.

Definition drv_generated : Driver := drv_answer (fun _ _ => inr rs_generated).

Definition abrigo_central : AbrigoCreate.t :=
  {| AbrigoCreate.nome := "Central"; AbrigoCreate.endereco := "Rua A";
     AbrigoCreate.capacidade := 50; AbrigoCreate.ocupacao_atual := Some 0%Z;
     AbrigoCreate.responsavel := None;
     AbrigoCreate.telefone_responsavel := None;
     AbrigoCreate.recursos_disponiveis := None |}.

(** A pool that is there but hands out no connection. *)
Definition drv_exhausted : Driver :=
  {| SessionPool := fun _ => None;
     pool_close := fun _ => None;
     pool_acquire := fun _ => Some (DatabaseError 24418 "ORA-24418: Cannot open further sessions.");
     conn_cursor := fun _ => None;
     cursor_execute := fun _ _ _ => inr rs_none;
     conn_commit := fun _ => None |}.

(** * Properties *)

(** ** Reading the log *)

Local Opaque String.append.

Ltac inv H := inversion H; subst; clear H.

Ltac unfold_m :=
  unfold print in *;
  unfold bind, ret, raise, emit, tick, get_pool, set_pool, lift,
    try_except in *.

Ltac split_match :=
  match goal with
  | H : context [match ?x with _ => _ end] |- _ =>
      first [ is_var x; destruct x | destruct x eqn:? ]
  | H : (_, _) = (_, _) |- _ => inv H
  end.

Ltac wf_solve :=
  unfold wf_state in *; simpl in *;
  intros;
  repeat match goal with
         | H : Some _ = Some _ |- _ => inv H
         | H : forall p, ?x = Some p -> _, E : ?x = Some _ |- _ =>
             specialize (H _ E)
         | H : forall p, Some ?q = Some p -> _ |- _ =>
             specialize (H _ eq_refl)
         end;
  try discriminate; try lia.

Ltac run := repeat (unfold_m; simpl in *; split_match); simpl in *.

Ltac log_prefix l base :=
  match l with
  | base => constr:(@nil Event)
  | ?e :: ?l' => let p := log_prefix l' base in constr:(e :: p)
  end.

Ltac give_new :=
  match goal with
  | |- exists new, ?l = new ++ ?base /\ _ =>
      let p := log_prefix l base in exists p; split; [reflexivity|]
  end.

Lemma executed_app a b : executed (a ++ b) = executed a ++ executed b.
Proof. apply flat_map_app. Qed.

Lemma commits_app a b : commits (a ++ b) = commits a ++ commits b.
Proof. apply flat_map_app. Qed.

Lemma acquired_app a b : acquired (a ++ b) = acquired a ++ acquired b.
Proof. apply flat_map_app. Qed.

Lemma released_app a b : released (a ++ b) = released a ++ released b.
Proof. apply flat_map_app. Qed.

Section PoolFacts.

Variable cfg : Config.
Variable drv : Driver.

Lemma init_oracle_pool_log st r st' :
  init_oracle_pool cfg drv st = (r, st') ->
  exists new, log st' = new ++ log st /\
    executed new = [] /\ commits new = [] /\
    acquired new = [] /\ released new = [] /\
    clock st <= clock st' /\
    (wf_state st -> wf_state st') /\
    (forall p, pool st' = Some p ->
       pool st = Some p \/
       (clock st <= p < clock st' /\ In (EvSessionPool (Some p)) new)).
Proof.
  unfold init_oracle_pool. intros H.
  run; give_new; simpl; repeat split; auto; wf_solve; auto.
Qed.

Lemma get_db_connection_log st r st' :
  get_db_connection cfg drv st = (r, st') ->
  exists new, log st' = new ++ log st /\
    executed new = [] /\ commits new = [] /\ released new = [] /\
    clock st <= clock st' /\
    (wf_state st -> wf_state st') /\
    match r with
    | Ok c =>
        acquired new = [c] /\ pool st' = Some (conn_pool c) /\
        (forall p, pool st = Some p -> conn_pool c = p) /\
        (pool st = None -> clock st <= conn_pool c)
    | Raise e =>
        acquired new = [] /\ forall code m, e <> DatabaseError code m
    end.
Proof.
  unfold get_db_connection, init_oracle_pool. intros H.
  run; give_new; simpl; repeat split; auto; wf_solve; auto;
    try congruence; try (intro; subst; discriminate).
Qed.

Lemma getvalue0_state rs k st r st' :
  getvalue0 rs k st = (r, st') -> st' = st.
Proof.
  unfold getvalue0. destruct (outvar rs k); unfold ret, raise; intros H;
    inv H; reflexivity.
Qed.

Lemma mapM_getvalue0_state rs l st r st' :
  mapM (getvalue0 rs) l st = (r, st') -> st' = st.
Proof.
  revert st r st'. induction l as [|k l IH]; intros st r st' H.
  - inv H. reflexivity.
  - simpl in H. unfold bind in H.
    destruct (getvalue0 rs k st) as [[b|e] s] eqn:G;
      apply getvalue0_state in G; subst.
    + destruct (mapM (getvalue0 rs) l st) as [[bs|e] s] eqn:E;
        apply IH in E; subst; inv H; reflexivity.
    + inv H. reflexivity.
Qed.

Ltac run_body :=
  repeat (unfold_m; simpl in *;
          first [ match goal with
                  | H : mapM (getvalue0 _) _ _ = (_, _) |- _ =>
                      apply mapM_getvalue0_state in H; subst
                  end
                | split_match ]);
  simpl in *.

Lemma execute_query_body_log c query params fetch_one commit is_ddl
    st r st' :
  execute_query_body drv c query params fetch_one commit is_ddl st = (r, st') ->
  exists new, log st' = new ++ log st /\
    executed new = [(query, binds_for query params)] /\
    (commits new <> [] -> is_ddl || commit = true) /\
    acquired new = [] /\ released new = [] /\
    pool st' = pool st /\ clock st <= clock st'.
Proof.
  unfold execute_query_body, call_execute, call_commit, columns_of,
    binds_for.
  intros H.
  run_body; give_new; simpl; repeat split; auto; try congruence;
    try lia; try (intros _; apply orb_true_r).
Qed.

Lemma execute_query_except_log e st r st' :
  execute_query_except cfg drv e st = (r, st') ->
  exists new, log st' = new ++ log st /\
    executed new = [] /\ commits new = [] /\
    acquired new = [] /\ released new = [] /\
    clock st <= clock st' /\
    (wf_state st -> wf_state st') /\
    (exists e', r = Raise e') /\
    ((forall code m, e = DatabaseError code m -> is_connectivity code = false) ->
     pool st' = pool st).
Proof.
  unfold execute_query_except, init_oracle_pool. intros H.
  destruct e; run; give_new; simpl; repeat split; auto; wf_solve; eauto;
    try match goal with
        | H : forall code m, DatabaseError ?c ?s = _ -> _ |- _ =>
            specialize (H _ _ eq_refl); congruence
        end.
Qed.

Lemma execute_query_finally_log loc r st r' st' :
  execute_query_finally loc r st = (r', st') ->
  exists new, log st' = new ++ log st /\
    executed new = [] /\ commits new = [] /\ acquired new = [] /\
    clock st' = clock st /\ pool st' = pool st /\
    (forall v, r' = Ok v -> r = Ok v) /\
    released new = match conn loc, pool st with
                   | Some c, Some p => [(p, c)]
                   | _, _ => []
                   end.
Proof.
  unfold execute_query_finally. intros H. destruct loc as [cn cu].
  run; give_new; simpl; repeat split; auto; try congruence;
    match goal with
    | E : pool _ = _ |- _ => rewrite E; reflexivity
    end.
Qed.

Lemma call_cursor_log c st r st' :
  call_cursor drv c st = (r, st') ->
  exists new, log st' = new ++ log st /\
    executed new = [] /\ commits new = [] /\
    acquired new = [] /\ released new = [] /\
    pool st' = pool st /\ clock st <= clock st' /\
    (forall cur, r = Ok cur -> cur = c) /\
    (forall e, r = Raise e -> conn_cursor drv (clock st) = Some e).
Proof.
  unfold call_cursor. intros H.
  run; give_new; simpl; repeat split; auto; try congruence; try lia.
Qed.

Lemma execute_query_try_log query params fetch_one commit is_ddl
    st r loc st1 :
  execute_query_try cfg drv query params fetch_one commit is_ddl st
    = (r, loc, st1) ->
  exists new, log st1 = new ++ log st /\
    (executed new = [] \/ executed new = [(query, binds_for query params)]) /\
    (forall v, r = Ok v -> executed new = [(query, binds_for query params)]) /\
    (commits new <> [] -> is_ddl || commit = true) /\
    released new = [] /\
    clock st <= clock st1 /\
    (wf_state st -> wf_state st1) /\
    (forall cur, cursor loc = Some cur -> conn loc = Some cur) /\
    match conn loc with
    | Some c =>
        acquired new = [c] /\ pool st1 = Some (conn_pool c) /\
        (forall p, pool st = Some p -> conn_pool c = p)
    | None =>
        acquired new = [] /\ (forall v, r <> Ok v) /\
        (forall code m, r <> Raise (DatabaseError code m))
    end.
Proof.
  unfold execute_query_try. intros H.
  destruct (get_db_connection cfg drv st) as [[c|e] sa] eqn:G;
    apply get_db_connection_log in G;
    destruct G as (n1 & L1 & X1 & C1 & R1 & K1 & W1 & A1).
  - destruct A1 as (A1 & P1 & Q1 & _).
    destruct (call_cursor drv c sa) as [[cur|e] sb] eqn:U;
      apply call_cursor_log in U;
      destruct U as (n2 & L2 & X2 & C2 & A2 & R2 & P2 & K2 & O2 & _).
    + destruct (execute_query_body drv c query params fetch_one commit
                  is_ddl sb) as [rb sc] eqn:B.
      apply execute_query_body_log in B.
      destruct B as (n3 & L3 & X3 & C3 & A3 & R3 & P3 & K3).
      inv H. specialize (O2 _ eq_refl). subst cur.
      exists (n3 ++ n2 ++ n1).
      rewrite L3, L2, L1, !app_assoc.
      rewrite !executed_app, !commits_app, !released_app, !acquired_app.
      rewrite X1, X2, X3, C1, C2, R1, R2, R3, A1, A2, A3. simpl.
      rewrite !app_nil_r.
      repeat split; auto; try lia; try congruence.
      unfold wf_state in *. rewrite P3, P2. intros W p E.
      specialize (W1 W p E). lia.
    + inv H. exists (n2 ++ n1).
      rewrite L2, L1, !app_assoc.
      rewrite !executed_app, !commits_app, !released_app, !acquired_app.
      rewrite X1, X2, C1, C2, R1, R2, A1, A2. simpl.
      repeat split; auto; try lia; try congruence.
      unfold wf_state in *. rewrite P2. intros W p E.
      specialize (W1 W p E). lia.
  - destruct A1 as (A1 & N1). inv H. exists n1.
    rewrite X1, C1, R1, A1. simpl.
    repeat split; auto; try congruence.
Qed.

Lemma execute_query_log query params fetch_one commit is_ddl st r st' :
  execute_query cfg drv query params fetch_one commit is_ddl st = (r, st') ->
  exists new, log st' = new ++ log st /\
    (executed new = [] \/ executed new = [(query, binds_for query params)]) /\
    (forall v, r = Ok v -> executed new = [(query, binds_for query params)]) /\
    (commits new <> [] -> is_ddl || commit = true) /\
    clock st <= clock st' /\
    (wf_state st -> wf_state st').
Proof.
  unfold execute_query. intros H.
  destruct (execute_query_try cfg drv query params fetch_one commit is_ddl st)
    as [[rt loc] st1] eqn:T.
  apply execute_query_try_log in T.
  destruct T as (n1 & L1 & X1 & O1 & C1 & R1 & K1 & W1 & _).
  destruct rt as [v|e].
  - apply execute_query_finally_log in H.
    destruct H as (n3 & L3 & X3 & C3 & A3 & K3 & P3 & O3 & _).
    exists (n3 ++ n1). rewrite L3, L1, app_assoc.
    rewrite executed_app, commits_app, X3, C3. simpl.
    repeat split; auto; try lia.
    + intros v' E. eapply O1; reflexivity.
    + unfold wf_state in *. rewrite P3, K3. auto.
  - destruct (execute_query_except cfg drv e st1) as [r2 st2] eqn:E.
    apply execute_query_except_log in E.
    destruct E as (n2 & L2 & X2 & C2 & A2 & R2 & K2 & W2 & (e' & RE) & _).
    apply execute_query_finally_log in H.
    destruct H as (n3 & L3 & X3 & C3 & A3 & K3 & P3 & O3 & _).
    exists (n3 ++ n2 ++ n1). rewrite L3, L2, L1, !app_assoc.
    rewrite !executed_app, !commits_app, X3, X2, C3, C2. simpl.
    repeat split; auto; try lia.
    + intros v' E. subst r2. apply O3 in E. discriminate.
    + unfold wf_state in *. rewrite P3, K3. auto.
Qed.

(** When the error caught is not of the connectivity class, the
    connection the call acquired goes back to the pool it came from,
    once. *)
Lemma execute_query_release query params fetch_one commit is_ddl
    st rt loc st1 r st' :
  execute_query_try cfg drv query params fetch_one commit is_ddl st
    = (rt, loc, st1) ->
  (forall code m, rt = Raise (DatabaseError code m) ->
                  is_connectivity code = false) ->
  execute_query cfg drv query params fetch_one commit is_ddl st = (r, st') ->
  exists new, log st' = new ++ log st /\
    match conn loc with
    | Some c => acquired new = [c] /\ released new = [(conn_pool c, c)]
    | None => acquired new = [] /\ released new = []
    end.
Proof.
  intros T NC H. unfold execute_query in H. rewrite T in H.
  apply execute_query_try_log in T.
  destruct T as (n1 & L1 & _ & _ & _ & R1 & _ & _ & _ & A1).
  destruct rt as [v|e].
  - apply execute_query_finally_log in H.
    destruct H as (n3 & L3 & _ & _ & A3 & _ & _ & _ & R3).
    exists (n3 ++ n1). rewrite L3, L1, app_assoc. split; auto.
    rewrite acquired_app, released_app, A3, R1, R3.
    destruct (conn loc) as [c|].
    + destruct A1 as (A1 & P1 & _). rewrite A1, P1. auto.
    + destruct A1 as (A1 & _). rewrite A1. destruct (pool st1); auto.
  - destruct (execute_query_except cfg drv e st1) as [r2 st2] eqn:E.
    apply execute_query_except_log in E.
    destruct E as (n2 & L2 & _ & _ & A2 & R2 & _ & _ & _ & P2).
    apply execute_query_finally_log in H.
    destruct H as (n3 & L3 & _ & _ & A3 & _ & _ & _ & R3).
    exists (n3 ++ n2 ++ n1). rewrite L3, L2, L1, !app_assoc. split; auto.
    rewrite !acquired_app, !released_app, A3, A2, R2, R1, R3, P2.
    + destruct (conn loc) as [c|].
      * destruct A1 as (A1 & P1 & _). rewrite A1, P1. auto.
      * destruct A1 as (A1 & _). rewrite A1. destruct (pool st1); auto.
    + intros code m E. apply (NC code m). congruence.
Qed.



End PoolFacts.

(** ** The executor and the pool (C1, C2) *)


(** C1.  The code at the failing input: a query whose execution meets
    ORA-03113 on a ready pool.  With the listener gone, the [finally]
    block finds the global [pool] reset to [None]; the call ends in an
    [AttributeError] and the acquired connection is never released.
    With a new pool available, the connection of pool 0 is handed to
    pool 5, which it was not acquired from. *)
Theorem execute_query_lost_connection_not_released :
  (let (r, st') := execute_query cfg_ok drv_lost "SELECT 1 FROM DUAL" None
                     true false false st_ready in
   r = Raise (AttributeError "'NoneType' object has no attribute 'release'") /\
   pool st' = None /\
   acquired (log st') = [{| conn_pool := 0; conn_id := 1 |}] /\
   released (log st') = []) /\
  (let (r, st') := execute_query cfg_ok drv_dropped "SELECT 1 FROM DUAL" None
                     true false false st_ready in
   pool st' = Some 5 /\
   acquired (log st') = [{| conn_pool := 0; conn_id := 1 |}] /\
   released (log st') = [(5, {| conn_pool := 0; conn_id := 1 |})]).
Proof. vm_compute. repeat split. Qed.



(** ** Missing configuration (C6) *)

Section MissingConfiguration.

Variable cfg : Config.
Variable drv : Driver.

Lemma missing_vars_credentials :
  missing_vars cfg <> [] -> credentials_present cfg = false.
Proof.
  unfold missing_vars, credentials_present, DB_DSN.
  destruct (DB_USER cfg), (DB_PASSWORD cfg), (DB_HOST cfg),
    (DB_SERVICE_NAME cfg); simpl; intros H;
    try (exfalso; apply H; reflexivity);
    rewrite ?andb_false_r; reflexivity.
Qed.

Lemma init_oracle_pool_missing st :
  missing_vars cfg <> [] ->
  init_oracle_pool cfg drv st
  = (Ok tt, {| pool := pool st; clock := clock st;
               log := EvPrint msg_no_credentials :: log st |}).
Proof.
  intros Hm. unfold init_oracle_pool.
  rewrite (missing_vars_credentials Hm). reflexivity.
Qed.

Lemma get_db_connection_missing st :
  missing_vars cfg <> [] ->
  pool st = None ->
  get_db_connection cfg drv st
  = (Raise (HTTPException 503 msg_pool_absent),
     {| pool := None; clock := clock st;
        log := EvPrint msg_no_credentials
               :: EvPrint "Pool não inicializado. Tentando inicializar agora..."
               :: log st |}).
Proof.
  intros Hm P. unfold get_db_connection. unfold_m. rewrite P.
  rewrite (init_oracle_pool_missing _ Hm). simpl. rewrite P. reflexivity.
Qed.

(** The 503 does not leave [execute_query]: its [except Exception]
    clause catches the [HTTPException] and raises a 500 in its place. *)
Lemma execute_query_pool_absent_500 query params fetch_one commit is_ddl st :
  missing_vars cfg <> [] ->
  pool st = None ->
  exists st',
    execute_query cfg drv query params fetch_one commit is_ddl st
    = (Raise (HTTPException 500
                ("Erro interno do servidor: " ++
                 str_exn (HTTPException 503 msg_pool_absent))%string), st') /\
    pool st' = None /\ clock st' = clock st.
Proof.
  intros Hm P.
  unfold execute_query, execute_query_try.
  rewrite (get_db_connection_missing _ Hm P).
  unfold execute_query_except, execute_query_finally. unfold_m. simpl.
  eexists. split; [reflexivity|]. split; reflexivity.
Qed.

(** C6, on the code.  With a variable of the database configuration
    missing and no pool: [init_oracle_pool] returns normally without
    calling the driver and leaves the pool absent; [get_db_connection]
    runs it once (its message is logged once) and raises the 503
    [HTTPException]; [execute_query], the one caller of
    [get_db_connection], raises a 500 in the place of that 503, without
    a call to the driver; and so does a route on its first use. *)
Theorem missing_configuration_first_use_500 st :
  missing_vars cfg <> [] ->
  pool st = None ->
  init_oracle_pool cfg drv st
  = (Ok tt, {| pool := None; clock := clock st;
               log := EvPrint msg_no_credentials :: log st |}) /\
  get_db_connection cfg drv st
  = (Raise (HTTPException 503 msg_pool_absent),
     {| pool := None; clock := clock st;
        log := EvPrint msg_no_credentials
               :: EvPrint "Pool não inicializado. Tentando inicializar agora..."
               :: log st |}) /\
  (forall query params fetch_one commit is_ddl,
      exists st',
        execute_query cfg drv query params fetch_one commit is_ddl st
        = (Raise (HTTPException 500
                    ("Erro interno do servidor: " ++
                     str_exn (HTTPException 503 msg_pool_absent))%string),
           st') /\
        pool st' = None /\ clock st' = clock st) /\
  (forall id,
      exists st',
        obter_pessoa cfg drv id st
        = (Raise (HTTPException 500
                    ("Erro interno do servidor: " ++
                     str_exn (HTTPException 503 msg_pool_absent))%string),
           st')).
Proof.
  intros Hm P. split; [|split; [|split]].
  - rewrite (init_oracle_pool_missing _ Hm), P. reflexivity.
  - apply get_db_connection_missing; assumption.
  - intros query params fetch_one commit is_ddl.
    apply execute_query_pool_absent_500; assumption.
  - intros id.
    destruct (@execute_query_pool_absent_500 query_obter_pessoa
                (Some [("id_pessoa", id)]) true false false st Hm P)
      as (st' & E & _).
    exists st'. unfold obter_pessoa, bind. rewrite E. reflexivity.
Qed.

End MissingConfiguration.

Lemma missing_configuration_first_use_500_witness :
  missing_vars cfg_missing <> [] /\ pool initial_state = None /\
  get_db_connection cfg_missing drv_person initial_state
  = (Raise (HTTPException 503 msg_pool_absent),
     {| pool := None; clock := 0;
        log := [EvPrint msg_no_credentials;
                EvPrint "Pool não inicializado. Tentando inicializar agora..."] |}) /\
  exists st',
    obter_pessoa cfg_missing drv_person (VInt 7) initial_state
    = (Raise (HTTPException 500
                ("Erro interno do servidor: " ++
                 str_exn (HTTPException 503 msg_pool_absent))%string), st').
Proof.
  assert (Hm : missing_vars cfg_missing <> []) by (simpl; discriminate).
  split; [exact Hm|]. split; [reflexivity|].
  destruct (@missing_configuration_first_use_500 cfg_missing drv_person
              initial_state Hm eq_refl) as (_ & G & _ & R).
  split; [exact G|]. exact (R (VInt 7)).
Defined.

(** ** A driver that connects *)

Section HealthyDriver.

Variable cfg : Config.
Variable drv : Driver.
Hypothesis drv_healthy : healthy drv.

Ltac start_read P :=
  unfold execute_query, execute_query_try, get_db_connection, call_cursor;
  unfold_m; simpl; repeat (rewrite P; simpl);
  rewrite (proj1 drv_healthy); simpl;
  rewrite (proj2 drv_healthy); simpl;
  unfold execute_query_body, call_execute; unfold_m.

Lemma execute_query_fetch_one query params st p rs columns :
  pool st = Some p ->
  Py.contains "RETURNING" (Py.upper query) && params_truthy params = false ->
  cursor_execute drv (S (S (clock st))) query (params_or_empty params)
    = inr rs ->
  description rs = Some columns ->
  execute_query cfg drv query params true false false st
  = (Ok (single_row columns rs),
     after_read p query (params_or_empty params) st).
Proof.
  intros P NR X D. start_read P. rewrite NR. simpl. rewrite X. simpl.
  unfold single_row, execute_query_finally, columns_of. unfold_m.
  destruct (rows rs) as [|[|v row] rest]; simpl; rewrite ?D; reflexivity.
Qed.

Lemma execute_query_fetch_all query params st p rs columns :
  pool st = Some p ->
  Py.contains "RETURNING" (Py.upper query) && params_truthy params = false ->
  cursor_execute drv (S (S (clock st))) query (params_or_empty params)
    = inr rs ->
  description rs = Some columns ->
  execute_query cfg drv query params false false false st
  = (Ok (RList (map (dict_zip (map Py.lower columns)) (rows rs))),
     after_read p query (params_or_empty params) st).
Proof.
  intros P NR X D. start_read P. rewrite NR. simpl. rewrite X. simpl.
  unfold execute_query_finally, columns_of. unfold_m.
  rewrite D. reflexivity.
Qed.

Lemma execute_query_database_error query params fetch_one commit is_ddl
    st p code message :
  pool st = Some p ->
  cursor_execute drv (S (S (clock st))) query (binds_for query params)
    = inl (DatabaseError code message) ->
  is_connectivity code = false ->
  exists st',
    execute_query cfg drv query params fetch_one commit is_ddl st
    = (Raise (HTTPException 500
                ("Erro no banco de dados Oracle: " ++ message)%string), st') /\
    pool st' = Some p.
Proof.
  intros P X NC. start_read P. unfold binds_for in X.
  destruct (Py.contains "RETURNING" (Py.upper query) && params_truthy params);
    simpl; rewrite X; simpl;
    unfold execute_query_except, execute_query_finally; unfold_m;
    rewrite NC; simpl; eexists; split; reflexivity.
Qed.

End HealthyDriver.

(** ** Creating a person whose CPF is taken (C3) *)

Lemma contains_append_r sub pre s :
  Py.contains sub s = true -> Py.contains sub (pre ++ s)%string = true.
Proof.
  intros H. induction pre as [|c pre IH].
  - exact H.
  - change (String c pre ++ s)%string with (String c (pre ++ s)%string).
    cbn [Py.contains]. rewrite IH. apply orb_true_r.
Qed.

(** C3.  Oracle rejects an INSERT that repeats a CPF with error 1, whose
    message starts with ["ORA-00001"].  When the database answers the
    INSERT of [cadastrar_pessoa] so, the route raises a 409 whose detail
    carries the CPF of the request. *)
Theorem cadastrar_pessoa_duplicate_cpf cfg drv pessoa st p message :
  healthy drv ->
  pool st = Some p ->
  (forall t binds,
      cursor_execute drv t query_cadastrar_pessoa binds
      = inl (DatabaseError 1 message)) ->
  Py.contains "ORA-00001" message = true ->
  exists st',
    cadastrar_pessoa cfg drv pessoa st
    = (Raise (HTTPException 409
                ("CPF " ++ PessoaCreate.cpf pessoa ++ " já cadastrado.")%string),
       st').
Proof.
  intros Hd P X C.
  destruct (@execute_query_database_error cfg drv Hd query_cadastrar_pessoa
              (Some (dict_set (PessoaCreate.to_dict pessoa) "out_id_pessoa"
                       VNone))
              false true false st p 1%Z message P (X _ _) eq_refl)
    as (st' & E & _).
  exists st'. unfold cadastrar_pessoa, try_except, bind.
  rewrite E. rewrite (@contains_append_r _ _ _ C), orb_true_r. reflexivity.
Qed.

Lemma healthy_drv_answer answer : healthy (drv_answer answer).
Proof. split; reflexivity. Qed.

Lemma cadastrar_pessoa_duplicate_cpf_witness :
  exists st',
    cadastrar_pessoa cfg_ok drv_duplicate pessoa_maria st_ready
    = (Raise (HTTPException 409 "CPF 12345678900 já cadastrado."), st').
Proof.
  exact (@cadastrar_pessoa_duplicate_cpf cfg_ok drv_duplicate pessoa_maria
           st_ready 0
           "ORA-00001: unique constraint (RM000000.PESSOAS_CPF_UK) violated"
           (healthy_drv_answer _) eq_refl (fun _ _ => eq_refl) eq_refl).
Defined.

(** ** Statistics (C7, C9) *)

Section Statistics.

Variable cfg : Config.
Variable drv : Driver.

Lemma binds_for_None query : binds_for query None = [].
Proof.
  unfold binds_for. simpl. rewrite andb_false_r. reflexivity.
Qed.

(** A read that returns has sent its statement, once, and committed
    nothing. *)
Lemma execute_query_read_log query st v st' :
  execute_query cfg drv query None true false false st = (Ok v, st') ->
  exists new, log st' = new ++ log st /\
    executed new = [(query, [])] /\ commits new = [].
Proof.
  intros H. apply execute_query_log in H.
  destruct H as (new & L & _ & X & C & _).
  exists new. rewrite <- (binds_for_None query). repeat split; auto.
  - eapply X; reflexivity.
  - destruct (commits new); [reflexivity|].
    assert (false = true) by (apply C; discriminate). discriminate.
Qed.

Lemma read_total_log query st v st' :
  read_total cfg drv query st = (Ok v, st') ->
  exists new, log st' = new ++ log st /\
    executed new = [(query, [])] /\ commits new = [].
Proof.
  unfold read_total, bind, lift. intros H.
  destruct (execute_query cfg drv query None true false false st)
    as [[r|e] s] eqn:E; [|discriminate].
  assert (s = st') by (destruct (subscript r "total"); congruence).
  subst s. eapply execute_query_read_log; eassumption.
Qed.

Lemma obter_estatisticas_try_log st d st' :
  obter_estatisticas_try cfg drv st = (Ok d, st') ->
  keys d = statistics_keys /\
  exists new, log st' = new ++ log st /\
    map fst (rev (executed new)) = statistics_queries /\
    commits new = [].
Proof.
  unfold obter_estatisticas_try. intros H.
  unfold bind at 1 in H.
  destruct (read_total cfg drv query_pessoas_total st)
    as [[v1|?] s1] eqn:E1; [|discriminate].
  unfold bind at 1 in H.
  destruct (read_total cfg drv query_pessoas_desabrigadas s1)
    as [[v2|?] s2] eqn:E2; [|discriminate].
  unfold bind at 1 in H.
  destruct (read_total cfg drv query_abrigos_total s2)
    as [[v3|?] s3] eqn:E3; [|discriminate].
  unfold bind at 1 in H.
  destruct (execute_query cfg drv query_vagas_disponiveis None true false
              false s3) as [[r4|?] s4] eqn:E4; [|discriminate].
  unfold bind at 1 in H.
  match type of H with
  | context [match ?m s4 with _ => _ end] =>
      assert (S4 : snd (m s4) = s4)
        by (unfold bind, lift, ret;
            destruct (negb (falsy r4)); [|reflexivity];
            destruct (subscript r4 "total") as [[| | |]|]; reflexivity);
      destruct (m s4) as [[v4|?] s4'] eqn:E4'; [|discriminate]
  end.
  simpl in S4. subst s4'.
  unfold bind at 1 in H.
  destruct (read_total cfg drv query_doacoes_total s4)
    as [[v5|?] s5] eqn:E5; [|discriminate].
  unfold bind at 1 in H.
  destruct (read_total cfg drv query_doacoes_pendentes s5)
    as [[v6|?] s6] eqn:E6; [|discriminate].
  unfold ret in H. inv H.
  split; [reflexivity|].
  apply read_total_log in E1, E2, E3, E5, E6.
  apply execute_query_read_log in E4.
  destruct E1 as (n1 & L1 & X1 & C1), E2 as (n2 & L2 & X2 & C2),
    E3 as (n3 & L3 & X3 & C3), E4 as (n4 & L4 & X4 & C4),
    E5 as (n5 & L5 & X5 & C5), E6 as (n6 & L6 & X6 & C6).
  exists (n6 ++ n5 ++ n4 ++ n3 ++ n2 ++ n1).
  rewrite L6, L5, L4, L3, L2, L1, !app_assoc.
  split; [reflexivity|].
  rewrite <- !app_assoc, !executed_app, !commits_app.
  rewrite X1, X2, X3, X4, X5, X6, C1, C2, C3, C4, C5, C6.
  split; reflexivity.
Qed.

(** C9.  Whatever exception [e] the [try] block of [obter_estatisticas]
    ends in, the route raises a 500 carrying [str(e)]; every exception
    that leaves the route has status 500, never 503; and when the pool
    is absent and stays so, the route raises a 500. *)
Theorem obter_estatisticas_never_503 st :
  (forall e st1,
      obter_estatisticas_try cfg drv st = (Raise e, st1) ->
      exists st',
        obter_estatisticas cfg drv st
        = (Raise (HTTPException 500
                    ("Erro ao buscar estatísticas do banco: " ++
                     str_exn e)%string), st')) /\
  (forall e st',
      obter_estatisticas cfg drv st = (Raise e, st') ->
      status_of e = Some 500%Z /\ status_of e <> Some 503%Z) /\
  (missing_vars cfg <> [] -> pool st = None ->
   exists detail st',
     obter_estatisticas cfg drv st
     = (Raise (HTTPException 500 detail), st')).
Proof.
  split; [|split].
  - intros e st1 H. unfold obter_estatisticas, try_except. rewrite H.
    unfold_m. eexists. reflexivity.
  - intros e st' H. unfold obter_estatisticas, try_except in H.
    destruct (obter_estatisticas_try cfg drv st) as [[d|e0] s]; [discriminate|].
    unfold_m. inv H. split; [reflexivity|discriminate].
  - intros Hm P.
    destruct (@execute_query_pool_absent_500 cfg drv query_pessoas_total
                None true false false st Hm P) as (s & E & _).
    unfold obter_estatisticas, try_except, obter_estatisticas_try.
    unfold bind at 1. unfold read_total at 1. unfold bind at 1.
    rewrite E. unfold_m. do 2 eexists. reflexivity.
Qed.

End Statistics.

Lemma obter_estatisticas_never_503_witness :
  missing_vars cfg_missing <> [] /\ pool initial_state = None /\
  exists detail st',
    obter_estatisticas cfg_missing drv_dropped initial_state
    = (Raise (HTTPException 500 detail), st').
Proof.
  assert (Hm : missing_vars cfg_missing <> []) by (simpl; discriminate).
  split; [exact Hm|]. split; [reflexivity|].
  exact (proj2 (proj2 (@obter_estatisticas_never_503 cfg_missing drv_dropped
                         initial_state)) Hm eq_refl).
Defined.

Section Snapshot.

Variable cfg : Config.
Variable drv : Driver.

Lemma read_total_scalar query st p v :
  healthy drv ->
  pool st = Some p ->
  cursor_execute drv (S (S (clock st))) query [] = inr (scalar v) ->
  read_total cfg drv query st = (Ok v, after_read p query [] st).
Proof.
  intros Hd P X. unfold read_total, bind.
  rewrite (@execute_query_fetch_one cfg drv Hd query None st p (scalar v)
             ["TOTAL"] P (andb_false_r _) X eq_refl).
  reflexivity.
Qed.

(** [obter_estatisticas_try] is the run of [read_totals] over the six
    statements, its totals put under the six keys. *)
Lemma obter_estatisticas_try_read_totals st :
  obter_estatisticas_try cfg drv st
  = bind (read_totals cfg drv statistics_queries)
      (fun vs => ret (combine statistics_keys vs)) st.
Proof.
  unfold obter_estatisticas_try, statistics_queries. cbn [read_totals].
  unfold read_total, total_of.
  change (String.eqb query_pessoas_total query_vagas_disponiveis) with false.
  change (String.eqb query_pessoas_desabrigadas query_vagas_disponiveis)
    with false.
  change (String.eqb query_abrigos_total query_vagas_disponiveis) with false.
  change (String.eqb query_doacoes_total query_vagas_disponiveis) with false.
  change (String.eqb query_doacoes_pendentes query_vagas_disponiveis)
    with false.
  change (String.eqb query_vagas_disponiveis query_vagas_disponiveis)
    with true.
  cbv iota. unfold bind, lift, ret.
  destruct (execute_query cfg drv query_pessoas_total None true false false
              st) as [[r1|e1] s1]; [|reflexivity].
  destruct (subscript r1 "total") as [v1|e1]; [|reflexivity].
  destruct (execute_query cfg drv query_pessoas_desabrigadas None true false
              false s1) as [[r2|e2] s2]; [|reflexivity].
  destruct (subscript r2 "total") as [v2|e2]; [|reflexivity].
  destruct (execute_query cfg drv query_abrigos_total None true false false
              s2) as [[r3|e3] s3]; [|reflexivity].
  destruct (subscript r3 "total") as [v3|e3]; [|reflexivity].
  destruct (execute_query cfg drv query_vagas_disponiveis None true false
              false s3) as [[r4|e4] s4]; [|reflexivity].
  destruct (falsy r4); simpl;
    [|destruct (subscript r4 "total") as [v4|e4];
      [destruct v4; simpl|reflexivity]];
    (destruct (execute_query cfg drv query_doacoes_total None true false
                 false s4) as [[r5|e5] s5]; [|reflexivity]);
    (destruct (subscript r5 "total") as [v5|e5]; [|reflexivity]);
    (destruct (execute_query cfg drv query_doacoes_pendentes None true false
                 false s5) as [[r6|e6] s6]; [|reflexivity]);
    (destruct (subscript r6 "total") as [v6|e6]; reflexivity).
Qed.

Lemma read_totals_reads_ok qs : forall st vs st',
  read_totals cfg drv qs st = (Ok vs, st') -> reads_ok cfg drv qs st vs st'.
Proof.
  induction qs as [|q qs IH]; intros st vs st' H.
  - unfold read_totals, ret in H. inv H. reflexivity.
  - cbn [read_totals] in H. unfold bind at 1 in H.
    destruct (execute_query cfg drv q None true false false st)
      as [[r|e] s] eqn:E; [|discriminate].
    unfold bind at 1, lift at 1 in H.
    destruct (total_of q r) as [v|e] eqn:T; [|discriminate].
    unfold bind in H.
    destruct (read_totals cfg drv qs s) as [[ws|e] s2] eqn:R; [|discriminate].
    unfold ret in H. inv H.
    exists r, s. split; [exact E|]. split; [exact T|]. apply IH. exact R.
Qed.

Lemma read_totals_after qs1 : forall st vs s rest,
  reads_ok cfg drv qs1 st vs s ->
  read_totals cfg drv (qs1 ++ rest) st
  = bind (read_totals cfg drv rest) (fun ws => ret (vs ++ ws)) s.
Proof.
  induction qs1 as [|q qs1 IH]; intros st vs s rest H.
  - destruct vs; [|contradiction]. simpl in H. subst s. simpl.
    unfold bind, ret. destruct (read_totals cfg drv rest st) as [[ws|e] s];
      reflexivity.
  - destruct vs as [|v vs]; [contradiction|].
    destruct H as (r & s1 & E & T & H).
    simpl app. cbn [read_totals]. unfold bind at 1. rewrite E.
    unfold bind at 1, lift at 1. rewrite T. unfold bind at 1.
    rewrite (@IH s1 vs s rest H). unfold bind, ret.
    destruct (read_totals cfg drv rest s) as [[ws|e] s2]; reflexivity.
Qed.

Lemma read_totals_fails q qs s e s' :
  execute_query cfg drv q None true false false s = (Raise e, s') \/
  (exists r, execute_query cfg drv q None true false false s = (Ok r, s') /\
             total_of q r = Raise e) ->
  read_totals cfg drv (q :: qs) s = (Raise e, s').
Proof.
  intros [E|(r & E & T)]; cbn [read_totals]; unfold bind at 1; rewrite E.
  - reflexivity.
  - unfold bind, lift. rewrite T. reflexivity.
Qed.

(** A read that fails makes the route fail, at once. *)
Lemma obter_estatisticas_fails st qs1 q qs2 vs s e s' :
  statistics_queries = qs1 ++ q :: qs2 ->
  reads_ok cfg drv qs1 st vs s ->
  execute_query cfg drv q None true false false s = (Raise e, s') \/
  (exists r, execute_query cfg drv q None true false false s = (Ok r, s') /\
             total_of q r = Raise e) ->
  obter_estatisticas cfg drv st
  = (Raise (HTTPException 500
              ("Erro ao buscar estatísticas do banco: " ++ str_exn e)%string),
     statistics_failed e s').
Proof.
  intros Q H F. unfold obter_estatisticas, try_except.
  rewrite obter_estatisticas_try_read_totals, Q.
  unfold bind at 1. rewrite (@read_totals_after qs1 st vs s (q :: qs2) H).
  unfold bind at 1. rewrite (@read_totals_fails q qs2 s e s' F).
  reflexivity.
Qed.

Lemma obter_estatisticas_reads st d st' :
  obter_estatisticas cfg drv st = (Ok d, st') ->
  exists vs,
    reads_ok cfg drv statistics_queries st vs st' /\
    d = combine statistics_keys vs.
Proof.
  unfold obter_estatisticas, try_except. intros H.
  rewrite obter_estatisticas_try_read_totals in H. unfold bind at 1 in H.
  destruct (read_totals cfg drv statistics_queries st) as [[vs|e] s] eqn:R.
  - unfold ret in H. inv H. exists vs. split; [|reflexivity].
    apply read_totals_reads_ok. exact R.
  - unfold_m. discriminate.
Qed.

(** C7.  A returned snapshot has the six keys, holds the totals of the
    six aggregate reads, each of which was answered, and comes after
    the six statements, sent in the order of the source and never
    committed; a call that does not return a snapshot raises a 500; as
    soon as a read fails, by raising or by an answer that has no total,
    the route raises the 500 that carries its message and sends nothing
    more; and when the database answers each statement with one value,
    the snapshot holds those values, the sum of free places read as 0
    when it is null. *)
Theorem obter_estatisticas_snapshot st :
  (forall d st',
      obter_estatisticas cfg drv st = (Ok d, st') ->
      keys d = statistics_keys /\
      (exists vs,
          reads_ok cfg drv statistics_queries st vs st' /\
          d = combine statistics_keys vs) /\
      exists new, log st' = new ++ log st /\
        map fst (rev (executed new)) = statistics_queries /\
        commits new = []) /\
  (forall e st',
      obter_estatisticas cfg drv st = (Raise e, st') ->
      exists detail, e = HTTPException 500 detail) /\
  (forall qs1 q qs2 vs s e s',
      statistics_queries = qs1 ++ q :: qs2 ->
      reads_ok cfg drv qs1 st vs s ->
      execute_query cfg drv q None true false false s = (Raise e, s') \/
      (exists r,
          execute_query cfg drv q None true false false s = (Ok r, s') /\
          total_of q r = Raise e) ->
      obter_estatisticas cfg drv st
      = (Raise (HTTPException 500
                  ("Erro ao buscar estatísticas do banco: " ++ str_exn e)%string),
         statistics_failed e s')) /\
  (forall p (answer : string -> Value),
      healthy drv ->
      pool st = Some p ->
      (forall t q, In q statistics_queries ->
                   cursor_execute drv t q [] = inr (scalar (answer q))) ->
      exists st',
        obter_estatisticas cfg drv st
        = (Ok [("total_pessoas", answer query_pessoas_total);
               ("pessoas_desabrigadas", answer query_pessoas_desabrigadas);
               ("total_abrigos", answer query_abrigos_total);
               ("vagas_disponiveis",
                none_as_zero (answer query_vagas_disponiveis));
               ("total_doacoes", answer query_doacoes_total);
               ("doacoes_pendentes", answer query_doacoes_pendentes)],
           st')).
Proof.
  split; [|split; [|split]].
  - intros d st' H. pose proof (@obter_estatisticas_reads st d st' H) as R.
    unfold obter_estatisticas, try_except in H.
    destruct (obter_estatisticas_try cfg drv st) as [[d0|e0] s] eqn:T.
    + inv H. apply obter_estatisticas_try_log in T. destruct T as (K & L).
      split; [exact K|]. split; [exact R|exact L].
    + unfold_m. discriminate.
  - intros e st' H. unfold obter_estatisticas, try_except in H.
    destruct (obter_estatisticas_try cfg drv st) as [[d0|e0] s];
      [discriminate|].
    unfold_m. inv H. eexists. reflexivity.
  - intros qs1 q qs2 vs s e s' Q H F.
    exact (@obter_estatisticas_fails st qs1 q qs2 vs s e s' Q H F).
  - intros p answer Hd P X.
    set (s1 := after_read p query_pessoas_total [] st).
    set (s2 := after_read p query_pessoas_desabrigadas [] s1).
    set (s3 := after_read p query_abrigos_total [] s2).
    set (s4 := after_read p query_vagas_disponiveis [] s3).
    set (s5 := after_read p query_doacoes_total [] s4).
    assert (I : forall q, In q statistics_queries ->
                forall s, pool s = Some p ->
                read_total cfg drv q s
                = (Ok (answer q), after_read p q [] s)).
    { intros q Hq s Ps. apply read_total_scalar; auto. }
    unfold obter_estatisticas, try_except, obter_estatisticas_try.
    unfold bind at 1. rewrite (I _ (or_introl eq_refl) st P).
    cbv beta iota. fold s1. unfold bind at 1.
    rewrite (I query_pessoas_desabrigadas
               (or_intror (or_introl eq_refl)) s1 eq_refl).
    cbv beta iota. fold s2. unfold bind at 1.
    rewrite (I query_abrigos_total
               (or_intror (or_intror (or_introl eq_refl))) s2 eq_refl).
    cbv beta iota. fold s3. unfold bind at 1.
    rewrite (@execute_query_fetch_one cfg drv Hd query_vagas_disponiveis
               None s3 p (scalar (answer query_vagas_disponiveis)) ["TOTAL"]
               eq_refl (andb_false_r _)
               (X _ query_vagas_disponiveis
                  (or_intror (or_intror (or_intror (or_introl eq_refl)))))
               eq_refl).
    cbv beta iota. unfold params_or_empty. fold s4. unfold bind at 1.
    match goal with
    | |- context [match ?m s4 with _ => _ end] =>
        replace (m s4)
          with (Ok (none_as_zero (answer query_vagas_disponiveis)), s4)
          by (unfold bind, lift, ret;
              destruct (answer query_vagas_disponiveis); reflexivity)
    end.
    cbv beta iota. unfold bind at 1.
    rewrite (I query_doacoes_total
               (or_intror (or_intror (or_intror (or_intror
                  (or_introl eq_refl))))) s4 eq_refl).
    cbv beta iota. fold s5. unfold bind at 1.
    rewrite (I query_doacoes_pendentes
               (or_intror (or_intror (or_intror (or_intror (or_intror
                  (or_introl eq_refl)))))) s5 eq_refl).
    unfold ret. eexists. reflexivity.
Qed.

End Snapshot.

Lemma obter_estatisticas_snapshot_witness :
  healthy drv_empty /\ pool st_ready = Some 0 /\
  (exists st',
      obter_estatisticas cfg_ok drv_empty st_ready
      = (Ok [("total_pessoas", VInt 0); ("pessoas_desabrigadas", VInt 0);
             ("total_abrigos", VInt 0); ("vagas_disponiveis", VInt 0);
             ("total_doacoes", VInt 0); ("doacoes_pendentes", VInt 0)], st')) /\
  exists s s',
    reads_ok cfg_ok drv_no_donations
      [query_pessoas_total; query_pessoas_desabrigadas; query_abrigos_total;
       query_vagas_disponiveis]
      st_ready [VInt 0; VInt 0; VInt 0; VInt 0] s /\
    execute_query cfg_ok drv_no_donations query_doacoes_total None
      true false false s
    = (Raise (HTTPException 500
                "Erro no banco de dados Oracle: ORA-00942: table or view does not exist"),
       s') /\
    obter_estatisticas cfg_ok drv_no_donations st_ready
    = (Raise (HTTPException 500
                "Erro ao buscar estatísticas do banco: 500: Erro no banco de dados Oracle: ORA-00942: table or view does not exist"),
       statistics_failed
         (HTTPException 500
            "Erro no banco de dados Oracle: ORA-00942: table or view does not exist")
         s').
Proof.
  split; [apply healthy_drv_answer|]. split; [reflexivity|]. split.
  - exact (proj2 (proj2 (proj2
             (@obter_estatisticas_snapshot cfg_ok drv_empty st_ready)))
             0 answer_empty (@healthy_drv_answer _) eq_refl
             (fun _ _ _ => eq_refl)).
  - assert (H : exists s,
               reads_ok cfg_ok drv_no_donations
                 [query_pessoas_total; query_pessoas_desabrigadas;
                  query_abrigos_total; query_vagas_disponiveis]
                 st_ready [VInt 0; VInt 0; VInt 0; VInt 0] s).
    { eexists. cbn [reads_ok].
      do 4 (do 2 eexists; split; [vm_compute; reflexivity|];
            split; [vm_compute; reflexivity|]).
      reflexivity. }
    destruct H as (s & H).
    assert (E : exists s',
               execute_query cfg_ok drv_no_donations query_doacoes_total None
                 true false false s
               = (Raise (HTTPException 500
                           "Erro no banco de dados Oracle: ORA-00942: table or view does not exist"),
                  s')).
    { cbn [reads_ok] in H.
      destruct H as (r1 & s1 & E1 & _ & r2 & s2 & E2 & _ & r3 & s3 & E3 & _
                     & r4 & s4 & E4 & _ & ->).
      vm_compute in E1. inv E1. vm_compute in E2. inv E2.
      vm_compute in E3. inv E3. vm_compute in E4. inv E4.
      eexists. vm_compute. reflexivity. }
    destruct E as (s' & E). exists s, s'.
    split; [exact H|]. split; [exact E|].
    exact (proj1 (proj2 (proj2
             (@obter_estatisticas_snapshot cfg_ok drv_no_donations st_ready)))
             [query_pessoas_total; query_pessoas_desabrigadas;
              query_abrigos_total; query_vagas_disponiveis]
             query_doacoes_total [query_doacoes_pendentes]
             [VInt 0; VInt 0; VInt 0; VInt 0] s _ s' eq_refl H (or_introl E)).
Defined.

(** ** The shape shared by the three get and update routes *)

Lemma dict_set_fresh d k v :
  ~ In k (keys d) -> dict_set d k v = d ++ [(k, v)].
Proof.
  induction d as [|[k' v'] d IH]; simpl; intros N.
  - reflexivity.
  - destruct (String.eqb_spec k' k) as [E|E].
    + exfalso. apply N. left. exact E.
    + rewrite IH; [reflexivity|]. intros I. apply N. right. exact I.
Qed.

Section Routes.

Variable cfg : Config.
Variable drv : Driver.

Variables query_get key not_found no_data : string.
Variables update_head update_tail id_param : string.

Hypothesis get_not_returning :
  Py.contains "RETURNING" (Py.upper query_get) = false.
Hypothesis get_is_select : Py.startswith "SELECT" query_get = true.
Hypothesis id_param_not_out : Py.startswith "out_" id_param = false.

Local Abbreviation get_ := (get_route cfg drv query_get key not_found).
Local Abbreviation update_ :=
  (update_route cfg drv query_get key not_found no_data update_head
     update_tail id_param).
Local Abbreviation text_ := (update_query update_head update_tail).

Lemma binds_for_get id : binds_for query_get (Some [(key, id)]) = [(key, id)].
Proof. unfold binds_for. rewrite get_not_returning. reflexivity. Qed.

Lemma get_route_log id st r st' :
  get_ id st = (r, st') ->
  exists new, log st' = new ++ log st /\
    (executed new = [] \/ executed new = [(query_get, [(key, id)])]) /\
    commits new = [].
Proof.
  unfold get_route, bind. intros H.
  destruct (execute_query cfg drv query_get (Some [(key, id)]) true false
              false st) as [ro s] eqn:E.
  assert (s = st').
  { destruct ro as [v|e]; [destruct (falsy v)|]; unfold_m; congruence. }
  subst s. apply execute_query_log in E.
  destruct E as (new & L & X & _ & C & _).
  exists new. rewrite binds_for_get in X. repeat split; auto.
  destruct (commits new); [reflexivity|].
  assert (false = true) by (apply C; discriminate). discriminate.
Qed.

Lemma get_route_reads_only id st r st' :
  get_ id st = (r, st') ->
  exists new, log st' = new ++ log st /\ reads_only new.
Proof.
  intros H. apply get_route_log in H. destruct H as (new & L & X & C).
  exists new. split; [exact L|]. split; [exact C|].
  destruct X as [X|X]; rewrite X; repeat constructor. exact get_is_select.
Qed.

(** A missing row makes the get route raise its 404. *)
Lemma get_route_not_found id st r st1 :
  execute_query cfg drv query_get (Some [(key, id)]) true false false st
    = (Ok r, st1) ->
  falsy r = true ->
  get_ id st = (Raise (HTTPException 404 not_found), st1).
Proof.
  intros E F. unfold get_route, bind. rewrite E, F. reflexivity.
Qed.

Lemma update_route_contract id update_data :
  ~ In id_param (keys update_data) ->
  update_contract cfg drv query_get key not_found get_
    (fun id => update_ id update_data)
    no_data update_head update_tail id_param id update_data.
Proof.
  intros NI st. split; [|split; [|split]].
  - intros r st1 E F. unfold update_route, bind.
    rewrite (get_route_not_found _ _ E F). reflexivity.
  - intros e st1 G. split.
    + unfold update_route, bind. rewrite G. reflexivity.
    + eapply get_route_reads_only; eassumption.
  - intros r st1 G E. subst update_data. split.
    + unfold update_route, bind. rewrite G. reflexivity.
    + eapply get_route_reads_only; eassumption.
  - intros r st1 G NE. unfold update_route. unfold bind at 1. rewrite G.
    destruct update_data as [|kv d]; [congruence|].
    unfold dict_update. cbn [fold_left fst snd].
    rewrite (@dict_set_fresh _ _ _ NI). reflexivity.
Qed.

Lemma binds_for_update id update_data :
  ~ In id_param (keys update_data) ->
  Forall (fun k => Py.startswith "out_" k = false) (keys update_data) ->
  binds_for (text_ update_data)
    (Some (dict_update update_data [(id_param, id)]))
  = update_data ++ [(id_param, id)].
Proof.
  intros NI NO. unfold dict_update. cbn [fold_left fst snd].
  rewrite (@dict_set_fresh _ _ _ NI). unfold binds_for.
  destruct (Py.contains "RETURNING" _ && _); [|reflexivity].
  match goal with
  | |- context [filter ?f ?l] =>
      replace (filter f l) with (@nil string); [reflexivity|]
  end.
  unfold params_or_empty, keys. rewrite map_app, filter_app. simpl.
  rewrite id_param_not_out, app_nil_r. symmetry.
  unfold keys in NO. induction NO as [|k l H _ IH]; simpl.
  - reflexivity.
  - rewrite H. exact IH.
Qed.

Lemma Forall_at_most_one {A} (P : A -> Prop) (x : A) (l : list A) :
  l = [] \/ l = [x] -> P x -> Forall P l.
Proof.
  intros [E|E] H; subst l; repeat constructor. exact H.
Qed.

Lemma update_route_statements id update_data :
  ~ In id_param (keys update_data) ->
  Forall (fun k => Py.startswith "out_" k = false) (keys update_data) ->
  statement_contract (update_ id update_data)
    query_get key (text_ update_data) id_param id update_data.
Proof.
  intros NI NO st r st' H. unfold update_route in H. unfold bind at 1 in H.
  destruct (get_ id st) as [[r1|e1] s1] eqn:G1;
    apply get_route_log in G1; destruct G1 as (n1 & L1 & X1 & _).
  - destruct update_data as [|kv d] eqn:U.
    + unfold_m. inv H. exists n1. split; [exact L1|].
      eapply Forall_at_most_one; [exact X1|]. left. reflexivity.
    + rewrite <- U in *. unfold bind at 1 in H.
      destruct (execute_query cfg drv (text_ update_data) _ false
                  true false s1) as [[r2|e2] s2] eqn:E2;
        apply execute_query_log in E2;
        destruct E2 as (n2 & L2 & X2 & _);
        rewrite (@binds_for_update id _ NI NO) in X2.
      * apply get_route_log in H. destruct H as (n3 & L3 & X3 & _).
        exists (n3 ++ n2 ++ n1). rewrite L3, L2, L1, !app_assoc.
        split; [reflexivity|].
        rewrite <- ?app_assoc, !executed_app. rewrite !Forall_app.
        repeat split.
        -- eapply Forall_at_most_one; [exact X3|]. left. reflexivity.
        -- eapply Forall_at_most_one; [exact X2|]. right. reflexivity.
        -- eapply Forall_at_most_one; [exact X1|]. left. reflexivity.
      * inv H. exists (n2 ++ n1). rewrite L2, L1, !app_assoc.
        split; [reflexivity|].
        rewrite <- ?app_assoc, !executed_app. rewrite !Forall_app.
        repeat split.
        -- eapply Forall_at_most_one; [exact X2|]. right. reflexivity.
        -- eapply Forall_at_most_one; [exact X1|]. left. reflexivity.
  - inv H. exists n1. split; [exact L1|].
    eapply Forall_at_most_one; [exact X1|]. left. reflexivity.
Qed.

End Routes.

(** ** The update routes (C4, C10) *)

Lemma present_incl flags : incl (present flags) (map fst flags).
Proof.
  unfold present. intros k H. apply in_map_iff in H.
  destruct H as (kv & E & I). apply filter_In in I.
  apply in_map_iff. exists kv. tauto.
Qed.

Lemma PessoaUpdate_keys u :
  keys (PessoaUpdate.dict_exclude_unset u) = PessoaUpdate_present u.
Proof. destruct u as [[?|] [?|] [?|] [?|] [?|]]; reflexivity. Qed.

Lemma AbrigoUpdate_keys u :
  keys (AbrigoUpdate.dict_exclude_unset u) = AbrigoUpdate_present u.
Proof. destruct u as [[?|] [?|] [?|] [?|] [?|] [?|] [?|]]; reflexivity. Qed.

Lemma DoacaoUpdate_keys u :
  keys (DoacaoUpdate.dict_exclude_unset u) = DoacaoUpdate_present u.
Proof. destruct u as [[?|] [?|] [?|] [?|] [?|] [?|] [?|]]; reflexivity. Qed.

Lemma PessoaUpdate_keys_incl u :
  incl (keys (PessoaUpdate.dict_exclude_unset u)) PessoaUpdate.fields.
Proof. rewrite PessoaUpdate_keys. apply present_incl. Qed.

Lemma AbrigoUpdate_keys_incl u :
  incl (keys (AbrigoUpdate.dict_exclude_unset u)) AbrigoUpdate.fields.
Proof. rewrite AbrigoUpdate_keys. apply present_incl. Qed.

Lemma DoacaoUpdate_keys_incl u :
  incl (keys (DoacaoUpdate.dict_exclude_unset u)) DoacaoUpdate.fields.
Proof. rewrite DoacaoUpdate_keys. apply present_incl. Qed.

Lemma fit_fields_keys id_param fields ks :
  fit_fields id_param fields = true ->
  incl ks fields ->
  ~ In id_param ks /\ Forall (fun k => Py.startswith "out_" k = false) ks.
Proof.
  unfold fit_fields. rewrite forallb_forall. intros F I. split.
  - intros H. apply I, F in H. rewrite String.eqb_refl in H. discriminate.
  - apply Forall_forall. intros k H. apply I, F in H.
    apply andb_true_iff in H. destruct H as (_ & H).
    apply negb_true_iff in H. exact H.
Qed.

Lemma get_queries_not_returning :
  Py.contains "RETURNING" (Py.upper query_obter_pessoa) = false /\
  Py.contains "RETURNING" (Py.upper query_obter_abrigo) = false /\
  Py.contains "RETURNING" (Py.upper query_obter_doacao) = false.
Proof. vm_compute. repeat split. Qed.

Lemma update_fields_fit :
  fit_fields "id_pessoa_param" PessoaUpdate.fields = true /\
  fit_fields "id_abrigo_param" AbrigoUpdate.fields = true /\
  fit_fields "id_doacao_param" DoacaoUpdate.fields = true.
Proof. vm_compute. repeat split. Qed.

Section UpdateRoutes.

Variable cfg : Config.
Variable drv : Driver.

(** C4.  Each of the three update routes keeps the contract of an update:
    when the SELECT by identity finds no row the route raises the 404 of
    its entity, and a failing get is passed on after reads only; an
    empty payload on an existing record gives the 400 of the route after
    reads only; otherwise the UPDATE sent has one assignment for each
    field the payload sets, and no other, and the route answers with a
    new get. *)
Theorem update_routes_contract :
  (forall id u,
      update_contract cfg drv query_obter_pessoa "id_pessoa"
        "Pessoa não encontrada" (obter_pessoa cfg drv)
        (fun id => atualizar_pessoa cfg drv id u)
        "Nenhum dado fornecido para atualização"
        "UPDATE PESSOAS SET " " WHERE ID_PESSOA = :id_pessoa_param"
        "id_pessoa_param" id (PessoaUpdate.dict_exclude_unset u) /\
      keys (PessoaUpdate.dict_exclude_unset u) = PessoaUpdate_present u) /\
  (forall id u,
      update_contract cfg drv query_obter_abrigo "id_abrigo"
        "Abrigo não encontrado" (obter_abrigo cfg drv)
        (fun id => atualizar_abrigo cfg drv id u)
        "Nenhum dado para atualização"
        "UPDATE ABRIGOS SET " " WHERE ID_ABRIGO = :id_abrigo_param"
        "id_abrigo_param" id (AbrigoUpdate.dict_exclude_unset u) /\
      keys (AbrigoUpdate.dict_exclude_unset u) = AbrigoUpdate_present u) /\
  (forall id u,
      update_contract cfg drv query_obter_doacao "id_doacao"
        "Doação não encontrada" (obter_doacao cfg drv)
        (fun id => atualizar_doacao cfg drv id u)
        "Nenhum dado para atualização"
        "UPDATE DOACOES SET " " WHERE ID_DOACAO = :id_doacao_param"
        "id_doacao_param" id (DoacaoUpdate.dict_exclude_unset u) /\
      keys (DoacaoUpdate.dict_exclude_unset u) = DoacaoUpdate_present u).
Proof.
  destruct get_queries_not_returning as (Np & Na & Nd).
  destruct update_fields_fit as (Fp & Fa & Fd).
  split; [|split]; intros id u; split.
  - exact (@update_route_contract cfg drv query_obter_pessoa "id_pessoa"
             "Pessoa não encontrada"
             "Nenhum dado fornecido para atualização" "UPDATE PESSOAS SET "
             " WHERE ID_PESSOA = :id_pessoa_param" "id_pessoa_param" Np eq_refl id _
             (proj1 (@fit_fields_keys _ _ _ Fp (@PessoaUpdate_keys_incl u)))).
  - apply PessoaUpdate_keys.
  - exact (@update_route_contract cfg drv query_obter_abrigo "id_abrigo"
             "Abrigo não encontrado"
             "Nenhum dado para atualização" "UPDATE ABRIGOS SET "
             " WHERE ID_ABRIGO = :id_abrigo_param" "id_abrigo_param" Na eq_refl id _
             (proj1 (@fit_fields_keys _ _ _ Fa (@AbrigoUpdate_keys_incl u)))).
  - apply AbrigoUpdate_keys.
  - exact (@update_route_contract cfg drv query_obter_doacao "id_doacao"
             "Doação não encontrada"
             "Nenhum dado para atualização" "UPDATE DOACOES SET "
             " WHERE ID_DOACAO = :id_doacao_param" "id_doacao_param" Nd eq_refl id _
             (proj1 (@fit_fields_keys _ _ _ Fd (@DoacaoUpdate_keys_incl u)))).
  - apply DoacaoUpdate_keys.
Qed.

(** C10.  For each update route: the keys of the payload dict, which
    become the column names of the SET clause, are fields of the
    update model; the text of the UPDATE is built from the names of
    the fields the payload sets and from nothing else; and the route
    sends no statement but the SELECT of its get route, with the
    identity bound to its parameter, and that UPDATE, with the values
    of the payload and the identity as bind values. *)
Theorem update_statements_bind_values :
  (forall id u,
      let update_data := PessoaUpdate.dict_exclude_unset u in
      incl (keys update_data) PessoaUpdate.fields /\
      query_atualizar_pessoa update_data
      = ("UPDATE PESSOAS SET " ++
         Py.join ", " (map assignment (PessoaUpdate_present u)) ++
         " WHERE ID_PESSOA = :id_pessoa_param")%string /\
      statement_contract (atualizar_pessoa cfg drv id u)
        query_obter_pessoa "id_pessoa"
        (query_atualizar_pessoa update_data) "id_pessoa_param"
        id update_data) /\
  (forall id u,
      let update_data := AbrigoUpdate.dict_exclude_unset u in
      incl (keys update_data) AbrigoUpdate.fields /\
      query_atualizar_abrigo update_data
      = ("UPDATE ABRIGOS SET " ++
         Py.join ", " (map assignment (AbrigoUpdate_present u)) ++
         " WHERE ID_ABRIGO = :id_abrigo_param")%string /\
      statement_contract (atualizar_abrigo cfg drv id u)
        query_obter_abrigo "id_abrigo"
        (query_atualizar_abrigo update_data) "id_abrigo_param"
        id update_data) /\
  (forall id u,
      let update_data := DoacaoUpdate.dict_exclude_unset u in
      incl (keys update_data) DoacaoUpdate.fields /\
      query_atualizar_doacao update_data
      = ("UPDATE DOACOES SET " ++
         Py.join ", " (map assignment (DoacaoUpdate_present u)) ++
         " WHERE ID_DOACAO = :id_doacao_param")%string /\
      statement_contract (atualizar_doacao cfg drv id u)
        query_obter_doacao "id_doacao"
        (query_atualizar_doacao update_data) "id_doacao_param"
        id update_data).
Proof.
  destruct get_queries_not_returning as (Np & Na & Nd).
  destruct update_fields_fit as (Fp & Fa & Fd).
  split; [|split]; intros id u update_data; split; [|split| |split| |split].
  - apply PessoaUpdate_keys_incl.
  - unfold query_atualizar_pessoa, set_clauses, update_data.
    rewrite PessoaUpdate_keys. reflexivity.
  - destruct (@fit_fields_keys _ _ _ Fp (@PessoaUpdate_keys_incl u)) as (NI & NO).
    exact (@update_route_statements cfg drv query_obter_pessoa "id_pessoa"
             "Pessoa não encontrada"
             "Nenhum dado fornecido para atualização" "UPDATE PESSOAS SET "
             " WHERE ID_PESSOA = :id_pessoa_param" "id_pessoa_param" Np eq_refl id _ NI NO).
  - apply AbrigoUpdate_keys_incl.
  - unfold query_atualizar_abrigo, set_clauses, update_data.
    rewrite AbrigoUpdate_keys. reflexivity.
  - destruct (@fit_fields_keys _ _ _ Fa (@AbrigoUpdate_keys_incl u)) as (NI & NO).
    exact (@update_route_statements cfg drv query_obter_abrigo "id_abrigo"
             "Abrigo não encontrado"
             "Nenhum dado para atualização" "UPDATE ABRIGOS SET "
             " WHERE ID_ABRIGO = :id_abrigo_param" "id_abrigo_param" Na eq_refl id _ NI NO).
  - apply DoacaoUpdate_keys_incl.
  - unfold query_atualizar_doacao, set_clauses, update_data.
    rewrite DoacaoUpdate_keys. reflexivity.
  - destruct (@fit_fields_keys _ _ _ Fd (@DoacaoUpdate_keys_incl u)) as (NI & NO).
    exact (@update_route_statements cfg drv query_obter_doacao "id_doacao"
             "Doação não encontrada"
             "Nenhum dado para atualização" "UPDATE DOACOES SET "
             " WHERE ID_DOACAO = :id_doacao_param" "id_doacao_param" Nd eq_refl id _ NI NO).
Qed.

End UpdateRoutes.

Lemma update_routes_contract_witness :
  let st1 := snd (obter_pessoa cfg_ok drv_person (VInt 7) st_ready) in
  (exists r, obter_pessoa cfg_ok drv_person (VInt 7) st_ready = (Ok r, st1)) /\
  PessoaUpdate.dict_exclude_unset update_nome <> [] /\
  atualizar_pessoa cfg_ok drv_person (VInt 7) update_nome st_ready
  = let (r2, st2) :=
      execute_query cfg_ok drv_person
        "UPDATE PESSOAS SET NOME = :nome WHERE ID_PESSOA = :id_pessoa_param"
        (Some [("nome", VStr "Maria da Silva"); ("id_pessoa_param", VInt 7)])
        false true false st1 in
    match r2 with
    | Ok _ => obter_pessoa cfg_ok drv_person (VInt 7) st2
    | Raise e => (Raise e, st2)
    end.
Proof.
  intros st1.
  assert (G : exists r,
             obter_pessoa cfg_ok drv_person (VInt 7) st_ready = (Ok r, st1))
    by (eexists; vm_compute; reflexivity).
  assert (NE : PessoaUpdate.dict_exclude_unset update_nome <> [])
    by discriminate.
  split; [exact G|]. split; [exact NE|].
  destruct G as (r & G).
  destruct (proj1 (update_routes_contract cfg_ok drv_person) (VInt 7)
              update_nome) as (C & _).
  destruct (C st_ready) as (_ & _ & _ & C3).
  exact (C3 r st1 G NE).
Defined.

Lemma update_statements_bind_values_witness :
  exists new,
    log (snd (atualizar_pessoa cfg_ok drv_person (VInt 7) update_nome st_ready))
    = new ++ log st_ready /\
    Forall (fun qb =>
              qb = (query_obter_pessoa, [("id_pessoa", VInt 7)]) \/
              qb = ("UPDATE PESSOAS SET NOME = :nome WHERE ID_PESSOA = :id_pessoa_param"%string,
                    [("nome", VStr "Maria da Silva");
                     ("id_pessoa_param", VInt 7)]))
      (executed new).
Proof.
  destruct (proj1 (update_statements_bind_values cfg_ok drv_person) (VInt 7)
              update_nome) as (_ & _ & C).
  exact (C st_ready _ _ (surjective_pairing _)).
Defined.

(** ** Records from rows (C5) *)

Lemma dict_update_fresh l : forall d,
  NoDup (keys d ++ map fst l) -> dict_update d l = d ++ l.
Proof.
  induction l as [|[k v] l IH]; intros d N.
  - simpl. rewrite app_nil_r. reflexivity.
  - unfold dict_update in *. simpl fold_left. simpl fst. simpl snd.
    assert (NI : ~ In k (keys d)).
    { simpl in N. apply NoDup_remove_2 in N. intros I. apply N.
      apply in_or_app. left. exact I. }
    rewrite (@dict_set_fresh _ _ _ NI). rewrite IH.
    + rewrite <- app_assoc. reflexivity.
    + unfold keys. rewrite map_app. simpl. rewrite <- app_assoc. exact N.
Qed.

Lemma NoDup_combine_fst (columns : list string) : forall (row : list Value),
  NoDup columns -> NoDup (map fst (combine columns row)).
Proof.
  induction columns as [|c columns IH]; intros row N.
  - constructor.
  - destruct row as [|v row]; [constructor|]. simpl. inv N. constructor.
    + intros I. apply in_map_iff in I. destruct I as ([c' v'] & E & I).
      simpl in E. subst c'. apply in_combine_l in I. contradiction.
    + apply IH. assumption.
Qed.

Lemma dict_zip_NoDup columns row :
  NoDup columns -> dict_zip columns row = combine columns row.
Proof.
  intros N. unfold dict_zip, dict_of_pairs.
  rewrite dict_update_fresh; [reflexivity|]. simpl.
  apply NoDup_combine_fst. exact N.
Qed.

Lemma dict_get_combine (columns : list string) : forall (row : list Value) i,
  NoDup columns -> length row = length columns -> i < length columns ->
  dict_get (combine columns row) (nth i columns ""%string)
  = Some (nth i row VNone).
Proof.
  induction columns as [|c columns IH]; intros row i N L I.
  - simpl in I. lia.
  - destruct row as [|v row]; [discriminate|]. simpl in L. inv N.
    destruct i as [|i]; simpl.
    + rewrite String.eqb_refl. reflexivity.
    + destruct (String.eqb_spec c (nth i columns ""%string)) as [E|E].
      * exfalso. match goal with H : ~ In c columns |- _ => apply H end.
        rewrite E. apply nth_In. simpl in I. lia.
      * apply IH; auto. simpl in I. lia.
Qed.

(** C5, single-row mode.  With [fetch_one] set and neither [commit],
    [is_ddl] nor a RETURNING clause with parameters, a query the
    database answers with [rs] returns [None] when [rs] has no row, and
    otherwise one dict, made from the first row, that maps the lower-cased
    name of every column to the value of that column. *)
Theorem execute_query_single_row cfg drv query params st p rs columns :
  healthy drv ->
  pool st = Some p ->
  Py.contains "RETURNING" (Py.upper query) && params_truthy params = false ->
  (forall t, cursor_execute drv t query (params_or_empty params) = inr rs) ->
  description rs = Some columns ->
  NoDup (map Py.lower columns) ->
  exists r st',
    execute_query cfg drv query params true false false st = (Ok r, st') /\
    match rows rs with
    | [] => r = RNone
    | row :: _ =>
        row <> [] -> length row = length columns ->
        exists d,
          r = RDict d /\ length d = length columns /\
          forall i, i < length columns ->
            dict_get d (Py.lower (nth i columns ""%string))
            = Some (nth i row VNone)
    end.
Proof.
  intros Hd P NR X D N.
  exists (single_row columns rs), (after_read p query (params_or_empty params) st).
  split; [apply execute_query_fetch_one; auto|].
  unfold single_row. destruct (rows rs) as [|row rest]; [reflexivity|].
  intros NE L. destruct row as [|v row]; [congruence|].
  eexists. split; [reflexivity|].
  rewrite (@dict_zip_NoDup _ _ N). split.
  - rewrite length_combine, length_map, L. apply Nat.min_id.
  - intros i I.
    rewrite <- (map_nth Py.lower columns ""%string i).
    change (Py.lower ""%string) with ""%string.
    apply dict_get_combine; auto; rewrite length_map; auto.
Qed.

Lemma execute_query_single_row_witness :
  exists r st',
    execute_query cfg_ok drv_person query_obter_pessoa
      (Some [("id_pessoa", VInt 7)]) true false false st_ready = (Ok r, st') /\
    exists d,
      r = RDict d /\ length d = 8 /\
      forall i, i < 8 ->
        dict_get d
          (Py.lower
             (nth i ["ID_PESSOA"; "NOME"; "CPF"; "TELEFONE"; "ENDERECO";
                     "SITUACAO"; "NECESSIDADES"; "DATA_CADASTRO"] ""%string))
        = Some (nth i [VInt 7; VStr "Maria"; VStr "12345678900"; VNone; VNone;
                       VStr "desabrigado"; VNone;
                       VStr "2024-05-10 08:30:00"] VNone).
Proof.
  assert (N : NoDup (map Py.lower
                       ["ID_PESSOA"; "NOME"; "CPF"; "TELEFONE"; "ENDERECO";
                        "SITUACAO"; "NECESSIDADES"; "DATA_CADASTRO"]%string)).
  { vm_compute. repeat constructor; simpl; intuition discriminate. }
  destruct (@execute_query_single_row cfg_ok drv_person query_obter_pessoa
              (Some [("id_pessoa", VInt 7)]) st_ready 0 rs_pessoa _
              (healthy_drv_answer _) eq_refl
              (proj1 get_queries_not_returning) (fun _ => eq_refl) eq_refl N)
    as (r & st' & E & R).
  exists r, st'. split; [exact E|].
  apply R; [discriminate|reflexivity].
Defined.

(** ** The multi-row branch as embedded (C5, C8)

    The lemmas of this part hold of the comprehension
    [[dict(zip(columns, row)) for row in rows]], the reading under which
    the last line of the [try] block was embedded. *)

Section Lists.

Variable cfg : Config.
Variable drv : Driver.
Hypothesis drv_healthy : healthy drv.

Lemma execute_query_multi_row query st p rs columns :
  pool st = Some p ->
  (forall t, cursor_execute drv t query [] = inr rs) ->
  description rs = Some columns ->
  exists l st',
    execute_query cfg drv query None false false false st
    = (Ok (RList l), st') /\
    length l = length (rows rs) /\
    forall i, i < length (rows rs) ->
      nth i l [] = dict_zip (map Py.lower columns) (nth i (rows rs) []).
Proof.
  intros P X D. do 2 eexists. split.
  - apply (@execute_query_fetch_all cfg drv drv_healthy query None st p rs
             columns P (andb_false_r _) (X _) D).
  - split; [apply length_map|]. intros i I.
    rewrite <- (map_nth (dict_zip (map Py.lower columns)) (rows rs) [] i).
    apply nth_indep. rewrite length_map. exact I.
Qed.

(** The three list routes ask for every record of their table, ordered
    by name (persons, shelters) or by donation date, latest first, and
    hand back one record for each row, in the order of the rows. *)
Lemma list_routes_in_row_order st p rs columns :
  pool st = Some p ->
  description rs = Some columns ->
  (query_listar_pessoas
   = ("SELECT ID_PESSOA, NOME, CPF, TELEFONE, ENDERECO, SITUACAO, NECESSIDADES, DATA_CADASTRO"
      ++ " FROM PESSOAS" ++ " ORDER BY NOME")%string /\
   ((forall t, cursor_execute drv t query_listar_pessoas [] = inr rs) ->
    exists st',
      listar_pessoas cfg drv st
      = (Ok (RList (map (dict_zip (map Py.lower columns)) (rows rs))), st'))) /\
  (query_listar_abrigos
   = ("SELECT ID_ABRIGO, NOME, ENDERECO, CAPACIDADE, OCUPACAO_ATUAL, RESPONSAVEL, TELEFONE_RESPONSAVEL, RECURSOS_DISPONIVEIS, DATA_CRIACAO"
      ++ " FROM ABRIGOS" ++ " ORDER BY NOME")%string /\
   ((forall t, cursor_execute drv t query_listar_abrigos [] = inr rs) ->
    exists st',
      listar_abrigos cfg drv st
      = (Ok (RList (map (dict_zip (map Py.lower columns)) (rows rs))), st'))) /\
  (query_listar_doacoes
   = ("SELECT ID_DOACAO, DOADOR_NOME, DOADOR_TELEFONE, TIPO_DOACAO, DESCRICAO, QUANTIDADE, STATUS, DATA_DOACAO, ID_ABRIGO_DESTINO"
      ++ " FROM DOACOES" ++ " ORDER BY DATA_DOACAO DESC")%string /\
   ((forall t, cursor_execute drv t query_listar_doacoes [] = inr rs) ->
    exists st',
      listar_doacoes cfg drv st
      = (Ok (RList (map (dict_zip (map Py.lower columns)) (rows rs))), st'))).
Proof.
  intros P D.
  repeat split; intros X; eexists;
    apply (@execute_query_fetch_all cfg drv drv_healthy _ None st p rs
             columns P (andb_false_r _) (X _) D).
Qed.

End Lists.

(** * Further properties of the program *)

(** ** The statuses that leave the executor and the routes *)

Section Statuses.

Variable cfg : Config.
Variable drv : Driver.
Hypothesis drv_plain : raises_no_http drv.

Lemma execute_query_except_raises e st r st' :
  execute_query_except cfg drv e st = (r, st') ->
  exists e', r = Raise e' /\
    (is_HTTPException e' = false \/ exists d, e' = HTTPException 500 d).
Proof.
  unfold execute_query_except, init_oracle_pool. intros H.
  destruct e; run; eexists; (split; [reflexivity|]);
    first [ right; eexists; reflexivity
          | left; eapply drv_plain; eassumption ].
Qed.

Lemma execute_query_finally_raises loc r st r' st' :
  execute_query_finally loc r st = (r', st') ->
  r' = r \/
  r' = Raise (AttributeError "'NoneType' object has no attribute 'release'").
Proof.
  unfold execute_query_finally. intros H. destruct loc as [cn cu].
  run; auto.
Qed.

Lemma execute_query_raises query params fetch_one commit is_ddl st e st' :
  execute_query cfg drv query params fetch_one commit is_ddl st
    = (Raise e, st') ->
  is_HTTPException e = false \/ exists d, e = HTTPException 500 d.
Proof.
  unfold execute_query. intros H.
  destruct (execute_query_try cfg drv query params fetch_one commit is_ddl st)
    as [[rt loc] st1].
  destruct rt as [v|e0].
  - apply execute_query_finally_raises in H. destruct H as [H|H]; inv H.
    left. reflexivity.
  - destruct (execute_query_except cfg drv e0 st1) as [r2 st2] eqn:E.
    apply execute_query_except_raises in E. destruct E as (e' & -> & S).
    apply execute_query_finally_raises in H. destruct H as [H|H]; inv H.
    + exact S.
    + left. reflexivity.
Qed.

(** X1.  Whatever goes wrong in [execute_query], a missing pool and a
    refused connection (the 503s of [get_db_connection]) included, an
    [HTTPException] that leaves it has status 500. *)
Theorem execute_query_status_500
    query params fetch_one commit is_ddl st e st' :
  execute_query cfg drv query params fetch_one commit is_ddl st
    = (Raise e, st') ->
  status_of e = None \/ status_of e = Some 500%Z.
Proof.
  intros H. apply execute_query_raises in H. destruct H as [H|(d & ->)].
  - left. destruct e; simpl in *; congruence.
  - right. reflexivity.
Qed.

Lemma raises_only_execute_query statuses query params fetch_one commit is_ddl :
  In 500%Z statuses ->
  raises_only statuses
    (execute_query cfg drv query params fetch_one commit is_ddl).
Proof.
  intros I st s d st' H. apply execute_query_raises in H.
  destruct H as [H|(d' & H)]; [discriminate|]. inv H. exact I.
Qed.

Lemma raises_only_bind {A B} statuses (m : M A) (f : A -> M B) :
  raises_only statuses m ->
  (forall a, raises_only statuses (f a)) ->
  raises_only statuses (bind m f).
Proof.
  intros Hm Hf st s d st' H. unfold bind in H.
  destruct (m st) as [[a|e] s1] eqn:E.
  - eapply Hf; eassumption.
  - inv H. eapply Hm; eassumption.
Qed.

Lemma raises_only_ret {A} statuses (a : A) : raises_only statuses (ret a).
Proof. intros st s d st' H. discriminate. Qed.

Lemma raises_only_raise {A} statuses s d :
  In s statuses -> raises_only statuses (@raise A (HTTPException s d)).
Proof. intros I st s' d' st' H. inv H. exact I. Qed.

Lemma raises_only_subscript statuses r key :
  raises_only statuses (lift (subscript r key)).
Proof.
  intros st s d st' H. unfold lift in H.
  destruct r as [|dd|l]; simpl in H; try discriminate.
  destruct (dict_get dd key); discriminate.
Qed.

Lemma raises_only_get_route statuses query_get key not_found id :
  In 404%Z statuses -> In 500%Z statuses ->
  raises_only statuses (get_route cfg drv query_get key not_found id).
Proof.
  intros I4 I5. unfold get_route. apply raises_only_bind.
  - apply raises_only_execute_query. exact I5.
  - intros r. destruct (falsy r).
    + apply raises_only_raise. exact I4.
    + apply raises_only_ret.
Qed.

Lemma raises_only_update_route statuses query_get key not_found no_data
    update_head update_tail id_param id update_data :
  In 400%Z statuses -> In 404%Z statuses -> In 500%Z statuses ->
  raises_only statuses
    (update_route cfg drv query_get key not_found no_data update_head
       update_tail id_param id update_data).
Proof.
  intros I0 I4 I5. unfold update_route. apply raises_only_bind.
  - apply raises_only_get_route; assumption.
  - intros _. destruct update_data.
    + apply raises_only_raise. exact I0.
    + apply raises_only_bind.
      * apply raises_only_execute_query. exact I5.
      * intros _. apply raises_only_get_route; assumption.
Qed.

Lemma raises_only_delete statuses query_get key not_found query_delete id :
  In 404%Z statuses -> In 500%Z statuses ->
  raises_only statuses
    (bind (get_route cfg drv query_get key not_found id) (fun _ =>
     bind (execute_query cfg drv query_delete (Some [(key, id)])
             false true false) (fun _ => ret RNone))).
Proof.
  intros I4 I5. apply raises_only_bind.
  - apply raises_only_get_route; assumption.
  - intros _. apply raises_only_bind.
    + apply raises_only_execute_query. exact I5.
    + intros _. apply raises_only_ret.
Qed.

Lemma raises_only_create statuses query params out_key query_get key not_found :
  In 404%Z statuses -> In 500%Z statuses ->
  raises_only statuses
    (bind (execute_query cfg drv query params false true false)
       (fun returned_data =>
          bind (lift (subscript returned_data out_key))
            (fun new_id => get_route cfg drv query_get key not_found new_id))).
Proof.
  intros I4 I5. apply raises_only_bind.
  - apply raises_only_execute_query. exact I5.
  - intros r. apply raises_only_bind.
    + apply raises_only_subscript.
    + intros v. apply raises_only_get_route; assumption.
Qed.

(** X2.  The statuses of the [HTTPException]s each route can raise: 500
    alone for the lists and the statistics; 404 and 500 for get, delete
    and the creation of shelters and donations; 404, 409 and 500 for the
    creation of persons; 400, 404 and 500 for the updates.  No route
    raises a 503. *)
Theorem routes_statuses :
  (raises_only [500%Z] (listar_pessoas cfg drv) /\
   raises_only [500%Z] (listar_abrigos cfg drv) /\
   raises_only [500%Z] (listar_doacoes cfg drv) /\
   raises_only [500%Z] (obter_estatisticas cfg drv)) /\
  (forall id,
      raises_only [404%Z; 500%Z] (obter_pessoa cfg drv id) /\
      raises_only [404%Z; 500%Z] (obter_abrigo cfg drv id) /\
      raises_only [404%Z; 500%Z] (obter_doacao cfg drv id) /\
      raises_only [404%Z; 500%Z] (deletar_pessoa cfg drv id) /\
      raises_only [404%Z; 500%Z] (deletar_abrigo cfg drv id) /\
      raises_only [404%Z; 500%Z] (deletar_doacao cfg drv id)) /\
  (forall pessoa,
      raises_only [404%Z; 409%Z; 500%Z] (cadastrar_pessoa cfg drv pessoa)) /\
  (forall abrigo, raises_only [404%Z; 500%Z] (cadastrar_abrigo cfg drv abrigo)) /\
  (forall doacao, raises_only [404%Z; 500%Z] (cadastrar_doacao cfg drv doacao)) /\
  (forall id u,
      raises_only [400%Z; 404%Z; 500%Z] (atualizar_pessoa cfg drv id u)) /\
  (forall id u,
      raises_only [400%Z; 404%Z; 500%Z] (atualizar_abrigo cfg drv id u)) /\
  (forall id u,
      raises_only [400%Z; 404%Z; 500%Z] (atualizar_doacao cfg drv id u)).
Proof.
  assert (I5 : In 500%Z [500%Z]) by (simpl; auto).
  assert (J4 : In 404%Z [404%Z; 500%Z]) by (simpl; auto).
  assert (J5 : In 500%Z [404%Z; 500%Z]) by (simpl; auto).
  assert (K0 : In 400%Z [400%Z; 404%Z; 500%Z]) by (simpl; auto).
  assert (K4 : In 404%Z [400%Z; 404%Z; 500%Z]) by (simpl; auto).
  assert (K5 : In 500%Z [400%Z; 404%Z; 500%Z]) by (simpl; auto).
  repeat match goal with
         | |- _ /\ _ => split
         | |- forall _, _ => intro
         end.
  - apply raises_only_execute_query; exact I5.
  - apply raises_only_execute_query; exact I5.
  - apply raises_only_execute_query; exact I5.
  - intros st s d st' H. unfold obter_estatisticas, try_except in H.
    destruct (obter_estatisticas_try cfg drv st) as [[v|e] s1];
      [discriminate|].
    unfold_m. inv H. exact I5.
  - exact (@raises_only_get_route _ query_obter_pessoa "id_pessoa"
             "Pessoa não encontrada" id J4 J5).
  - exact (@raises_only_get_route _ query_obter_abrigo "id_abrigo"
             "Abrigo não encontrado" id J4 J5).
  - exact (@raises_only_get_route _ query_obter_doacao "id_doacao"
             "Doação não encontrada" id J4 J5).
  - exact (@raises_only_delete _ query_obter_pessoa "id_pessoa"
             "Pessoa não encontrada"
             "DELETE FROM PESSOAS WHERE ID_PESSOA = :id_pessoa" id J4 J5).
  - exact (@raises_only_delete _ query_obter_abrigo "id_abrigo"
             "Abrigo não encontrado"
             "DELETE FROM ABRIGOS WHERE ID_ABRIGO = :id_abrigo" id J4 J5).
  - exact (@raises_only_delete _ query_obter_doacao "id_doacao"
             "Doação não encontrada"
             "DELETE FROM DOACOES WHERE ID_DOACAO = :id_doacao" id J4 J5).
  - intros st s d st' H. unfold cadastrar_pessoa, try_except in H.
    match type of H with
    | context [match ?m st with _ => _ end] =>
        pose proof (@raises_only_create [404%Z; 500%Z] query_cadastrar_pessoa
                      (Some (dict_set (PessoaCreate.to_dict pessoa)
                               "out_id_pessoa" VNone))
                      "out_id_pessoa" query_obter_pessoa "id_pessoa"
                      "Pessoa não encontrada" J4 J5) as R;
        destruct (m st) as [[v|e] s1] eqn:E; [discriminate|]
    end.
    destruct e as [s0 d0| | | | | | |]; try (unfold raise in H; discriminate).
    apply R in E.
    destruct (Py.contains "UNIQUE_CONSTRAINT_VIOLATED" (Py.upper d0)
              || Py.contains "ORA-00001" d0); unfold raise in H; inv H;
      simpl in *; tauto.
  - intros st s d st' H. unfold cadastrar_abrigo, try_except in H.
    match type of H with
    | context [match ?m st with _ => _ end] =>
        pose proof (@raises_only_create [404%Z; 500%Z] query_cadastrar_abrigo
                      (Some (dict_set (AbrigoCreate.to_dict abrigo)
                               "out_id_abrigo" VNone))
                      "out_id_abrigo" query_obter_abrigo "id_abrigo"
                      "Abrigo não encontrado" J4 J5) as R;
        destruct (m st) as [[v|e] s1] eqn:E; [discriminate|]
    end.
    unfold raise in H. inv H. eapply R; eassumption.
  - intros st s d st' H. unfold cadastrar_doacao, try_except in H.
    match type of H with
    | context [match ?m st with _ => _ end] =>
        pose proof (@raises_only_create [404%Z; 500%Z] query_cadastrar_doacao
                      (Some (dict_set (DoacaoCreate.to_dict doacao)
                               "out_id_doacao" VNone))
                      "out_id_doacao" query_obter_doacao "id_doacao"
                      "Doação não encontrada" J4 J5) as R;
        destruct (m st) as [[v|e] s1] eqn:E; [discriminate|]
    end.
    unfold raise in H. inv H. eapply R; eassumption.
  - exact (@raises_only_update_route _ query_obter_pessoa "id_pessoa"
             "Pessoa não encontrada" "Nenhum dado fornecido para atualização"
             "UPDATE PESSOAS SET " " WHERE ID_PESSOA = :id_pessoa_param"
             "id_pessoa_param" id (PessoaUpdate.dict_exclude_unset u)
             K0 K4 K5).
  - exact (@raises_only_update_route _ query_obter_abrigo "id_abrigo"
             "Abrigo não encontrado" "Nenhum dado para atualização"
             "UPDATE ABRIGOS SET " " WHERE ID_ABRIGO = :id_abrigo_param"
             "id_abrigo_param" id (AbrigoUpdate.dict_exclude_unset u)
             K0 K4 K5).
  - exact (@raises_only_update_route _ query_obter_doacao "id_doacao"
             "Doação não encontrada" "Nenhum dado para atualização"
             "UPDATE DOACOES SET " " WHERE ID_DOACAO = :id_doacao_param"
             "id_doacao_param" id (DoacaoUpdate.dict_exclude_unset u)
             K0 K4 K5).
Qed.

End Statuses.

(** ** One round trip for each call of the executor *)

Lemma within_app a1 x1 c1 r1 k1 n1 a2 x2 c2 r2 k2 n2 evs1 evs2 :
  within a1 x1 c1 r1 k1 n1 evs1 ->
  within a2 x2 c2 r2 k2 n2 evs2 ->
  within (a2 + a1) (x2 + x1) (c2 + c1) (r2 + r1) (k2 + k1) (n2 + n1)
    (evs2 ++ evs1).
Proof.
  unfold within, acquired, executed, commits, released, closed, pool_attempts.
  intros (A1 & X1 & C1 & R1 & K1 & N1) (A2 & X2 & C2 & R2 & K2 & N2).
  rewrite !flat_map_app, !length_app. repeat split; lia.
Qed.

Ltac within_solve :=
  give_new; unfold within; simpl; repeat split; lia.

Ltac run_statements :=
  repeat (unfold_m; simpl in *;
          first [ match goal with
                  | H : mapM (getvalue0 _) _ _ = (_, _) |- _ =>
                      apply mapM_getvalue0_state in H; subst
                  end
                | split_match ]);
  simpl in *.

Section OneRound.

Variable cfg : Config.
Variable drv : Driver.

Lemma get_db_connection_within st r st' :
  get_db_connection cfg drv st = (r, st') ->
  exists new, log st' = new ++ log st /\ within 1 0 0 0 0 1 new.
Proof.
  unfold get_db_connection, init_oracle_pool. intros H. run; within_solve.
Qed.

Lemma call_cursor_within c st r st' :
  call_cursor drv c st = (r, st') ->
  exists new, log st' = new ++ log st /\ within 0 0 0 0 0 0 new.
Proof. unfold call_cursor. intros H. run; within_solve. Qed.

Lemma execute_query_body_within c query params fetch_one commit is_ddl
    st r st' :
  execute_query_body drv c query params fetch_one commit is_ddl st = (r, st') ->
  exists new, log st' = new ++ log st /\ within 0 1 1 0 0 0 new.
Proof.
  unfold execute_query_body, call_execute, call_commit, columns_of.
  intros H. run_statements; within_solve.
Qed.

Lemma execute_query_except_within e st r st' :
  execute_query_except cfg drv e st = (r, st') ->
  exists new, log st' = new ++ log st /\ within 0 0 0 0 1 1 new.
Proof.
  unfold execute_query_except, init_oracle_pool. intros H.
  destruct e; run; within_solve.
Qed.

Lemma execute_query_finally_within loc r st r' st' :
  execute_query_finally loc r st = (r', st') ->
  exists new, log st' = new ++ log st /\ within 0 0 0 1 0 0 new.
Proof.
  unfold execute_query_finally. intros H. destruct loc as [cn cu].
  run; within_solve.
Qed.

Lemma execute_query_try_within query params fetch_one commit is_ddl
    st r loc st1 :
  execute_query_try cfg drv query params fetch_one commit is_ddl st
    = (r, loc, st1) ->
  exists new, log st1 = new ++ log st /\ within 1 1 1 0 0 1 new.
Proof.
  unfold execute_query_try. intros H.
  destruct (get_db_connection cfg drv st) as [[c|e] sa] eqn:G;
    apply get_db_connection_within in G; destruct G as (n1 & L1 & W1).
  - destruct (call_cursor drv c sa) as [[cur|e] sb] eqn:U;
      apply call_cursor_within in U; destruct U as (n2 & L2 & W2).
    + destruct (execute_query_body drv c query params fetch_one commit
                  is_ddl sb) as [rb sc] eqn:B.
      apply execute_query_body_within in B. destruct B as (n3 & L3 & W3).
      inv H. exists (n3 ++ n2 ++ n1). rewrite L3, L2, L1, !app_assoc.
      split; [reflexivity|]. rewrite <- app_assoc.
      exact (within_app (within_app W1 W2) W3).
    + inv H. exists (n2 ++ n1). rewrite L2, L1, app_assoc.
      split; [reflexivity|].
      pose proof (within_app W1 W2) as W. unfold within in *. simpl in W.
      repeat split; lia.
  - inv H. exists n1. split; [exact L1|]. unfold within in *.
    repeat split; lia.
Qed.

(** X3.  One call of [execute_query] is one round trip at most: it
    acquires at most one connection, sends at most one statement, which
    is the one it was given with the bind values of [binds_for], commits
    at most once, releases at most once, closes at most one pool and
    asks the driver for a pool at most twice.  A failed statement is not
    sent again. *)
Theorem execute_query_one_round
    query params fetch_one commit is_ddl st r st' :
  execute_query cfg drv query params fetch_one commit is_ddl st = (r, st') ->
  exists new, log st' = new ++ log st /\
    within 1 1 1 1 1 2 new /\
    (forall qb, In qb (executed new) -> qb = (query, binds_for query params)).
Proof.
  intros H.
  destruct (@execute_query_log cfg drv query params fetch_one commit is_ddl
              st r st' H) as (m & Lm & Xm & _).
  unfold execute_query in H.
  destruct (execute_query_try cfg drv query params fetch_one commit is_ddl st)
    as [[rt loc] st1] eqn:T.
  apply execute_query_try_within in T. destruct T as (n1 & L1 & W1).
  assert (exists new, log st' = new ++ log st /\ within 1 1 1 1 1 2 new)
    as (new & L & W).
  { destruct rt as [v|e].
    - apply execute_query_finally_within in H. destruct H as (n3 & L3 & W3).
      exists (n3 ++ n1). rewrite L3, L1, app_assoc. split; [reflexivity|].
      pose proof (within_app W1 W3) as W. unfold within in *. simpl in W.
      repeat split; lia.
    - destruct (execute_query_except cfg drv e st1) as [r2 st2] eqn:E.
      apply execute_query_except_within in E. destruct E as (n2 & L2 & W2).
      apply execute_query_finally_within in H. destruct H as (n3 & L3 & W3).
      exists (n3 ++ n2 ++ n1). rewrite L3, L2, L1, !app_assoc.
      split; [reflexivity|]. rewrite <- app_assoc.
      exact (within_app (within_app W1 W2) W3). }
  exists new. split; [exact L|]. split; [exact W|].
  assert (new = m) by (rewrite Lm in L; eapply app_inv_tail; symmetry; exact L).
  subst m. intros qb I. destruct Xm as [X|X]; rewrite X in I.
  - contradiction.
  - destruct I as [I|[]]. symmetry. exact I.
Qed.

End OneRound.

(** ** What is committed *)

Section Commits.

Variable cfg : Config.
Variable drv : Driver.





End Commits.

(** ** The RETURNING branch *)

Lemma dict_get_set_eq d k v : dict_get (dict_set d k v) k = Some v.
Proof.
  induction d as [|[k' v'] d IH]; simpl.
  - rewrite String.eqb_refl. reflexivity.
  - destruct (String.eqb k' k) eqn:E; simpl; rewrite E; auto.
Qed.

Lemma dict_get_set_neq d k v k' :
  k <> k' -> dict_get (dict_set d k v) k' = dict_get d k'.
Proof.
  intros N. induction d as [|[k0 v0] d IH]; simpl.
  - destruct (String.eqb_spec k k'); [contradiction|reflexivity].
  - destruct (String.eqb_spec k0 k) as [E|E]; simpl.
    + subst k0. destruct (String.eqb_spec k k'); [contradiction|reflexivity].
    + destruct (String.eqb k0 k'); auto.
Qed.

Lemma keys_dict_set_in d k v : In k (keys d) -> keys (dict_set d k v) = keys d.
Proof.
  induction d as [|[k' v'] d IH]; simpl; intros I.
  - contradiction.
  - destruct (String.eqb_spec k' k) as [E|E]; simpl.
    + reflexivity.
    + f_equal. apply IH. destruct I as [I|I]; [contradiction|exact I].
Qed.

Lemma dict_update_vars outs : forall d,
  incl outs (keys d) ->
  keys (dict_update d (map (fun k => (k, VVar)) outs)) = keys d /\
  forall k,
    dict_get (dict_update d (map (fun k => (k, VVar)) outs)) k
    = if in_dec string_dec k outs then Some VVar else dict_get d k.
Proof.
  induction outs as [|o outs IH]; intros d I.
  - split; [reflexivity|]. intros k. reflexivity.
  - assert (Io : In o (keys d)) by (apply I; left; reflexivity).
    assert (I' : incl outs (keys (dict_set d o VVar))).
    { rewrite (@keys_dict_set_in _ _ _ Io). intros x Hx. apply I. right.
      exact Hx. }
    destruct (IH _ I') as (K & G).
    change (dict_update d (map (fun k => (k, VVar)) (o :: outs)))
      with (dict_update (dict_set d o VVar) (map (fun k => (k, VVar)) outs)).
    split.
    + rewrite K. apply keys_dict_set_in. exact Io.
    + intros k. rewrite G.
      destruct (in_dec string_dec k outs) as [Hin|Hnin];
        destruct (in_dec string_dec k (o :: outs)) as [Hin'|Hnin'];
        try reflexivity.
      * exfalso. apply Hnin'. right. exact Hin.
      * destruct Hin' as [E|E]; [|contradiction]. subst o.
        apply dict_get_set_eq.
      * apply dict_get_set_neq. intros E. apply Hnin'. left. exact E.
Qed.

Lemma mapM_getvalue0_all rs l st :
  (forall k, In k l -> outvar rs k <> []) ->
  mapM (getvalue0 rs) l st
  = (Ok (map (fun k => (k, hd VNone (outvar rs k))) l), st).
Proof.
  induction l as [|k l IH]; intros H.
  - reflexivity.
  - simpl. unfold bind. unfold getvalue0 at 1.
    destruct (outvar rs k) as [|v vs] eqn:E.
    + exfalso. apply (H k); [left; reflexivity|exact E].
    + unfold ret at 1. rewrite IH by (intros k' I; apply H; right; exact I).
      reflexivity.
Qed.

Lemma mapM_getvalue0_empty rs l st :
  (exists k, In k l /\ outvar rs k = []) ->
  mapM (getvalue0 rs) l st
  = (Raise (IndexError "list index out of range"), st).
Proof.
  induction l as [|k l IH]; intros (k0 & I & E).
  - contradiction.
  - simpl. unfold bind. unfold getvalue0 at 1.
    destruct (outvar rs k) as [|v vs] eqn:Ek; [reflexivity|].
    unfold ret at 1. rewrite IH; [reflexivity|].
    exists k0. split; [|exact E].
    destruct I as [I|I]; [subst k0; congruence|exact I].
Qed.

Lemma dict_get_tabulate (f : string -> Value) l k :
  In k l -> dict_get (map (fun k => (k, f k)) l) k = Some (f k).
Proof.
  induction l as [|k' l IH]; simpl; intros I.
  - contradiction.
  - destruct (String.eqb_spec k' k) as [E|E].
    + subst k'. reflexivity.
    + apply IH. destruct I as [I|I]; [contradiction|exact I].
Qed.

Section Returning.

Variable cfg : Config.
Variable drv : Driver.

(** X5.  In the RETURNING branch the statement goes to the database with
    the keys of [params] in their order; a parameter whose name starts
    with ["out_"] is bound to an output variable, whatever value the
    caller gave it, and every other parameter to its own value. *)
Theorem execute_query_output_binds
    query ps fetch_one commit is_ddl st r st' :
  returning_mode query (Some ps) = true ->
  execute_query cfg drv query (Some ps) fetch_one commit is_ddl st = (r, st') ->
  exists new, log st' = new ++ log st /\
    forall q b, In (q, b) (executed new) ->
      q = query /\ keys b = keys ps /\
      forall k,
        dict_get b k
        = if Py.startswith "out_" k && existsb (String.eqb k) (keys ps)
          then Some VVar else dict_get ps k.
Proof.
  intros R H. apply execute_query_log in H.
  destruct H as (new & L & X & _). exists new. split; [exact L|].
  intros q b I.
  assert (E : (q, b) = (query, binds_for query (Some ps))).
  { destruct X as [X|X]; rewrite X in I; [contradiction|].
    destruct I as [I|[]]. symmetry. exact I. }
  inv E. split; [reflexivity|].
  unfold binds_for. fold (returning_mode query (Some ps)). rewrite R.
  unfold params_or_empty.
  destruct (@dict_update_vars (filter (Py.startswith "out_") (keys ps)) ps)
    as (K & G).
  { intros x Hx. apply filter_In in Hx. tauto. }
  split; [exact K|]. intros k. rewrite G.
  destruct (in_dec string_dec k (filter (Py.startswith "out_") (keys ps)))
    as [Hin|Hnin].
  - apply filter_In in Hin. destruct Hin as (Hk & Ho). rewrite Ho. simpl.
    replace (existsb (String.eqb k) (keys ps)) with true; [reflexivity|].
    symmetry. apply existsb_exists. exists k. split; [exact Hk|].
    apply String.eqb_refl.
  - destruct (Py.startswith "out_" k) eqn:Ho; [|reflexivity]. simpl.
    destruct (existsb (String.eqb k) (keys ps)) eqn:Ex; [|reflexivity].
    exfalso. apply Hnin. apply filter_In. split; [|exact Ho].
    apply existsb_exists in Ex. destruct Ex as (x & Hx & Ex).
    apply String.eqb_eq in Ex. subst x. exact Hx.
Qed.

Hypothesis drv_healthy : healthy drv.
Hypothesis commit_ok : forall t, conn_commit drv t = None.

Ltac start_returning P R :=
  unfold execute_query, execute_query_try, get_db_connection, call_cursor;
  unfold_m; simpl; repeat (rewrite P; simpl);
  rewrite (proj1 drv_healthy); simpl;
  rewrite (proj2 drv_healthy); simpl;
  unfold execute_query_body, call_execute; unfold_m;
  unfold returning_mode in R; rewrite R; simpl.

(** X6.  The values a RETURNING statement generates.  When every output
    variable comes back with a value, the call returns a dict with one
    entry for each ["out_"] parameter, in their order, holding the first
    value of its variable; when one comes back empty (no row was
    touched), the call raises the 500 of an internal error. *)
Theorem execute_query_generated_keys
    query ps fetch_one commit is_ddl st p rs :
  pool st = Some p ->
  returning_mode query (Some ps) = true ->
  NoDup (keys ps) ->
  (forall t, cursor_execute drv t query (binds_for query (Some ps)) = inr rs) ->
  ((forall k, In k (filter (Py.startswith "out_") (keys ps)) ->
              outvar rs k <> []) ->
   exists d st',
     execute_query cfg drv query (Some ps) fetch_one commit is_ddl st
     = (Ok (RDict d), st') /\
     keys d = filter (Py.startswith "out_") (keys ps) /\
     forall k, In k (keys d) -> dict_get d k = Some (hd VNone (outvar rs k))) /\
  ((exists k, In k (filter (Py.startswith "out_") (keys ps)) /\
              outvar rs k = []) ->
   exists st',
     execute_query cfg drv query (Some ps) fetch_one commit is_ddl st
     = (Raise (HTTPException 500
                 "Erro interno do servidor: list index out of range"), st')).
Proof.
  intros P R N X.
  assert (X' : cursor_execute drv (S (S (clock st))) query
                 (dict_update ps
                    (map (fun k => (k, VVar))
                       (filter (Py.startswith "out_") (keys ps))))
               = inr rs).
  { rewrite <- (X (S (S (clock st)))). unfold binds_for.
    fold (returning_mode query (Some ps)). rewrite R. reflexivity. }
  split.
  - intros A.
    exists (map (fun k => (k, hd VNone (outvar rs k)))
              (filter (Py.startswith "out_") (keys ps))).
    start_returning P R. rewrite X'. simpl.
    rewrite (@mapM_getvalue0_all _ _ _ A).
    assert (D : dict_of_pairs
                  (map (fun k => (k, hd VNone (outvar rs k)))
                     (filter (Py.startswith "out_") (keys ps)))
                = map (fun k => (k, hd VNone (outvar rs k)))
                    (filter (Py.startswith "out_") (keys ps))).
    { unfold dict_of_pairs. rewrite dict_update_fresh; [reflexivity|].
      simpl. rewrite map_map. simpl. rewrite map_id.
      apply NoDup_filter. exact N. }
    assert (K : keys (map (fun k => (k, hd VNone (outvar rs k)))
                        (filter (Py.startswith "out_") (keys ps)))
                = filter (Py.startswith "out_") (keys ps)).
    { unfold keys at 1. rewrite map_map. simpl. apply map_id. }
    destruct commit; simpl; unfold call_commit; unfold_m; simpl;
      rewrite ?commit_ok; simpl; unfold execute_query_finally; unfold_m;
      simpl; rewrite D; eexists; (split; [reflexivity|]);
      (split; [exact K|]); intros k I; rewrite K in I;
      apply (@dict_get_tabulate (fun k => hd VNone (outvar rs k)) _ _ I).
  - intros E. start_returning P R. rewrite X'. simpl.
    rewrite (@mapM_getvalue0_empty _ _ _ E).
    unfold execute_query_except, execute_query_finally. unfold_m. simpl.
    eexists. reflexivity.
Qed.

End Returning.

(** ** The life of the pool *)

Section PoolLife.

Variable cfg : Config.
Variable drv : Driver.

(** X7.  [init_oracle_pool] never closes a pool and asks the driver for
    one at most once.  An [oracledb.Error] does not leave it; an
    exception that does leaves the global as it was.  When it returns
    with complete credentials, the global is what that one call to
    [SessionPool] gave: the new pool, or [None] after a failure, whatever
    pool the global named before. *)
Theorem init_oracle_pool_outcome st r st' :
  init_oracle_pool cfg drv st = (r, st') ->
  exists new, log st' = new ++ log st /\
    closed new = [] /\
    length (pool_attempts new) <= 1 /\
    (forall e, r = Raise e -> is_oracledb_Error e = false /\ pool st' = pool st) /\
    (r = Ok tt ->
     if credentials_present cfg then pool_attempts new = [pool st']
     else pool_attempts new = [] /\ pool st' = pool st).
Proof.
  unfold init_oracle_pool. intros H.
  destruct (credentials_present cfg); simpl in H;
    run; give_new; simpl; repeat split; auto; try discriminate;
    try (intros ? E; inv E; auto; fail); try (intros E; inv E);
    try congruence.
Qed.

(** X8.  [get_db_connection] lets no [oracledb.Error] out: what it
    raises is its own 503, or an exception of another kind that the
    driver raised.  When the global names a pool, no new pool is asked
    for, the global is kept, also when the acquisition fails, and a
    connection returned is one of that pool.  When it names none, a
    connection returned is one of a pool made in this call, which the
    global names from then on. *)
Theorem get_db_connection_outcome st r st' :
  get_db_connection cfg drv st = (r, st') ->
  exists new, log st' = new ++ log st /\
    (forall e, r = Raise e ->
       is_oracledb_Error e = false /\
       ((exists d, e = HTTPException 503 d) \/
        (exists t, SessionPool drv t = Some e \/ pool_acquire drv t = Some e))) /\
    (forall p, pool st = Some p ->
       pool st' = Some p /\ pool_attempts new = [] /\
       forall c, r = Ok c -> conn_pool c = p) /\
    (pool st = None ->
       forall c, r = Ok c ->
         pool st' = Some (conn_pool c) /\
         pool_attempts new = [Some (conn_pool c)]).
Proof.
  unfold get_db_connection, init_oracle_pool. intros H.
  run; give_new; simpl; repeat split; intros;
    repeat match goal with
           | E : Raise _ = Raise _ |- _ => inv E
           | E : Ok _ = Ok _ |- _ => inv E
           | E : Some _ = Some _ |- _ => inv E
           end;
    simpl in *; try congruence; auto;
    try (left; eexists; reflexivity);
    try (right; eexists; eauto; fail).
Qed.

Lemma shutdown_event_log st r st' :
  shutdown_event drv st = (r, st') ->
  pool st' = pool st /\
  exists new, log st' = new ++ log st /\
    closed new = match pool st with Some p => [p] | None => [] end /\
    pool_attempts new = [] /\ acquired new = [] /\ executed new = [].
Proof.
  unfold shutdown_event. intros H.
  run; (split; [auto|]); give_new; simpl; repeat split;
    match goal with
    | E : pool _ = _ |- _ => rewrite E; reflexivity
    end.
Qed.

(** X9.  [shutdown_event] closes the pool the global names, if any, and
    leaves the global as it is.  An acquisition after a shutdown
    therefore asks for no new pool: it goes to the pool just closed. *)
Theorem shutdown_event_keeps_global st r st' :
  shutdown_event drv st = (r, st') ->
  pool st' = pool st /\
  (exists new, log st' = new ++ log st /\
     closed new = match pool st with Some p => [p] | None => [] end /\
     pool_attempts new = [] /\ acquired new = [] /\ executed new = []) /\
  (forall p r2 st2,
      pool st = Some p ->
      get_db_connection cfg drv st' = (r2, st2) ->
      pool st2 = Some p /\
      exists new2, log st2 = new2 ++ log st' /\ pool_attempts new2 = [] /\
        forall c, r2 = Ok c -> conn_pool c = p).
Proof.
  intros H. apply shutdown_event_log in H. destruct H as (P & L).
  split; [exact P|]. split; [exact L|].
  intros p r2 st2 Pp G. rewrite <- P in Pp.
  unfold get_db_connection in G. unfold_m. rewrite Pp in G. simpl in G.
  rewrite Pp in G. simpl in G.
  run; (split; [auto|]); give_new; simpl; repeat split; auto;
    try discriminate; intros ? E; inv E; reflexivity.
Qed.

End PoolLife.

(** ** The delete routes *)

Section DeleteShape.

Variable cfg : Config.
Variable drv : Driver.
Variables query_get query_delete key not_found : string.

Hypothesis get_not_returning :
  Py.contains "RETURNING" (Py.upper query_get) = false.
Hypothesis get_is_select : Py.startswith "SELECT" query_get = true.
Hypothesis delete_not_returning :
  Py.contains "RETURNING" (Py.upper query_delete) = false.

Local Abbreviation get_ := (get_route cfg drv query_get key not_found).
Local Abbreviation delete_ :=
  (fun id =>
     bind (get_ id) (fun _ =>
     bind (execute_query cfg drv query_delete (Some [(key, id)])
             false true false) (fun _ => ret RNone))).




End DeleteShape.



(** ** The create routes *)

Lemma create_queries_returning :
  Py.contains "RETURNING" (Py.upper query_cadastrar_pessoa) = true /\
  Py.contains "RETURNING" (Py.upper query_cadastrar_abrigo) = true /\
  Py.contains "RETURNING" (Py.upper query_cadastrar_doacao) = true.
Proof. vm_compute. repeat split. Qed.

Lemma try_except_reraise {A} (m : M A) st :
  try_except m (fun e => raise e) st = m st.
Proof.
  unfold try_except, raise. destruct (m st) as [[a|e] s]; reflexivity.
Qed.

Section Create.

Variable cfg : Config.
Variable drv : Driver.
Hypothesis drv_healthy : healthy drv.

(** An INSERT with one output variable, committed. *)
Lemma execute_query_insert query fields out_key st p rs n rest :
  pool st = Some p ->
  Py.contains "RETURNING" (Py.upper query) = true ->
  (forall t, conn_commit drv t = None) ->
  ~ In out_key (keys fields) ->
  Py.startswith "out_" out_key = true ->
  Forall (fun k => Py.startswith "out_" k = false) (keys fields) ->
  cursor_execute drv (S (S (clock st))) query (fields ++ [(out_key, VVar)])
    = inr rs ->
  outvar rs out_key = n :: rest ->
  execute_query cfg drv query (Some (dict_set fields out_key VNone))
    false true false st
  = (Ok (RDict [(out_key, n)]),
     after_write p query (fields ++ [(out_key, VVar)]) st).
Proof.
  intros P R C NI O NO X V.
  rewrite (@dict_set_fresh _ _ _ NI).
  assert (F : filter (Py.startswith "out_") (keys (fields ++ [(out_key, VNone)]))
              = [out_key]).
  { unfold keys. rewrite map_app, filter_app. simpl. rewrite O.
    replace (filter (Py.startswith "out_") (map fst fields)) with (@nil string);
      [reflexivity|].
    symmetry. unfold keys in NO. clear - NO.
    induction NO as [|k l H _ IH]; simpl; [reflexivity|].
    rewrite H. exact IH. }
  assert (B : dict_update (fields ++ [(out_key, VNone)]) [(out_key, VVar)]
              = fields ++ [(out_key, VVar)]).
  { unfold dict_update. simpl. clear - NI.
    induction fields as [|[k v] d IH]; simpl.
    - rewrite String.eqb_refl. reflexivity.
    - destruct (String.eqb_spec k out_key) as [E|E].
      + exfalso. apply NI. left. exact E.
      + f_equal. apply IH. intros I. apply NI. right. exact I. }
  unfold execute_query, execute_query_try, get_db_connection, call_cursor.
  unfold_m. simpl. repeat (rewrite P; simpl).
  rewrite (proj1 drv_healthy). simpl. rewrite (proj2 drv_healthy). simpl.
  unfold execute_query_body, call_execute. unfold_m. rewrite R.
  match goal with
  | |- context [params_truthy ?x] =>
      replace (params_truthy x) with true by (destruct fields; reflexivity)
  end.
  simpl. unfold params_or_empty.
  rewrite F. cbn [map].
  rewrite !B, X. simpl.
  unfold getvalue0, bind, ret. rewrite V. simpl.
  unfold call_commit. unfold_m. simpl. rewrite C. simpl.
  unfold execute_query_finally. unfold_m. simpl.
  reflexivity.
Qed.

(** X11.  A create route answers with a read of what it has just made.
    When the INSERT comes back with the generated identity [n] in its
    output variable, the INSERT has gone out with every field of the
    payload bound by name and the output variable in the place of the
    placeholder, it has been committed, and the result of the route is
    that of the get route called with [n]: for shelters and donations
    whatever that is, for persons whenever the get returns. *)
Theorem create_routes_read_back st p n :
  pool st = Some p ->
  (forall t, conn_commit drv t = None) ->
  (forall abrigo rs rest,
      (forall t b, cursor_execute drv t query_cadastrar_abrigo b = inr rs) ->
      outvar rs "out_id_abrigo" = n :: rest ->
      cadastrar_abrigo cfg drv abrigo st
      = obter_abrigo cfg drv n
          (after_write p query_cadastrar_abrigo
             (AbrigoCreate.to_dict abrigo ++ [("out_id_abrigo", VVar)]) st)) /\
  (forall doacao rs rest,
      (forall t b, cursor_execute drv t query_cadastrar_doacao b = inr rs) ->
      outvar rs "out_id_doacao" = n :: rest ->
      cadastrar_doacao cfg drv doacao st
      = obter_doacao cfg drv n
          (after_write p query_cadastrar_doacao
             (DoacaoCreate.to_dict doacao ++ [("out_id_doacao", VVar)]) st)) /\
  (forall pessoa rs rest r st2,
      (forall t b, cursor_execute drv t query_cadastrar_pessoa b = inr rs) ->
      outvar rs "out_id_pessoa" = n :: rest ->
      obter_pessoa cfg drv n
        (after_write p query_cadastrar_pessoa
           (PessoaCreate.to_dict pessoa ++ [("out_id_pessoa", VVar)]) st)
      = (Ok r, st2) ->
      cadastrar_pessoa cfg drv pessoa st = (Ok r, st2)).
Proof.
  intros P C. destruct create_queries_returning as (Rp & Ra & Rd).
  split; [|split].
  - intros abrigo rs rest X V. unfold cadastrar_abrigo.
    rewrite try_except_reraise. unfold bind at 1.
    rewrite (@execute_query_insert query_cadastrar_abrigo
               (AbrigoCreate.to_dict abrigo) "out_id_abrigo" st p rs n rest
               P Ra C); auto.
    + simpl. intuition discriminate.
    + repeat constructor.
  - intros doacao rs rest X V. unfold cadastrar_doacao.
    rewrite try_except_reraise. unfold bind at 1.
    rewrite (@execute_query_insert query_cadastrar_doacao
               (DoacaoCreate.to_dict doacao) "out_id_doacao" st p rs n rest
               P Rd C); auto.
    + simpl. intuition discriminate.
    + repeat constructor.
  - intros pessoa rs rest r st2 X V G. unfold cadastrar_pessoa, try_except.
    unfold bind at 1.
    rewrite (@execute_query_insert query_cadastrar_pessoa
               (PessoaCreate.to_dict pessoa) "out_id_pessoa" st p rs n rest
               P Rp C); auto.
    + unfold bind, lift. simpl subscript. cbv beta iota. rewrite G.
      reflexivity.
    + simpl. intuition discriminate.
    + repeat constructor.
Qed.

(** X12.  Only persons have a conflict outcome.  When Oracle rejects
    the INSERT of a shelter or of a donation with ORA-00001, the route
    raises the 500 of a database error with Oracle's message. *)
Theorem create_conflict_is_500_elsewhere st p message :
  pool st = Some p ->
  (forall abrigo,
      (forall t b, cursor_execute drv t query_cadastrar_abrigo b
                   = inl (DatabaseError 1 message)) ->
      exists st',
        cadastrar_abrigo cfg drv abrigo st
        = (Raise (HTTPException 500
                    ("Erro no banco de dados Oracle: " ++ message)%string),
           st')) /\
  (forall doacao,
      (forall t b, cursor_execute drv t query_cadastrar_doacao b
                   = inl (DatabaseError 1 message)) ->
      exists st',
        cadastrar_doacao cfg drv doacao st
        = (Raise (HTTPException 500
                    ("Erro no banco de dados Oracle: " ++ message)%string),
           st')).
Proof.
  intros P. split.
  - intros abrigo X.
    destruct (@execute_query_database_error cfg drv drv_healthy
                query_cadastrar_abrigo
                (Some (dict_set (AbrigoCreate.to_dict abrigo) "out_id_abrigo"
                         VNone))
                false true false st p 1%Z message P (X _ _) eq_refl)
      as (st' & E & _).
    exists st'. unfold cadastrar_abrigo. rewrite try_except_reraise.
    unfold bind at 1. rewrite E. reflexivity.
  - intros doacao X.
    destruct (@execute_query_database_error cfg drv drv_healthy
                query_cadastrar_doacao
                (Some (dict_set (DoacaoCreate.to_dict doacao) "out_id_doacao"
                         VNone))
                false true false st p 1%Z message P (X _ _) eq_refl)
      as (st' & E & _).
    exists st'. unfold cadastrar_doacao. rewrite try_except_reraise.
    unfold bind at 1. rewrite E. reflexivity.
Qed.

End Create.

(** ** What an update cannot assign *)

(** X13.  No payload makes an update assign the identity or the creation
    timestamp of a record, nor the CPF of a person: none of these columns
    is a key of the dict an update model gives, and every key of that
    dict is a field of the model. *)
Theorem updates_keep_fixed_columns :
  (forall u k,
      In k (keys (PessoaUpdate.dict_exclude_unset u)) ->
      In k PessoaUpdate.fields /\ ~ In k fixed_columns_pessoa) /\
  (forall u k,
      In k (keys (AbrigoUpdate.dict_exclude_unset u)) ->
      In k AbrigoUpdate.fields /\ ~ In k fixed_columns_abrigo) /\
  (forall u k,
      In k (keys (DoacaoUpdate.dict_exclude_unset u)) ->
      In k DoacaoUpdate.fields /\ ~ In k fixed_columns_doacao).
Proof.
  split; [|split]; intros u k I.
  - apply PessoaUpdate_keys_incl in I. split; [exact I|].
    intros F. simpl in I, F.
    repeat (destruct I as [I|I]; [subst k; intuition discriminate|]).
    contradiction.
  - apply AbrigoUpdate_keys_incl in I. split; [exact I|].
    intros F. simpl in I, F.
    repeat (destruct I as [I|I]; [subst k; intuition discriminate|]).
    contradiction.
  - apply DoacaoUpdate_keys_incl in I. split; [exact I|].
    intros F. simpl in I, F.
    repeat (destruct I as [I|I]; [subst k; intuition discriminate|]).
    contradiction.
Qed.

(** ** The get routes *)

Lemma dict_set_not_nil d k v : dict_set d k v <> [].
Proof.
  destruct d as [|[k' v'] d]; simpl; [discriminate|].
  destruct (String.eqb k' k); discriminate.
Qed.

Lemma dict_update_not_nil l : forall d, d <> [] -> dict_update d l <> [].
Proof.
  induction l as [|[k v] l IH]; intros d N.
  - exact N.
  - unfold dict_update in *. simpl. apply IH. apply dict_set_not_nil.
Qed.

Lemma dict_zip_not_nil c cs v row : dict_zip (c :: cs) (v :: row) <> [].
Proof.
  unfold dict_zip, dict_of_pairs, dict_update. simpl.
  apply (dict_update_not_nil (combine cs row)). discriminate.
Qed.

Section GetRoutes.

Variable cfg : Config.
Variable drv : Driver.
Hypothesis drv_healthy : healthy drv.

Lemma get_route_rows query_get key not_found id st p rs columns :
  Py.contains "RETURNING" (Py.upper query_get) = false ->
  pool st = Some p ->
  (forall t, cursor_execute drv t query_get [(key, id)] = inr rs) ->
  description rs = Some columns ->
  (rows rs = [] ->
   get_route cfg drv query_get key not_found id st
   = (Raise (HTTPException 404 not_found),
      after_read p query_get [(key, id)] st)) /\
  (forall v row rest c cs,
      rows rs = (v :: row) :: rest -> columns = c :: cs ->
      get_route cfg drv query_get key not_found id st
      = (Ok (RDict (dict_zip (map Py.lower columns) (v :: row))),
         after_read p query_get [(key, id)] st)).
Proof.
  intros NR P X D.
  assert (E : execute_query cfg drv query_get (Some [(key, id)]) true false
                false st
              = (Ok (single_row columns rs),
                 after_read p query_get [(key, id)] st)).
  { apply (@execute_query_fetch_one cfg drv drv_healthy query_get
             (Some [(key, id)]) st p rs columns P); auto.
    rewrite NR. reflexivity. }
  split.
  - intros R. unfold get_route, bind. rewrite E. unfold single_row.
    rewrite R. reflexivity.
  - intros v row rest c cs R Cs. unfold get_route, bind. rewrite E.
    unfold single_row. rewrite R. subst columns.
    assert (F : falsy (RDict (dict_zip (map Py.lower (c :: cs)) (v :: row)))
                = false).
    { simpl map.
      destruct (dict_zip (Py.lower c :: map Py.lower cs) (v :: row)) eqn:Z;
        [|reflexivity].
      exfalso. exact (dict_zip_not_nil _ _ _ _ Z). }
    rewrite F. reflexivity.
Qed.

(** X14.  Each get route sends one SELECT with the identity as its bind
    value and commits nothing.  When the database answers with no row
    the route raises the 404 of its entity; when it answers with rows
    the route returns the first one as a record keyed by the lower-cased
    column names. *)
Theorem get_routes_rows id st p rs columns :
  pool st = Some p ->
  description rs = Some columns ->
  ((forall t, cursor_execute drv t query_obter_pessoa [("id_pessoa", id)]
              = inr rs) ->
   (rows rs = [] ->
    obter_pessoa cfg drv id st
    = (Raise (HTTPException 404 "Pessoa não encontrada"),
       after_read p query_obter_pessoa [("id_pessoa", id)] st)) /\
   (forall v row rest c cs,
       rows rs = (v :: row) :: rest -> columns = c :: cs ->
       obter_pessoa cfg drv id st
       = (Ok (RDict (dict_zip (map Py.lower columns) (v :: row))),
          after_read p query_obter_pessoa [("id_pessoa", id)] st))) /\
  ((forall t, cursor_execute drv t query_obter_abrigo [("id_abrigo", id)]
              = inr rs) ->
   (rows rs = [] ->
    obter_abrigo cfg drv id st
    = (Raise (HTTPException 404 "Abrigo não encontrado"),
       after_read p query_obter_abrigo [("id_abrigo", id)] st)) /\
   (forall v row rest c cs,
       rows rs = (v :: row) :: rest -> columns = c :: cs ->
       obter_abrigo cfg drv id st
       = (Ok (RDict (dict_zip (map Py.lower columns) (v :: row))),
          after_read p query_obter_abrigo [("id_abrigo", id)] st))) /\
  ((forall t, cursor_execute drv t query_obter_doacao [("id_doacao", id)]
              = inr rs) ->
   (rows rs = [] ->
    obter_doacao cfg drv id st
    = (Raise (HTTPException 404 "Doação não encontrada"),
       after_read p query_obter_doacao [("id_doacao", id)] st)) /\
   (forall v row rest c cs,
       rows rs = (v :: row) :: rest -> columns = c :: cs ->
       obter_doacao cfg drv id st
       = (Ok (RDict (dict_zip (map Py.lower columns) (v :: row))),
          after_read p query_obter_doacao [("id_doacao", id)] st))).
Proof.
  intros P D. destruct get_queries_not_returning as (Np & Na & Nd).
  split; [|split]; intros X.
  - exact (@get_route_rows query_obter_pessoa "id_pessoa"
             "Pessoa não encontrada" id st p rs columns Np P X D).
  - exact (@get_route_rows query_obter_abrigo "id_abrigo"
             "Abrigo não encontrado" id st p rs columns Na P X D).
  - exact (@get_route_rows query_obter_doacao "id_doacao"
             "Doação não encontrada" id st p rs columns Nd P X D).
Qed.

End GetRoutes.

(** ** A call that returns *)

Lemma closed_app a b : closed (a ++ b) = closed a ++ closed b.
Proof. unfold closed. apply flat_map_app. Qed.

(** X15.  A call of [execute_query] that returns leaks nothing: it has
    acquired one connection and released it, once, to the pool it came
    from, which is the pool the global named before the call if it
    named one; it has closed no pool, and the global names that pool
    afterwards. *)
Theorem execute_query_returns_released
    cfg drv query params fetch_one commit is_ddl st v st' :
  execute_query cfg drv query params fetch_one commit is_ddl st = (Ok v, st') ->
  exists new c, log st' = new ++ log st /\
    acquired new = [c] /\
    released new = [(conn_pool c, c)] /\
    closed new = [] /\
    pool st' = Some (conn_pool c) /\
    (forall p, pool st = Some p -> conn_pool c = p).
Proof.
  unfold execute_query. intros H.
  destruct (execute_query_try cfg drv query params fetch_one commit is_ddl st)
    as [[rt loc] st1] eqn:T.
  pose proof T as T'. apply execute_query_try_within in T'.
  destruct T' as (m1 & M1 & W1).
  apply execute_query_try_log in T.
  destruct T as (n1 & L1 & _ & _ & _ & R1 & _ & _ & _ & A1).
  assert (m1 = n1) by (rewrite L1 in M1; eapply app_inv_tail; symmetry; exact M1).
  subst m1.
  assert (K1 : closed n1 = [])
    by (destruct W1 as (_ & _ & _ & _ & K & _);
        destruct (closed n1); [reflexivity|simpl in K; lia]).
  destruct rt as [v0|e].
  - pose proof H as H'. apply execute_query_finally_within in H'.
    destruct H' as (m3 & M3 & W3).
    apply execute_query_finally_log in H.
    destruct H as (n3 & L3 & _ & _ & A3 & _ & P3 & _ & R3).
    assert (m3 = n3)
      by (rewrite L3 in M3; eapply app_inv_tail; symmetry; exact M3).
    subst m3.
    assert (K3 : closed n3 = [])
      by (destruct W3 as (_ & _ & _ & _ & K & _);
          destruct (closed n3); [reflexivity|simpl in K; lia]).
    destruct (conn loc) as [c|].
    + destruct A1 as (A1 & P1 & Q1).
      exists (n3 ++ n1), c. rewrite L3, L1, app_assoc.
      split; [reflexivity|].
      rewrite acquired_app, released_app, closed_app, A3, A1, R1, R3, K3, K1,
        P3, P1.
      repeat split; auto.
    + destruct A1 as (_ & N & _). exfalso. exact (N v0 eq_refl).
  - destruct (execute_query_except cfg drv e st1) as [r2 st2] eqn:E.
    apply execute_query_except_log in E.
    destruct E as (_ & _ & _ & _ & _ & _ & _ & _ & (e' & ->) & _).
    apply execute_query_finally_log in H.
    destruct H as (_ & _ & _ & _ & _ & _ & _ & O & _).
    specialize (O v eq_refl). discriminate.
Qed.

(** ** The routes that only read *)

Lemma reads_only_nil : reads_only [].
Proof. split; [reflexivity|constructor]. Qed.

Lemma reads_only_app a b : reads_only a -> reads_only b -> reads_only (a ++ b).
Proof.
  intros (Ca & Xa) (Cb & Xb). split.
  - rewrite commits_app, Ca, Cb. reflexivity.
  - rewrite executed_app. apply Forall_app. split; assumption.
Qed.

Lemma read_only_ret {A} (a : A) : read_only (ret a).
Proof.
  intros st r st' H. unfold ret in H. inv H. exists []. split; [reflexivity|].
  exact reads_only_nil.
Qed.

Lemma read_only_raise {A} e : read_only (@raise A e).
Proof.
  intros st r st' H. unfold raise in H. inv H. exists [].
  split; [reflexivity|]. exact reads_only_nil.
Qed.

Lemma read_only_lift {A} (x : Result A) : read_only (lift x).
Proof.
  intros st r st' H. unfold lift in H. inv H. exists [].
  split; [reflexivity|]. exact reads_only_nil.
Qed.

Lemma read_only_print s : read_only (print s).
Proof.
  intros st r st' H. unfold print in H. unfold_m. inv H.
  eexists [_]. split; [reflexivity|]. split; [reflexivity|constructor].
Qed.

Lemma read_only_bind {A B} (m : M A) (f : A -> M B) :
  read_only m -> (forall a, read_only (f a)) -> read_only (bind m f).
Proof.
  intros Hm Hf st r st' H. unfold bind in H.
  destruct (m st) as [[a|e] s1] eqn:E.
  - apply Hm in E. destruct E as (n1 & L1 & R1).
    apply Hf in H. destruct H as (n2 & L2 & R2).
    exists (n2 ++ n1). rewrite L2, L1, app_assoc. split; [reflexivity|].
    apply reads_only_app; assumption.
  - inv H. eapply Hm. exact E.
Qed.

Lemma read_only_try_except {A} (m : M A) (h : Exn -> M A) :
  read_only m -> (forall e, read_only (h e)) -> read_only (try_except m h).
Proof.
  intros Hm Hh st r st' H. unfold try_except in H.
  destruct (m st) as [[a|e] s1] eqn:E.
  - inv H. eapply Hm. exact E.
  - apply Hm in E. destruct E as (n1 & L1 & R1).
    apply Hh in H. destruct H as (n2 & L2 & R2).
    exists (n2 ++ n1). rewrite L2, L1, app_assoc. split; [reflexivity|].
    apply reads_only_app; assumption.
Qed.

Section ReadRoutes.

Variable cfg : Config.
Variable drv : Driver.

Lemma read_only_execute_query query params fetch_one :
  Py.startswith "SELECT" query = true ->
  read_only (execute_query cfg drv query params fetch_one false false).
Proof.
  intros S st r st' H. apply execute_query_log in H.
  destruct H as (new & L & X & _ & C & _).
  exists new. split; [exact L|]. split.
  - destruct (commits new); [reflexivity|].
    assert (false || false = true) by (apply C; discriminate). discriminate.
  - destruct X as [X|X]; rewrite X; repeat constructor. exact S.
Qed.

Lemma read_only_get_route query_get key not_found id :
  Py.startswith "SELECT" query_get = true ->
  read_only (get_route cfg drv query_get key not_found id).
Proof.
  intros S. unfold get_route. apply read_only_bind.
  - apply read_only_execute_query. exact S.
  - intros r. destruct (falsy r); [apply read_only_raise|apply read_only_ret].
Qed.

Lemma read_only_read_total query :
  Py.startswith "SELECT" query = true ->
  read_only (read_total cfg drv query).
Proof.
  intros S. unfold read_total. apply read_only_bind.
  - apply read_only_execute_query. exact S.
  - intros r. apply read_only_lift.
Qed.

(** X16.  The seven routes behind GET only read: whatever the driver
    does and however the call ends, the three lists, the three gets and
    the statistics send nothing but SELECTs and commit nothing. *)
Theorem get_endpoints_read_only :
  read_only (listar_pessoas cfg drv) /\
  read_only (listar_abrigos cfg drv) /\
  read_only (listar_doacoes cfg drv) /\
  (forall id,
      read_only (obter_pessoa cfg drv id) /\
      read_only (obter_abrigo cfg drv id) /\
      read_only (obter_doacao cfg drv id)) /\
  read_only (obter_estatisticas cfg drv).
Proof.
  split; [|split; [|split; [|split]]].
  - apply read_only_execute_query. reflexivity.
  - apply read_only_execute_query. reflexivity.
  - apply read_only_execute_query. reflexivity.
  - intros id. split; [|split].
    + exact (@read_only_get_route query_obter_pessoa "id_pessoa"
               "Pessoa não encontrada" id eq_refl).
    + exact (@read_only_get_route query_obter_abrigo "id_abrigo"
               "Abrigo não encontrado" id eq_refl).
    + exact (@read_only_get_route query_obter_doacao "id_doacao"
               "Doação não encontrada" id eq_refl).
  - unfold obter_estatisticas. apply read_only_try_except.
    + unfold obter_estatisticas_try.
      repeat first
        [ apply read_only_ret
        | apply read_only_lift
        | apply read_only_read_total; reflexivity
        | apply read_only_execute_query; reflexivity
        | apply read_only_bind; [|intros ?]
        | match goal with
          | |- read_only (if ?b then _ else _) => destruct b
          | |- read_only (match ?v with VNone => _ | _ => _ end) => destruct v
          end ].
    + intros e. apply read_only_bind; [apply read_only_print|].
      intros _. apply read_only_raise.
Qed.

End ReadRoutes.

(** ** The further properties at the scenarios *)

Lemma raises_no_http_drv_answer answer : raises_no_http (drv_answer answer).
Proof. intros t e H. discriminate. Qed.

Lemma raises_no_http_drv_lost : raises_no_http drv_lost.
Proof. intros t e H. simpl in H. inv H. reflexivity. Qed.

(** No pool and no configuration: the 503 of [get_db_connection] leaves
    [execute_query] as a 500. *)
Lemma execute_query_status_500_witness :
  raises_no_http drv_dropped /\
  exists d st',
    execute_query cfg_missing drv_dropped "SELECT 1 FROM DUAL" None
      true false false initial_state
    = (Raise (HTTPException 500 d), st') /\
    (status_of (HTTPException 500 d) = None \/
     status_of (HTTPException 500 d) = Some 500%Z).
Proof.
  split; [apply raises_no_http_drv_answer|].
  assert (H : exists d st',
             execute_query cfg_missing drv_dropped "SELECT 1 FROM DUAL" None
               true false false initial_state
             = (Raise (HTTPException 500 d), st'))
    by (do 2 eexists; vm_compute; reflexivity).
  destruct H as (d & st' & H). exists d, st'. split; [exact H|].
  exact (@execute_query_status_500 cfg_missing drv_dropped
           (@raises_no_http_drv_answer _) "SELECT 1 FROM DUAL" None
           true false false initial_state _ st' H).
Defined.

(** A shelter that is not there, with the listener gone. *)
Lemma routes_statuses_witness :
  raises_no_http drv_lost /\
  raises_only [404%Z; 500%Z] (obter_abrigo cfg_ok drv_lost (VInt 3)) /\
  raises_only [404%Z; 500%Z] (deletar_abrigo cfg_ok drv_lost (VInt 3)).
Proof.
  split; [exact raises_no_http_drv_lost|].
  destruct (@routes_statuses cfg_ok drv_lost raises_no_http_drv_lost)
    as (_ & G & _).
  destruct (G (VInt 3)) as (_ & Ga & _ & _ & Da & _).
  split; [exact Ga|exact Da].
Defined.

Lemma execute_query_one_round_witness :
  exists r st' new,
    execute_query cfg_ok drv_dropped "SELECT 1 FROM DUAL" None
      true false false st_ready = (r, st') /\
    log st' = new ++ log st_ready /\
    within 1 1 1 1 1 2 new /\
    forall qb, In qb (executed new) -> qb = ("SELECT 1 FROM DUAL", []).
Proof.
  assert (H : exists r st',
             execute_query cfg_ok drv_dropped "SELECT 1 FROM DUAL" None
               true false false st_ready = (r, st'))
    by (do 2 eexists; vm_compute; reflexivity).
  destruct H as (r & st' & H).
  destruct (@execute_query_one_round cfg_ok drv_dropped "SELECT 1 FROM DUAL"
              None true false false st_ready r st' H) as (new & L & W & X).
  exists r, st', new. repeat split; try exact H; try exact L; try apply W.
  exact X.
Defined.


Lemma execute_query_output_binds_witness :
  returning_mode query_cadastrar_abrigo
    (Some (dict_set (AbrigoCreate.to_dict abrigo_central) "out_id_abrigo" VNone))
  = true /\
  exists r st' new,
    execute_query cfg_ok drv_generated query_cadastrar_abrigo
      (Some (dict_set (AbrigoCreate.to_dict abrigo_central) "out_id_abrigo"
               VNone))
      false true false st_ready = (r, st') /\
    log st' = new ++ log st_ready /\
    forall q b, In (q, b) (executed new) ->
      q = query_cadastrar_abrigo /\
      dict_get b "out_id_abrigo" = Some VVar /\
      dict_get b "nome" = Some (VStr "Central").
Proof.
  assert (R : returning_mode query_cadastrar_abrigo
                (Some (dict_set (AbrigoCreate.to_dict abrigo_central)
                         "out_id_abrigo" VNone)) = true)
    by (vm_compute; reflexivity).
  split; [exact R|].
  assert (H : exists r st',
             execute_query cfg_ok drv_generated query_cadastrar_abrigo
               (Some (dict_set (AbrigoCreate.to_dict abrigo_central)
                        "out_id_abrigo" VNone))
               false true false st_ready = (r, st'))
    by (do 2 eexists; vm_compute; reflexivity).
  destruct H as (r & st' & H).
  destruct (@execute_query_output_binds cfg_ok drv_generated
              query_cadastrar_abrigo _ false true false st_ready r st' R H)
    as (new & L & B).
  exists r, st', new. split; [exact H|]. split; [exact L|].
  intros q b I. destruct (B q b I) as (Q & _ & G).
  split; [exact Q|]. split.
  - rewrite (G "out_id_abrigo"). reflexivity.
  - rewrite (G "nome"). reflexivity.
Defined.

Lemma execute_query_generated_keys_witness :
  healthy drv_generated /\
  exists d st',
    execute_query cfg_ok drv_generated query_cadastrar_abrigo
      (Some (dict_set (AbrigoCreate.to_dict abrigo_central) "out_id_abrigo"
               VNone))
      false true false st_ready = (Ok (RDict d), st') /\
    keys d = ["out_id_abrigo"] /\
    dict_get d "out_id_abrigo" = Some (VInt 42).
Proof.
  split; [apply healthy_drv_answer|].
  assert (R : returning_mode query_cadastrar_abrigo
                (Some (dict_set (AbrigoCreate.to_dict abrigo_central)
                         "out_id_abrigo" VNone)) = true)
    by (vm_compute; reflexivity).
  assert (N : NoDup (keys (dict_set (AbrigoCreate.to_dict abrigo_central)
                             "out_id_abrigo" VNone))).
  { vm_compute. repeat constructor; simpl; intuition discriminate. }
  destruct (@execute_query_generated_keys cfg_ok drv_generated
              (@healthy_drv_answer _) (fun _ => eq_refl)
              query_cadastrar_abrigo
              (dict_set (AbrigoCreate.to_dict abrigo_central) "out_id_abrigo"
                 VNone)
              false true false st_ready 0 rs_generated eq_refl R N
              (fun _ => eq_refl)) as (G & _).
  destruct G as (d & st' & E & K & V).
  - intros k I. vm_compute in I. destruct I as [<-|[]]. discriminate.
  - exists d, st'. split; [exact E|]. split; [exact K|].
    rewrite (V "out_id_abrigo") by (rewrite K; left; reflexivity).
    reflexivity.
Defined.

(** The listener is gone: the one call to [SessionPool] fails and the
    global, which named pool 0, is reset. *)
Lemma init_oracle_pool_outcome_witness :
  let st' := snd (init_oracle_pool cfg_ok drv_lost st_ready) in
  init_oracle_pool cfg_ok drv_lost st_ready = (Ok tt, st') /\
  pool st' = None /\
  exists new,
    log st' = new ++ log st_ready /\
    closed new = [] /\
    pool_attempts new = [pool st'].
Proof.
  intros st'.
  assert (H : init_oracle_pool cfg_ok drv_lost st_ready = (Ok tt, st'))
    by (vm_compute; reflexivity).
  split; [exact H|]. split; [vm_compute; reflexivity|].
  destruct (@init_oracle_pool_outcome cfg_ok drv_lost st_ready (Ok tt) st' H)
    as (new & L & K & _ & _ & A).
  exists new. split; [exact L|]. split; [exact K|]. exact (A eq_refl).
Defined.

(** The pool is there but gives no connection: a 503, and the global is
    kept. *)
Lemma get_db_connection_outcome_witness :
  let st' := snd (get_db_connection cfg_ok drv_exhausted st_ready) in
  (exists d,
      get_db_connection cfg_ok drv_exhausted st_ready
      = (Raise (HTTPException 503 d), st')) /\
  pool st_ready = Some 0 /\
  pool st' = Some 0 /\
  exists new, log st' = new ++ log st_ready /\ pool_attempts new = [].
Proof.
  intros st'.
  assert (H : exists d,
             get_db_connection cfg_ok drv_exhausted st_ready
             = (Raise (HTTPException 503 d), st'))
    by (eexists; vm_compute; reflexivity).
  split; [exact H|]. split; [reflexivity|].
  destruct H as (d & H).
  destruct (@get_db_connection_outcome cfg_ok drv_exhausted st_ready _ st' H)
    as (new & L & _ & A & _).
  destruct (A 0 eq_refl) as (P & N & _).
  split; [exact P|]. exists new. split; [exact L|exact N].
Defined.

(** Shutdown closes pool 0; the next acquisition goes to pool 0, closed
    as it is. *)
Lemma shutdown_event_keeps_global_witness :
  let st' := snd (shutdown_event drv_person st_ready) in
  let st2 := snd (get_db_connection cfg_ok drv_person st') in
  pool st_ready = Some 0 /\
  pool st' = Some 0 /\
  (exists new, log st' = new ++ log st_ready /\ closed new = [0]) /\
  exists c new2,
    get_db_connection cfg_ok drv_person st' = (Ok c, st2) /\
    log st2 = new2 ++ log st' /\
    pool_attempts new2 = [] /\
    conn_pool c = 0.
Proof.
  intros st' st2.
  assert (H : exists r, shutdown_event drv_person st_ready = (r, st'))
    by (eexists; vm_compute; reflexivity).
  assert (G : exists c,
             get_db_connection cfg_ok drv_person st' = (Ok c, st2))
    by (eexists; vm_compute; reflexivity).
  destruct H as (r & H). destruct G as (c & G).
  destruct (@shutdown_event_keeps_global cfg_ok drv_person st_ready r st' H)
    as (P & (new & L & K & _) & A).
  split; [reflexivity|]. split; [exact P|].
  split; [exists new; split; [exact L|exact K]|].
  destruct (A 0 _ st2 eq_refl G) as (_ & new2 & L2 & N2 & C2).
  exists c, new2. split; [exact G|]. split; [exact L2|].
  split; [exact N2|]. exact (C2 c eq_refl).
Defined.


(** The INSERT of a shelter comes back with the identity 42, and the
    route goes on to read shelter 42. *)
Lemma create_routes_read_back_witness :
  healthy drv_generated /\
  outvar rs_generated "out_id_abrigo" = [VInt 42] /\
  cadastrar_abrigo cfg_ok drv_generated abrigo_central st_ready
  = obter_abrigo cfg_ok drv_generated (VInt 42)
      (after_write 0 query_cadastrar_abrigo
         (AbrigoCreate.to_dict abrigo_central ++ [("out_id_abrigo", VVar)])
         st_ready).
Proof.
  split; [apply healthy_drv_answer|]. split; [reflexivity|].
  destruct (@create_routes_read_back cfg_ok drv_generated
              (@healthy_drv_answer _) st_ready 0 (VInt 42) eq_refl
              (fun _ => eq_refl)) as (A & _).
  exact (A abrigo_central rs_generated [] (fun _ _ => eq_refl) eq_refl).
Defined.

(** A shelter that meets ORA-00001. *)
Lemma create_conflict_is_500_elsewhere_witness :
  healthy drv_duplicate /\
  exists st',
    cadastrar_abrigo cfg_ok drv_duplicate abrigo_central st_ready
    = (Raise (HTTPException 500
                "Erro no banco de dados Oracle: ORA-00001: unique constraint (RM000000.PESSOAS_CPF_UK) violated"),
       st').
Proof.
  split; [apply healthy_drv_answer|].
  destruct (@create_conflict_is_500_elsewhere cfg_ok drv_duplicate
              (@healthy_drv_answer _) st_ready 0
              "ORA-00001: unique constraint (RM000000.PESSOAS_CPF_UK) violated"
              eq_refl) as (A & _).
  destruct (A abrigo_central (fun _ _ => eq_refl)) as (st' & E).
  exists st'. rewrite E. vm_compute. reflexivity.
Defined.

(** An update of the name alone. *)
Lemma updates_keep_fixed_columns_witness :
  In "nome" (keys (PessoaUpdate.dict_exclude_unset update_nome)) /\
  In "nome" PessoaUpdate.fields /\
  ~ In "nome" fixed_columns_pessoa.
Proof.
  assert (I : In "nome" (keys (PessoaUpdate.dict_exclude_unset update_nome)))
    by (simpl; left; reflexivity).
  split; [exact I|].
  exact (proj1 updates_keep_fixed_columns update_nome "nome" I).
Defined.

(** Person 7 is there. *)
Lemma get_routes_rows_witness :
  healthy drv_person /\
  obter_pessoa cfg_ok drv_person (VInt 7) st_ready
  = (Ok (RDict [("id_pessoa", VInt 7); ("nome", VStr "Maria");
                ("cpf", VStr "12345678900"); ("telefone", VNone);
                ("endereco", VNone); ("situacao", VStr "desabrigado");
                ("necessidades", VNone);
                ("data_cadastro", VStr "2024-05-10 08:30:00")]),
     after_read 0 query_obter_pessoa [("id_pessoa", VInt 7)] st_ready).
Proof.
  split; [apply healthy_drv_answer|].
  destruct (@get_routes_rows cfg_ok drv_person (@healthy_drv_answer _)
              (VInt 7) st_ready 0 rs_pessoa _ eq_refl eq_refl) as (A & _).
  destruct (A (fun _ => eq_refl)) as (_ & F).
  rewrite (F _ _ _ _ _ eq_refl eq_refl). vm_compute. reflexivity.
Defined.

(** The DELETE of person 7 returns. *)
Lemma execute_query_returns_released_witness :
  exists v st' new,
    execute_query cfg_ok drv_person
      "DELETE FROM PESSOAS WHERE ID_PESSOA = :id_pessoa"
      (Some [("id_pessoa", VInt 7)]) false true false st_ready = (Ok v, st') /\
    log st' = new ++ log st_ready /\
    acquired new = [{| conn_pool := 0; conn_id := 1 |}] /\
    released new = [(0, {| conn_pool := 0; conn_id := 1 |})] /\
    closed new = [] /\
    pool st' = Some 0.
Proof.
  assert (H : exists v st',
             execute_query cfg_ok drv_person
               "DELETE FROM PESSOAS WHERE ID_PESSOA = :id_pessoa"
               (Some [("id_pessoa", VInt 7)]) false true false st_ready
             = (Ok v, st'))
    by (do 2 eexists; vm_compute; reflexivity).
  destruct H as (v & st' & H).
  destruct (@execute_query_returns_released cfg_ok drv_person
              "DELETE FROM PESSOAS WHERE ID_PESSOA = :id_pessoa"
              (Some [("id_pessoa", VInt 7)]) false true false st_ready v st' H)
    as (new & c & L & A & R & K & P & Q).
  exists v, st', new. split; [exact H|]. split; [exact L|].
  assert (E : acquired (log st') = [{| conn_pool := 0; conn_id := 1 |}]).
  { replace st' with
      (snd (execute_query cfg_ok drv_person
              "DELETE FROM PESSOAS WHERE ID_PESSOA = :id_pessoa"
              (Some [("id_pessoa", VInt 7)]) false true false st_ready))
      by (rewrite H; reflexivity).
    vm_compute. reflexivity. }
  rewrite L in E. simpl in E. rewrite app_nil_r in E. rewrite A in E.
  inv E. rewrite A, R, K, P. repeat split; reflexivity.
Defined.

(** The statistics with the session dropping at the first statement. *)
Lemma get_endpoints_read_only_witness :
  exists r st' new,
    obter_estatisticas cfg_ok drv_dropped st_ready = (r, st') /\
    log st' = new ++ log st_ready /\
    reads_only new.
Proof.
  assert (H : exists r st',
             obter_estatisticas cfg_ok drv_dropped st_ready = (r, st'))
    by (do 2 eexists; vm_compute; reflexivity).
  destruct H as (r & st' & H).
  destruct (@get_endpoints_read_only cfg_ok drv_dropped) as (_ & _ & _ & _ & S).
  destruct (S st_ready r st' H) as (new & L & R).
  exists r, st', new. split; [exact H|]. split; [exact L|exact R].
Defined.
